(** * The MicroBit fiber scheduler (source/MicroBitFiber.cpp)

    A shallow embedding of the scheduler's state and of its functions, and
    the properties that its description states about them.

    Pointers are 32-bit addresses ([Z], [NULL] is 0).  Fiber records live in
    a finite map from addresses to records, so that two pointers to the same
    record alias as they do in the program.  Every function is a computation
    over the whole scheduler state that either finishes, faults on an invalid
    pointer, or never returns. *)

From Stdlib Require Import ZArith Lia List Bool.
From stdpp Require Import base decidable option list gmap fin_maps.

#[local] Open Scope Z_scope.

(** ** Machine integers *)

Abbreviation NULL := 0%Z (only parsing).

Definition wrap32 (z : Z) : Z := z mod 2 ^ 32.
Definition wrap16 (z : Z) : Z := z mod 2 ^ 16.

(** A C condition [if (x & MASK)]. *)
Definition flag_set (word mask : Z) : bool := negb (Z.land word mask =? 0).

(** [word |= mask] and [word &= ~mask]. *)
Definition flag_or (mask word : Z) : Z := Z.lor word mask.
Definition flag_clear (mask word : Z) : Z := Z.land word (Z.lnot mask).

(** ** Constants of MicroBitFiber.h and MicroBit.h

    The header that defines them is not part of the sources at hand, so they
    are parameters of the development.  The last four are the code
    addresses of the two trampolines and of the two overloads of
    [release_fiber], which [create_fiber] stores as plain 32-bit words. *)

Class Platform := {
  FIBER_STACK_SIZE : Z;
  FIBER_TICK_PERIOD_MS : Z;
  CORTEX_M0_STACK_BASE : Z;
  MICROBIT_ID_ANY : Z;
  MICROBIT_EVT_ANY : Z;
  MICROBIT_FIBER_FLAG_FOB : Z;
  MICROBIT_FIBER_FLAG_PARENT : Z;
  MICROBIT_FIBER_FLAG_CHILD : Z;
  MICROBIT_FLAG_DATA_READ : Z;
  sizeof_Cortex_M0_TCB : Z;
  addr_launch_new_fiber : Z;
  addr_launch_new_fiber_param : Z;
  addr_release_fiber : Z;
  addr_release_fiber_param : Z
}.

(** ** Data model *)

(** The four list heads a [Fiber **queue] back-pointer can refer to. *)
Inductive queue_id := RunQueue | SleepQueue | WaitQueue | FiberPool.

#[global] Instance queue_id_eq_dec : EqDecision queue_id.
Proof. solve_decision. Defined.

(** Saved processor context: the general registers, SP and LR. *)
Record Cortex_M0_TCB := mkTCB {
  regs : list Z;
  SP : Z;
  LR : Z
}.

Record Fiber := mkFiber {
  stack_top : Z;
  stack_bottom : Z;
  tcb : Cortex_M0_TCB;
  context : Z;
  flags : Z;
  queue : option queue_id;
  next : Z;
  prev : Z
}.

Record MicroBitEvent := mkEvent {
  source : Z;
  value : Z
}.

(** Calls to the C allocator, most recent first. *)
Inductive heap_event :=
| Malloc (size addr : Z)
| Free (addr : Z)
| New (addr : Z)
| Delete (addr : Z).

(** The scheduler's globals, the memory they point into, and the
    environment: the live registers [cpu], the interrupt mask, the words
    written into fiber stacks, the addresses the allocator will hand out
    next ([allocs], 0 or nothing left meaning out of memory) and the log of
    allocator calls. *)
Record state := mkState {
  heap : gmap Z Fiber;
  currentFiber : Z;
  forkedFiber : Z;
  runQueue : Z;
  sleepQueue : Z;
  waitQueue : Z;
  idle : Z;
  fiberPool : Z;
  emptyContext : option Cortex_M0_TCB;
  ticks : Z;
  fiber_flags : Z;
  cpu : Cortex_M0_TCB;
  irq_enabled : bool;
  stackmem : gmap Z Z;
  allocs : list Z;
  heap_log : list heap_event
}.

(** *** Field updates *)

Definition set_SP (v : Z) (t : Cortex_M0_TCB) := mkTCB (regs t) v (LR t).
Definition set_LR (v : Z) (t : Cortex_M0_TCB) := mkTCB (regs t) (SP t) v.

Definition set_stack_top (v : Z) (f : Fiber) :=
  mkFiber v (stack_bottom f) (tcb f) (context f) (flags f) (queue f) (next f) (prev f).
Definition set_stack_bottom (v : Z) (f : Fiber) :=
  mkFiber (stack_top f) v (tcb f) (context f) (flags f) (queue f) (next f) (prev f).
Definition set_tcb (v : Cortex_M0_TCB) (f : Fiber) :=
  mkFiber (stack_top f) (stack_bottom f) v (context f) (flags f) (queue f) (next f) (prev f).
Definition set_context (v : Z) (f : Fiber) :=
  mkFiber (stack_top f) (stack_bottom f) (tcb f) v (flags f) (queue f) (next f) (prev f).
Definition set_flags (v : Z) (f : Fiber) :=
  mkFiber (stack_top f) (stack_bottom f) (tcb f) (context f) v (queue f) (next f) (prev f).
Definition set_queue (v : option queue_id) (f : Fiber) :=
  mkFiber (stack_top f) (stack_bottom f) (tcb f) (context f) (flags f) v (next f) (prev f).
Definition set_next (v : Z) (f : Fiber) :=
  mkFiber (stack_top f) (stack_bottom f) (tcb f) (context f) (flags f) (queue f) v (prev f).
Definition set_prev (v : Z) (f : Fiber) :=
  mkFiber (stack_top f) (stack_bottom f) (tcb f) (context f) (flags f) (queue f) (next f) v.

Definition set_heap (v : gmap Z Fiber) (s : state) :=
  mkState v (currentFiber s) (forkedFiber s) (runQueue s) (sleepQueue s) (waitQueue s)
    (idle s) (fiberPool s) (emptyContext s) (ticks s) (fiber_flags s) (cpu s)
    (irq_enabled s) (stackmem s) (allocs s) (heap_log s).
Definition set_currentFiber (v : Z) (s : state) :=
  mkState (heap s) v (forkedFiber s) (runQueue s) (sleepQueue s) (waitQueue s)
    (idle s) (fiberPool s) (emptyContext s) (ticks s) (fiber_flags s) (cpu s)
    (irq_enabled s) (stackmem s) (allocs s) (heap_log s).
Definition set_forkedFiber (v : Z) (s : state) :=
  mkState (heap s) (currentFiber s) v (runQueue s) (sleepQueue s) (waitQueue s)
    (idle s) (fiberPool s) (emptyContext s) (ticks s) (fiber_flags s) (cpu s)
    (irq_enabled s) (stackmem s) (allocs s) (heap_log s).
Definition set_runQueue (v : Z) (s : state) :=
  mkState (heap s) (currentFiber s) (forkedFiber s) v (sleepQueue s) (waitQueue s)
    (idle s) (fiberPool s) (emptyContext s) (ticks s) (fiber_flags s) (cpu s)
    (irq_enabled s) (stackmem s) (allocs s) (heap_log s).
Definition set_sleepQueue (v : Z) (s : state) :=
  mkState (heap s) (currentFiber s) (forkedFiber s) (runQueue s) v (waitQueue s)
    (idle s) (fiberPool s) (emptyContext s) (ticks s) (fiber_flags s) (cpu s)
    (irq_enabled s) (stackmem s) (allocs s) (heap_log s).
Definition set_waitQueue (v : Z) (s : state) :=
  mkState (heap s) (currentFiber s) (forkedFiber s) (runQueue s) (sleepQueue s) v
    (idle s) (fiberPool s) (emptyContext s) (ticks s) (fiber_flags s) (cpu s)
    (irq_enabled s) (stackmem s) (allocs s) (heap_log s).
Definition set_fiberPool (v : Z) (s : state) :=
  mkState (heap s) (currentFiber s) (forkedFiber s) (runQueue s) (sleepQueue s) (waitQueue s)
    (idle s) v (emptyContext s) (ticks s) (fiber_flags s) (cpu s)
    (irq_enabled s) (stackmem s) (allocs s) (heap_log s).
Definition set_emptyContext (v : option Cortex_M0_TCB) (s : state) :=
  mkState (heap s) (currentFiber s) (forkedFiber s) (runQueue s) (sleepQueue s) (waitQueue s)
    (idle s) (fiberPool s) v (ticks s) (fiber_flags s) (cpu s)
    (irq_enabled s) (stackmem s) (allocs s) (heap_log s).
Definition set_ticks (v : Z) (s : state) :=
  mkState (heap s) (currentFiber s) (forkedFiber s) (runQueue s) (sleepQueue s) (waitQueue s)
    (idle s) (fiberPool s) (emptyContext s) v (fiber_flags s) (cpu s)
    (irq_enabled s) (stackmem s) (allocs s) (heap_log s).
Definition set_cpu (v : Cortex_M0_TCB) (s : state) :=
  mkState (heap s) (currentFiber s) (forkedFiber s) (runQueue s) (sleepQueue s) (waitQueue s)
    (idle s) (fiberPool s) (emptyContext s) (ticks s) (fiber_flags s) v
    (irq_enabled s) (stackmem s) (allocs s) (heap_log s).
Definition set_irq_enabled (v : bool) (s : state) :=
  mkState (heap s) (currentFiber s) (forkedFiber s) (runQueue s) (sleepQueue s) (waitQueue s)
    (idle s) (fiberPool s) (emptyContext s) (ticks s) (fiber_flags s) (cpu s)
    v (stackmem s) (allocs s) (heap_log s).
Definition set_stackmem (v : gmap Z Z) (s : state) :=
  mkState (heap s) (currentFiber s) (forkedFiber s) (runQueue s) (sleepQueue s) (waitQueue s)
    (idle s) (fiberPool s) (emptyContext s) (ticks s) (fiber_flags s) (cpu s)
    (irq_enabled s) v (allocs s) (heap_log s).
Definition set_allocs (v : list Z) (s : state) :=
  mkState (heap s) (currentFiber s) (forkedFiber s) (runQueue s) (sleepQueue s) (waitQueue s)
    (idle s) (fiberPool s) (emptyContext s) (ticks s) (fiber_flags s) (cpu s)
    (irq_enabled s) (stackmem s) v (heap_log s).
Definition set_heap_log (v : list heap_event) (s : state) :=
  mkState (heap s) (currentFiber s) (forkedFiber s) (runQueue s) (sleepQueue s) (waitQueue s)
    (idle s) (fiberPool s) (emptyContext s) (ticks s) (fiber_flags s) (cpu s)
    (irq_enabled s) (stackmem s) (allocs s) v.

(** [*queue] as an r-value and as an l-value. *)
Definition queue_head (q : queue_id) (s : state) : Z :=
  match q with
  | RunQueue => runQueue s
  | SleepQueue => sleepQueue s
  | WaitQueue => waitQueue s
  | FiberPool => fiberPool s
  end.

Definition set_queue_head (q : queue_id) (v : Z) (s : state) : state :=
  match q with
  | RunQueue => set_runQueue v s
  | SleepQueue => set_sleepQueue v s
  | WaitQueue => set_waitQueue v s
  | FiberPool => set_fiberPool v s
  end.

(** ** Computations *)

(** How a call ends: it finishes with a value in a new state, it
    dereferences a null or dangling pointer, it enters a loop that never
    exits, or the bound given to a list walk was too small to tell. *)
Inductive result (A : Type) :=
| Ok (a : A) (s : state)
| Fault
| Diverge
| OutOfFuel.
Arguments Ok {A} a s.
Arguments Fault {A}.
Arguments Diverge {A}.
Arguments OutOfFuel {A}.

Definition M (A : Type) := state -> result A.

Definition ret {A} (a : A) : M A := fun s => Ok a s.

Definition bind {A B} (m : M A) (k : A -> M B) : M B :=
  fun s => match m s with
           | Ok a s' => k a s'
           | Fault => Fault
           | Diverge => Diverge
           | OutOfFuel => OutOfFuel
           end.

Notation "x <- m ;; k" := (bind m (fun x => k))
  (at level 100, m at next level, right associativity).
Notation "m ;; k" := (bind m (fun _ => k))
  (at level 100, right associativity).

Definition fault {A} : M A := fun _ => Fault.
Definition diverge {A} : M A := fun _ => Diverge.
Definition out_of_fuel {A} : M A := fun _ => OutOfFuel.

Definition gets {A} (proj : state -> A) : M A := fun s => Ok (proj s) s.
Definition modify (upd : state -> state) : M unit := fun s => Ok tt (upd s).

(** [p->field] as an r-value: the whole record is read, a null or dangling
    [p] faults. *)
Definition load (p : Z) : M Fiber :=
  fun s => if decide (p = NULL) then Fault
           else match heap s !! p with
                | Some f => Ok f s
                | None => Fault
                end.

(** [p->field = v], as an update of the record [p] points to. *)
Definition store (p : Z) (upd : Fiber -> Fiber) : M unit :=
  f <- load p ;;
  modify (fun s => set_heap (<[p := upd f]> (heap s)) s).

Definition disable_irq : M unit := modify (set_irq_enabled false).
Definition enable_irq : M unit := modify (set_irq_enabled true).

(** ** Queue primitives *)

(** [queue_fiber], lines 48-62. *)
Definition queue_fiber (f : Z) (queue : queue_id) : M unit :=
  disable_irq ;;
  store f (set_queue (Some queue)) ;;
  (h <- gets (queue_head queue) ;; store f (set_next h)) ;;
  store f (set_prev NULL) ;;
  (h <- gets (queue_head queue) ;;
   if decide (h = NULL) then ret tt else store h (set_prev f)) ;;
  modify (set_queue_head queue f) ;;
  enable_irq.

(** [dequeue_fiber], lines 68-92.  Every statement reads the fields it uses
    afresh, as the C code does. *)
Definition dequeue_fiber (f : Z) : M unit :=
  fr <- load f ;;
  match queue fr with
  | None => ret tt
  | Some q =>
      disable_irq ;;
      (fr <- load f ;;
       if decide (prev fr = NULL)
       then modify (set_queue_head q (next fr))
       else store (prev fr) (set_next (next fr))) ;;
      (fr <- load f ;;
       if decide (next fr = NULL) then ret tt
       else store (next fr) (set_prev (prev fr))) ;;
      store f (set_next NULL) ;;
      store f (set_prev NULL) ;;
      store f (set_queue None) ;;
      enable_irq
  end.

(** ** The allocator *)

Definition next_alloc (s : state) : Z * list Z :=
  match allocs s with
  | [] => (NULL, [])
  | a :: rest => (a, rest)
  end.

(** [malloc(size)]: the next address of the script, NULL when memory is
    exhausted. *)
Definition malloc (size : Z) : M Z :=
  fun s => let (a, rest) := next_alloc s in
           Ok a (set_heap_log (Malloc size a :: heap_log s) (set_allocs rest s)).

Definition free (p : Z) : M unit :=
  modify (fun s => set_heap_log (Free p :: heap_log s) s).

(** A value-initialised record: [new Fiber()] zeroes every field of the plain
    struct. *)
Definition zero_Fiber : Fiber :=
  mkFiber 0 0 (mkTCB [] 0 0) 0 0 None NULL NULL.

(** [new Fiber()], NULL when memory is exhausted. *)
Definition new_Fiber : M Z :=
  fun s => let (a, rest) := next_alloc s in
           if decide (a = NULL) then Ok NULL (set_allocs rest s)
           else Ok a (set_heap_log (New a :: heap_log s)
                        (set_heap (<[a := zero_Fiber]> (heap s)) (set_allocs rest s))).

(** [delete f]. *)
Definition delete_Fiber (f : Z) : M unit :=
  modify (fun s => set_heap_log (Delete f :: heap_log s) (set_heap (delete f (heap s)) s)).

(** [*((uint32_t * )(base + off)) = v], a word written into the stack
    buffer that starts at [base].  As for [load] and [store], an access
    through a null pointer is a fault. *)
Definition poke (base off v : Z) : M unit :=
  if decide (base = NULL) then fault
  else modify (fun s => set_stackmem (<[wrap32 (base + off) := v]> (stackmem s)) s).

Section Scheduler.
Context `{hw : Platform}.

(** ** The architecture primitives

    The four assembly routines are not part of the sources at hand. *)

(** Modelled from the spec: [save_context(slot, stack_top)] is missing; the
    slot receives the live registers, so that restoring it resumes at the
    current instruction. *)
Definition save_context (f : Z) (top : Z) : M unit :=
  r <- gets cpu ;; store f (set_tcb r).

(** Modelled from the spec: [save_register_context(slot)] is missing; it
    snapshots the registers for a local re-entry. *)
Definition save_register_context (f : Z) : M unit :=
  r <- gets cpu ;; store f (set_tcb r).

(** Modelled from the spec: [restore_register_context(slot)] is missing; the
    inverse of the above, it does not return to its caller. *)
Definition restore_register_context (f : Z) : M unit :=
  fr <- load f ;; modify (set_cpu (tcb fr)).

(** Modelled from the spec: [swap_context(out, in, out_top, in_top)] is
    missing; it saves into the outgoing slot and resumes the incoming one. *)
Definition swap_context (old new old_top new_top : Z) : M unit :=
  (r <- gets cpu ;; store old (set_tcb r)) ;;
  fr <- load new ;; modify (set_cpu (tcb fr)).

(** [__get_MSP()]: the live stack pointer. *)
Definition get_MSP : M Z := gets (fun s => SP (cpu s)).

(** ** Fiber records and the pool *)

(** [getFiberContext], lines 97-132.  The common tail [f->flags = 0;
    return f;] is written once per branch. *)
Definition getFiberContext : M Z :=
  disable_irq ;;
  pool <- gets fiberPool ;;
  if decide (pool = NULL) then
    enable_irq ;;
    f <- new_Fiber ;;
    if decide (f = NULL) then ret NULL
    else
      (a <- malloc FIBER_STACK_SIZE ;; store f (set_stack_bottom a)) ;;
      (fr <- load f ;;
       store f (set_stack_top (wrap32 (stack_bottom fr + FIBER_STACK_SIZE)))) ;;
      fr <- load f ;;
      if decide (stack_bottom fr = NULL) then delete_Fiber f ;; ret NULL
      else store f (set_flags 0) ;; ret f
  else
    dequeue_fiber pool ;;
    store pool (set_flags 0) ;;
    ret pool.

(** The loop [while (bufferSize < stackDepth) bufferSize = bufferSize << 1]
    on 32-bit words.  After 32 doublings the word is 0, from where the loop
    cannot make progress: running out of the 32 steps is divergence (see
    [grow_buffer_fuel]). *)
Fixpoint grow_buffer (fuel : nat) (bufferSize stackDepth : Z) : option Z :=
  if bufferSize <? stackDepth then
    match fuel with
    | O => None
    | S fuel' => grow_buffer fuel' (wrap32 (Z.shiftl bufferSize 1)) stackDepth
    end
  else Some bufferSize.

(** [verify_stack_size], lines 575-595. *)
Definition verify_stack_size (f : Z) : M unit :=
  msp <- get_MSP ;;
  let stackDepth := wrap32 (CORTEX_M0_STACK_BASE - msp) in
  fr <- load f ;;
  let bufferSize := wrap32 (stack_top fr - stack_bottom fr) in
  if bufferSize <? stackDepth then
    match grow_buffer 32 bufferSize stackDepth with
    | None => diverge
    | Some bufferSize' =>
        (fr <- load f ;; free (stack_bottom fr)) ;;
        (a <- malloc bufferSize' ;; store f (set_stack_bottom a)) ;;
        (fr <- load f ;;
         store f (set_stack_top (wrap32 (stack_bottom fr + bufferSize'))))
    end
  else ret tt.

(** ** Timer tick and event dispatch *)

(** The loop of [scheduler_tick], lines 178-190; [fuel] bounds the number
    of records visited. *)
Fixpoint scheduler_tick_walk (fuel : nat) (f : Z) : M unit :=
  if decide (f = NULL) then ret tt
  else match fuel with
       | O => out_of_fuel
       | S fuel' =>
           fr <- load f ;;
           let t := next fr in
           now <- gets ticks ;;
           (if now >=? context fr
            then dequeue_fiber f ;; queue_fiber f RunQueue
            else ret tt) ;;
           scheduler_tick_walk fuel' t
       end.

(** [scheduler_tick], lines 169-191. *)
Definition scheduler_tick (fuel : nat) : M unit :=
  f <- gets sleepQueue ;;
  modify (fun s => set_ticks (wrap32 (ticks s + FIBER_TICK_PERIOD_MS)) s) ;;
  scheduler_tick_walk fuel f.

(** The test of lines 209-212 on the context word of a waiting fiber. *)
Definition event_wakes (ctx : Z) (evt : MicroBitEvent) : bool :=
  let id := wrap16 (Z.land ctx 255) in
  let val := wrap16 (Z.shiftr (Z.land ctx 65280) 16) in
  ((id =? MICROBIT_ID_ANY) || (id =? source evt))
  && ((val =? MICROBIT_EVT_ANY) || (val =? value evt)).

(** The loop of [scheduler_event], lines 204-220. *)
Fixpoint scheduler_event_walk (fuel : nat) (evt : MicroBitEvent) (f : Z) : M unit :=
  if decide (f = NULL) then ret tt
  else match fuel with
       | O => out_of_fuel
       | S fuel' =>
           fr <- load f ;;
           let t := next fr in
           (if event_wakes (context fr) evt
            then dequeue_fiber f ;; queue_fiber f RunQueue
            else ret tt) ;;
           scheduler_event_walk fuel' evt t
       end.

(** [scheduler_event], lines 198-221. *)
Definition scheduler_event (fuel : nat) (evt : MicroBitEvent) : M unit :=
  f <- gets waitQueue ;;
  scheduler_event_walk fuel evt f.

(** ** The scheduler *)

(** Where control is when a call has finished its work: back in the caller,
    at the register snapshot taken by [fork_on_block] (after
    [restore_register_context]), or in the fiber that [swap_context]
    switched to. *)
Inductive control := Returns | Resumes_at_snapshot | Switched.

(** Lines 627-630 of [schedule]: the code that follows [save_context], run
    by the original fiber at once and by the forked fiber when it is first
    switched in. *)
Definition schedule_after_save : M control :=
  cf <- gets currentFiber ;;
  cur <- load cf ;;
  if flag_set (flags cur) MICROBIT_FIBER_FLAG_PARENT
  then restore_register_context cf ;; ret Resumes_at_snapshot
  else ret Returns.

(** Lines 635-644 of [schedule]: the choice of the next fiber. *)
Definition schedule_pick : M unit :=
  rq <- gets runQueue ;;
  ff <- gets fiber_flags ;;
  if bool_decide (rq = NULL) || flag_set ff MICROBIT_FLAG_DATA_READ then
    i <- gets idle ;; modify (set_currentFiber i)
  else
    cf <- gets currentFiber ;;
    cur <- load cf ;;
    if decide (queue cur = Some RunQueue) then
      (if decide (next cur = NULL)
       then modify (set_currentFiber rq)
       else modify (set_currentFiber (next cur)))
    else modify (set_currentFiber rq).

(** Lines 648-655 of [schedule]: the context switch. *)
Definition schedule_switch (oldFiber : Z) : M control :=
  cf <- gets currentFiber ;;
  if decide (cf = oldFiber) then ret Returns
  else
    verify_stack_size oldFiber ;;
    (old <- load oldFiber ;; cur <- load cf ;;
     swap_context oldFiber cf (stack_top old) (stack_top cur)) ;;
    ret Switched.

(** [schedule], lines 602-656.  In fork-on-block context control leaves
    through [schedule_after_save] and the round robin below it is not
    reached. *)
Definition schedule : M control :=
  oldFiber <- gets currentFiber ;;
  cur <- load oldFiber ;;
  if flag_set (flags cur) MICROBIT_FIBER_FLAG_FOB then
    (ff <- gets forkedFiber ;; verify_stack_size ff) ;;
    (cf <- gets currentFiber ;;
     store cf (fun r => set_flags (flag_or MICROBIT_FIBER_FLAG_PARENT (flags r)) r)) ;;
    (ff <- gets forkedFiber ;;
     store ff (fun r => set_flags (flag_or MICROBIT_FIBER_FLAG_CHILD (flags r)) r)) ;;
    (ff <- gets forkedFiber ;; fr <- load ff ;; save_context ff (stack_top fr)) ;;
    schedule_after_save
  else
    schedule_pick ;;
    schedule_switch oldFiber.

(** ** Blocking primitives *)

(** Lines 236-251 and 279-293: the choice of the record that blocks. *)
Definition blocking_fiber : M Z :=
  f <- gets currentFiber ;;
  cur <- load f ;;
  if flag_set (flags cur) MICROBIT_FIBER_FLAG_FOB then
    (ff <- getFiberContext ;; modify (set_forkedFiber ff)) ;;
    ff <- gets forkedFiber ;;
    if decide (ff = NULL) then ret f else ret ff
  else ret f.

(** [fiber_sleep], lines 234-264. *)
Definition fiber_sleep (t : Z) : M control :=
  f <- blocking_fiber ;;
  (now <- gets ticks ;; store f (set_context (wrap32 (now + t)))) ;;
  dequeue_fiber f ;;
  queue_fiber f SleepQueue ;;
  schedule.

(** [fiber_wait_for_event], lines 277-306. *)
Definition fiber_wait_for_event (id value : Z) : M control :=
  f <- blocking_fiber ;;
  store f (set_context (wrap32 (Z.lor (Z.shiftl value 16) id))) ;;
  dequeue_fiber f ;;
  queue_fiber f WaitQueue ;;
  schedule.

(** ** Creation and release *)

(** [create_fiber(entry_fn, completion_fn)], lines 443-484.  The two words
    of lines 457-458 go through [stack_bottom] unchecked.  A failed
    allocation of the cached context makes [memcpy] write through NULL. *)
Definition create_fiber (entry_fn completion_fn : Z) : M Z :=
  if decide (entry_fn = NULL \/ completion_fn = NULL) then ret NULL
  else
    newFiber <- getFiberContext ;;
    if decide (newFiber = NULL) then ret NULL
    else
      (fr <- load newFiber ;; poke (stack_bottom fr) 0 entry_fn) ;;
      (fr <- load newFiber ;; poke (stack_bottom fr) 4 completion_fn) ;;
      (ec <- gets emptyContext ;;
       match ec with
       | Some t => store newFiber (set_tcb t)
       | None =>
           (fr <- load newFiber ;; save_context newFiber (stack_top fr)) ;;
           store newFiber (fun r => set_tcb (set_SP CORTEX_M0_STACK_BASE (tcb r)) r) ;;
           store newFiber (fun r => set_tcb (set_LR addr_launch_new_fiber (tcb r)) r) ;;
           a <- malloc sizeof_Cortex_M0_TCB ;;
           if decide (a = NULL) then fault
           else fr <- load newFiber ;;
                modify (set_emptyContext (Some (tcb fr)))
       end) ;;
      queue_fiber newFiber RunQueue ;;
      ret newFiber.

(** [create_fiber(entry_fn, param, completion_fn)], lines 512-541.  Without a
    cached context [memcpy] reads through NULL. *)
Definition create_fiber_param (entry_fn param completion_fn : Z) : M Z :=
  if decide (entry_fn = NULL \/ completion_fn = NULL) then ret NULL
  else
    newFiber <- getFiberContext ;;
    if decide (newFiber = NULL) then ret NULL
    else
      (fr <- load newFiber ;; poke (stack_bottom fr) 0 entry_fn) ;;
      (fr <- load newFiber ;; poke (stack_bottom fr) 4 param) ;;
      (fr <- load newFiber ;; poke (stack_bottom fr) 8 completion_fn) ;;
      (ec <- gets emptyContext ;;
       match ec with
       | Some t => store newFiber (set_tcb t)
       | None => fault
       end) ;;
      store newFiber (fun r => set_tcb (set_LR addr_launch_new_fiber_param (tcb r)) r) ;;
      queue_fiber newFiber RunQueue ;;
      ret newFiber.

(** [release_fiber(void)], lines 559-567. *)
Definition release_fiber : M control :=
  (cf <- gets currentFiber ;; dequeue_fiber cf) ;;
  (cf <- gets currentFiber ;; queue_fiber cf FiberPool) ;;
  schedule.

(** [release_fiber(void * )], lines 549-552. *)
Definition release_fiber_param (param : Z) : M control := release_fiber.

(** ** Fork on block

    [fork_on_block] is entered once and may be left twice: its register
    snapshot is a second entry point, reached through
    [restore_register_context].  The function is therefore given in three
    pieces: from the call to the snapshot, from the snapshot to the call of
    the handler, and from the return of the handler to the end. *)

(** What [fork_on_block] does next: it returns to its caller, or it calls
    [entry_fn]. *)
Inductive fork_phase := Exits | Calls_handler.

(** Lines 342-352: from the snapshot on. *)
Definition fork_on_block_snapshot : M fork_phase :=
  cf <- gets currentFiber ;;
  cur <- load cf ;;
  if flag_set (flags cur) MICROBIT_FIBER_FLAG_PARENT then
    store cf (fun r => set_flags (flag_clear MICROBIT_FIBER_FLAG_FOB (flags r)) r) ;;
    (cf <- gets currentFiber ;;
     store cf (fun r => set_flags (flag_clear MICROBIT_FIBER_FLAG_PARENT (flags r)) r)) ;;
    ret Exits
  else
    store cf (fun r => set_flags (flag_or MICROBIT_FIBER_FLAG_FOB (flags r)) r) ;;
    ret Calls_handler.

(** [fork_on_block(entry_fn)], lines 319-352.  The one-argument
    [create_fiber(entry_fn)] passes [release_fiber] as the completion
    routine. *)
Definition fork_on_block (entry_fn : Z) : M fork_phase :=
  if decide (entry_fn = NULL) then ret Exits
  else
    cf <- gets currentFiber ;;
    cur <- load cf ;;
    if flag_set (flags cur) MICROBIT_FIBER_FLAG_FOB then
      create_fiber entry_fn addr_release_fiber ;; ret Exits
    else
      save_register_context cf ;;
      fork_on_block_snapshot.

(** [fork_on_block(entry_fn, param)], lines 374-407.  The two-argument
    [create_fiber(entry_fn, param)] passes [release_fiber(void * )] as the
    completion routine. *)
Definition fork_on_block_param (entry_fn param : Z) : M fork_phase :=
  if decide (entry_fn = NULL) then ret Exits
  else
    cf <- gets currentFiber ;;
    cur <- load cf ;;
    if flag_set (flags cur) MICROBIT_FIBER_FLAG_FOB then
      create_fiber_param entry_fn param addr_release_fiber_param ;; ret Exits
    else
      save_register_context cf ;;
      fork_on_block_snapshot.

(** Lines 354-359 (and 409-414): from the return of the handler on. *)
Definition fork_on_block_return : M control :=
  (cf <- gets currentFiber ;;
   store cf (fun r => set_flags (flag_clear MICROBIT_FIBER_FLAG_FOB (flags r)) r)) ;;
  cf <- gets currentFiber ;;
  cur <- load cf ;;
  if flag_set (flags cur) MICROBIT_FIBER_FLAG_CHILD then release_fiber
  else ret Returns.

End Scheduler.

(** ** Well-formed queues *)

(** [dll h q prv hd l]: in the heap [h], following [next] from [hd] visits
    exactly the records [l] and then NULL; every one of them carries the
    back-pointer [q], and its [prev] is the record before it ([prv] for the
    first). *)
Fixpoint dll (h : gmap Z Fiber) (q : queue_id) (prv hd : Z) (l : list Z) : Prop :=
  match l with
  | [] => hd = NULL
  | f :: l' =>
      hd = f /\ f <> NULL /\
      exists fr, h !! f = Some fr /\ queue fr = Some q /\ prev fr = prv /\
                 dll h q f (next fr) l'
  end.

(** The four queues of [s] hold the records [L q], in this order. *)
Definition queues_ok (s : state) (L : queue_id -> list Z) : Prop :=
  forall q, dll (heap s) q NULL (queue_head q s) (L q) /\ NoDup (L q).

Definition upd (L : queue_id -> list Z) (q : queue_id) (l : list Z) : queue_id -> list Z :=
  fun q' => if decide (q' = q) then l else L q'.

Definition hd_def (l : list Z) : Z := default NULL (head l).
Definition last_def (prv : Z) (l : list Z) : Z := default prv (last l).

(** The heap after [queue_fiber f q] when [f] points to [fr] and the queue
    head was [hd]. *)
Definition push_heap (f : Z) (q : queue_id) (hd : Z) (fr : Fiber)
    (h : gmap Z Fiber) : gmap Z Fiber :=
  let h1 := <[f := set_prev NULL (set_next hd (set_queue (Some q) fr))]> h in
  if decide (hd = NULL) then h1 else alter (set_prev f) hd h1.

Definition queued (f : Z) (q : queue_id) (fr : Fiber) (s : state) : state :=
  set_irq_enabled true
    (set_queue_head q f (set_heap (push_heap f q (queue_head q s) fr (heap s)) s)).

(** The heap after [dequeue_fiber f] when [f] points to the queued [fr]. *)
Definition unlink_heap (f : Z) (fr : Fiber) (h : gmap Z Fiber) : gmap Z Fiber :=
  let h1 := if decide (prev fr = NULL) then h
            else alter (set_next (next fr)) (prev fr) h in
  let h2 := if decide (next fr = NULL) then h1
            else alter (set_prev (prev fr)) (next fr) h1 in
  <[f := set_queue None (set_prev NULL (set_next NULL fr))]> h2.

Definition dequeued (f : Z) (q : queue_id) (fr : Fiber) (s : state) : state :=
  set_irq_enabled true
    (set_heap (unlink_heap f fr (heap s))
       (if decide (prev fr = NULL) then set_queue_head q (next fr) s else s)).

(** A record without its queue linkage. *)
Definition strip (fr : Fiber) : Fiber :=
  set_queue None (set_prev NULL (set_next NULL fr)).

(** Two heaps that differ in queue linkage at most. *)
Definition links_only (h h' : gmap Z Fiber) : Prop :=
  forall g, strip <$> (h' !! g) = strip <$> (h !! g).

(** [s'] differs from [s] in the heap, the four queue heads and the
    interrupt mask at most. *)
Definition frame_queues (s s' : state) : Prop :=
  s' = set_irq_enabled (irq_enabled s')
         (set_fiberPool (fiberPool s')
            (set_waitQueue (waitQueue s')
               (set_sleepQueue (sleepQueue s')
                  (set_runQueue (runQueue s') (set_heap (heap s') s))))).


(** The sleepers that a tick at time [now] wakes. *)
Definition expired (h : gmap Z Fiber) (now : Z) (f : Z) : bool :=
  match h !! f with
  | Some fr => now >=? context fr
  | None => false
  end.

(** A queue's list once [f] has left it. *)
Definition without (f : Z) (l : list Z) : list Z :=
  List.filter (fun g => negb (g =? f)) l.

(** The queue linkage of a record. *)
Definition linkage (fr : Fiber) : option queue_id * Z * Z :=
  (queue fr, next fr, prev fr).

(** Two heaps with the same records and the same queue linkage. *)
Definition same_links (h h' : gmap Z Fiber) : Prop :=
  forall g, linkage <$> (h' !! g) = linkage <$> (h !! g).

(** The state after [verify_stack_size f] has replaced the buffer of [fr] by
    one of [size] bytes. *)
Definition regrown (f : Z) (fr : Fiber) (size : Z) (s : state) : state :=
  let a := fst (next_alloc s) in
  set_heap (<[f := set_stack_top (wrap32 (a + size)) (set_stack_bottom a fr)]> (heap s))
    (set_heap_log (Malloc size a :: Free (stack_bottom fr) :: heap_log s)
       (set_allocs (snd (next_alloc s)) s)).

(** ** A concrete board

    The constants of a board with 64-byte initial stacks, a tick of one
    millisecond, the main stack based at 0x20003FFC, the sentinels 0 of the
    message bus and one bit per fiber flag; it serves the examples. *)
Definition microbit : Platform := {|
  FIBER_STACK_SIZE := 64;
  FIBER_TICK_PERIOD_MS := 1;
  CORTEX_M0_STACK_BASE := 536887292;
  MICROBIT_ID_ANY := 0;
  MICROBIT_EVT_ANY := 0;
  MICROBIT_FIBER_FLAG_FOB := 1;
  MICROBIT_FIBER_FLAG_PARENT := 2;
  MICROBIT_FIBER_FLAG_CHILD := 4;
  MICROBIT_FLAG_DATA_READ := 1;
  sizeof_Cortex_M0_TCB := 60;
  addr_launch_new_fiber := 4097;
  addr_launch_new_fiber_param := 4129;
  addr_release_fiber := 4161;
  addr_release_fiber_param := 4193
|}.

(** A record with a 64-byte stack at [bottom], on queue [q] between [p] and
    [n]. *)
Definition example_fiber (bottom flags : Z) (q : option queue_id) (n p : Z) : Fiber :=
  mkFiber (bottom + 64) bottom (mkTCB [] 0 0) 0 flags q n p.

(** A scheduler with the idle fiber at address 512 and the given records,
    queue heads and upcoming allocations; the stack pointer [sp] is live. *)
Definition example_state (h : gmap Z Fiber) (current run sleep wait pool : Z)
    (sp : Z) (al : list Z) : state :=
  mkState (<[512 := example_fiber 8192 0 None 0 0]> h) current 0 run sleep wait 512 pool
    (Some (mkTCB [] 536887292 4097)) 0 0 (mkTCB [] sp 0) true ∅ al [].

(** One fiber, at address 256, current and alone on the run queue. *)
Definition one_fiber (flags sp : Z) (al : list Z) : state :=
  example_state (<[256 := example_fiber 4096 flags (Some RunQueue) 0 0]> ∅)
    256 256 0 0 0 sp al.

(** The choice of the next fiber as the description of the scheduler words
    it: the idle fiber when the run queue is empty or a data read is
    pending; else, when the current fiber (whose record is [cur]) is on the
    run queue, its next link, or the head of the run queue when that link is
    null; else the head of the run queue. *)
Definition selection_rule `{hw : Platform} (s : state) (cur : Fiber) : Z :=
  let run_queue_empty := bool_decide (runQueue s = NULL) in
  let data_read_pending := flag_set (fiber_flags s) MICROBIT_FLAG_DATA_READ in
  let current_on_run_queue := bool_decide (queue cur = Some RunQueue) in
  if run_queue_empty || data_read_pending then idle s
  else if current_on_run_queue then
         (if bool_decide (next cur = NULL) then runQueue s else next cur)
       else runQueue s.

(** The state after [swap_context] has saved the registers into [old]'s
    record [old_rec] and loaded those of [new_rec]. *)
Definition switched (old : Z) (old_rec new_rec : Fiber) (s : state) : state :=
  set_cpu (tcb new_rec) (set_heap (<[old := set_tcb (cpu s) old_rec]> (heap s)) s).

(** What the scheduler looks at in a record. *)
Definition sched_view (fr : Fiber) : option queue_id * Z * Z * Z * Z :=
  (queue fr, next fr, prev fr, context fr, flags fr).

(** [s'] differs from [s] at most in the registers, the allocator and the
    stack and saved context of records. *)
Definition switch_frame (s s' : state) : Prop :=
  (forall g, sched_view <$> (heap s' !! g) = sched_view <$> (heap s !! g)) /\
  s' = set_cpu (cpu s') (set_allocs (allocs s')
         (set_heap_log (heap_log s') (set_heap (heap s') s))).

(** The state after [getFiberContext] has taken the record [p] off the
    pool. *)
Definition recycled (p : Z) (pr : Fiber) (s : state) : state :=
  let s1 := dequeued p FiberPool pr (set_irq_enabled false s) in
  set_heap (<[p := set_flags 0 (strip pr)]> (heap s1)) s1.

(** The state after [getFiberContext] has built a record at [a] with a
    stack at [b]. *)
Definition fresh_Fiber `{hw : Platform} (b : Z) : Fiber :=
  mkFiber (wrap32 (b + FIBER_STACK_SIZE)) b (mkTCB [] 0 0) 0 0 None 0 0.

Definition allocated `{hw : Platform} (a b : Z) (s : state) : state :=
  set_heap (<[a := fresh_Fiber b]> (heap s))
    (set_heap_log (Malloc FIBER_STACK_SIZE b :: New a :: heap_log s)
       (set_allocs (tail (tail (allocs s))) (set_irq_enabled true s))).

(** [s'] differs from [s] at most in the heap, the pool head, the allocator
    and the interrupt mask, which is left enabled. *)
Definition pool_frame (s s' : state) : Prop :=
  s' = set_irq_enabled true
         (set_allocs (allocs s')
            (set_heap_log (heap_log s')
               (set_fiberPool (fiberPool s') (set_heap (heap s') s)))).

(** What wake-ups depend on in a record: its linkage and its context
    word. *)
Definition wake_view (fr : Fiber) : option queue_id * Z * Z * Z :=
  (queue fr, next fr, prev fr, context fr).

(** [s'] has the records of [s] with the same linkage and context words,
    the same queue heads, idle fiber and tick count. *)
Definition same_queues (s s' : state) : Prop :=
  (forall g, wake_view <$> (heap s' !! g) = wake_view <$> (heap s !! g)) /\
  (forall q, queue_head q s' = queue_head q s) /\
  idle s' = idle s /\ ticks s' = ticks s.

(** Every normal outcome of [m] is related to the state it started from. *)
Definition keeps {A} (R : state -> state -> Prop) (m : M A) : Prop :=
  forall s a s', m s = Ok a s' -> R s s'.

(** [n] successive timer interrupts. *)
Fixpoint timer_ticks `{hw : Platform} (n fuel : nat) : M unit :=
  match n with
  | O => ret tt
  | S n' => scheduler_tick fuel ;; timer_ticks n' fuel
  end.

(** The queues of [one_fiber]. *)
Definition one_fiber_queues (q : queue_id) : list Z :=
  match q with
  | RunQueue => [256]
  | _ => []
  end.

(** The buffer size of the record that [getFiberContext] will hand out:
    that of the head of the pool, or FIBER_STACK_SIZE for a new record. *)
Definition forked_buffer_size `{hw : Platform} (s : state) : Z :=
  if decide (fiberPool s = NULL) then wrap32 FIBER_STACK_SIZE
  else match heap s !! fiberPool s with
       | Some pr => wrap32 (stack_top pr - stack_bottom pr)
       | None => 0
       end.

(** Every record of [s] is still a record of [s'], and its flags word has
    at most gained bits. *)
Definition flags_grow (s s' : state) : Prop :=
  forall g fr, heap s !! g = Some fr ->
    exists fr' m, heap s' !! g = Some fr' /\ flags fr' = Z.lor (flags fr) m.

(** ** Start-up and the trampolines *)

Definition set_idle (v : Z) (s : state) :=
  mkState (heap s) (currentFiber s) (forkedFiber s) (runQueue s) (sleepQueue s) (waitQueue s)
    v (fiberPool s) (emptyContext s) (ticks s) (fiber_flags s) (cpu s)
    (irq_enabled s) (stackmem s) (allocs s) (heap_log s).

(** [*((uint32_t * )(base + off))] as an r-value: a read through a null
    pointer is a fault, and a word of a fiber's stack that was never written
    has no value to give. *)
Definition peek (base off : Z) : M Z :=
  fun s => if decide (base = NULL) then Fault
           else match stackmem s !! wrap32 (base + off) with
                | Some v => Ok v s
                | None => Fault
                end.

(** Two more constants of MicroBit.h that the start-up code uses: the
    scheduler bit of [uBit.flags] and the code address of [idle_task]. *)
Class Board := {
  MICROBIT_FLAG_SCHEDULER_RUNNING : Z;
  addr_idle_task : Z
}.

Section Startup.
Context `{hw : Platform} `{bd : Board}.

(** [scheduler_init], lines 137-162.  [uBit] belongs to another module: the
    call takes the value of [uBit.flags] and returns its new value.  The
    one-argument [create_fiber(idle_task)] passes [release_fiber] as the
    completion routine. *)
Definition scheduler_init (uBit_flags : Z) : M Z :=
  (f <- new_Fiber ;; modify (set_currentFiber f)) ;;
  (a <- malloc FIBER_STACK_SIZE ;;
   cf <- gets currentFiber ;; store cf (set_stack_bottom a)) ;;
  (cf <- gets currentFiber ;; fr <- load cf ;;
   store cf (set_stack_top (wrap32 (stack_bottom fr + FIBER_STACK_SIZE)))) ;;
  (cf <- gets currentFiber ;; store cf (set_flags 0)) ;;
  (cf <- gets currentFiber ;; queue_fiber cf RunQueue) ;;
  (cf <- gets currentFiber ;; fr <- load cf ;;
   swap_context cf cf (stack_top fr) (stack_top fr)) ;;
  (i <- create_fiber addr_idle_task addr_release_fiber ;; modify (set_idle i)) ;;
  (i <- gets idle ;; dequeue_fiber i) ;;
  ret (Z.lor uBit_flags MICROBIT_FLAG_SCHEDULER_RUNNING).

(** The code behind a function pointer is not part of the scheduler: what a
    call through the word [ep] does, up to its return, is a parameter, with
    and without an argument. *)
Variable call : Z -> M unit.
Variable call_with : Z -> Z -> M unit.

(** [launch_new_fiber], lines 418-433. *)
Definition launch_new_fiber : M control :=
  ep <- (cf <- gets currentFiber ;; fr <- load cf ;; peek (stack_bottom fr) 0) ;;
  cp <- (cf <- gets currentFiber ;; fr <- load cf ;; peek (stack_bottom fr) 4) ;;
  call ep ;;
  call cp ;;
  release_fiber.

(** [launch_new_fiber_param], lines 486-503. *)
Definition launch_new_fiber_param : M control :=
  ep <- (cf <- gets currentFiber ;; fr <- load cf ;; peek (stack_bottom fr) 0) ;;
  pm <- (cf <- gets currentFiber ;; fr <- load cf ;; peek (stack_bottom fr) 4) ;;
  cp <- (cf <- gets currentFiber ;; fr <- load cf ;; peek (stack_bottom fr) 8) ;;
  call_with ep pm ;;
  call_with cp pm ;;
  release_fiber_param pm.

End Startup.

(** The scheduler's globals as lines 21-36 initialise them, on an empty heap,
    with the registers [r] live and the allocator about to hand out [al]. *)
Definition power_on (r : Cortex_M0_TCB) (al : list Z) : state :=
  mkState ∅ NULL NULL NULL NULL NULL NULL NULL None 0 0 r true ∅ al [].

(** The queues right after [scheduler_init]: the main fiber alone on the run
    queue. *)
Definition main_only (main : Z) (q : queue_id) : list Z :=
  match q with
  | RunQueue => [main]
  | _ => []
  end.

Definition microbit_board : Board := {|
  MICROBIT_FLAG_SCHEDULER_RUNNING := 1;
  addr_idle_task := 4225
|}.

(** The buffer size [verify_stack_size] computes for a record, and the live
    stack depth it compares it with. *)
Definition buffer_size (fr : Fiber) : Z := wrap32 (stack_top fr - stack_bottom fr).

Definition stack_depth `{hw : Platform} (s : state) : Z :=
  wrap32 (CORTEX_M0_STACK_BASE - SP (cpu s)).

(** Two fibers, 256 then 768, on the run queue; 256 is current. *)
Definition two_fibers (sp : Z) (al : list Z) : state :=
  example_state
    (<[768 := example_fiber 20480 0 (Some RunQueue) 0 256]>
       (<[256 := example_fiber 4096 0 (Some RunQueue) 768 0]> ∅))
    256 256 0 0 0 sp al.

Definition two_fibers_queues (q : queue_id) : list Z :=
  match q with
  | RunQueue => [256; 768]
  | _ => []
  end.

(** Fiber 256 runs; the record 1024, released with CHILD (4) set, waits in
    the pool. *)
Definition one_pooled (al : list Z) : state :=
  example_state
    (<[1024 := example_fiber 12288 4 (Some FiberPool) 0 0]>
       (<[256 := example_fiber 4096 0 (Some RunQueue) 0 0]> ∅))
    256 256 0 0 1024 536887192 al.

Definition one_pooled_queues (q : queue_id) : list Z :=
  match q with
  | RunQueue => [256]
  | FiberPool => [1024]
  | _ => []
  end.

(** The record of the main fiber as [scheduler_init] builds it around the
    registers [r], with its stack buffer at [b], and the state once that
    record is on the run queue. *)
Definition main_fiber `{hw : Platform} (r : Cortex_M0_TCB) (b : Z) : Fiber :=
  mkFiber (wrap32 (b + FIBER_STACK_SIZE)) b r 0 0 (Some RunQueue) NULL NULL.

Definition main_started `{hw : Platform} (r : Cortex_M0_TCB) (a b : Z) (rest : list Z) : state :=
  mkState (<[a := main_fiber r b]> ∅) a NULL a NULL NULL NULL NULL None 0 0 r true ∅ rest
    [Malloc FIBER_STACK_SIZE b; New a].

(** The waiters that the event [evt] wakes, as the dispatcher decides it. *)
Definition wakes `{hw : Platform} (h : gmap Z Fiber) (evt : MicroBitEvent) (f : Z) : bool :=
  match h !! f with
  | Some fr => event_wakes (context fr) evt
  | None => false
  end.

(** The idle fiber runs; fiber 256 is alone on the wait queue with the
    context word [ctx]. *)
Definition one_waiter (ctx : Z) : state :=
  example_state
    (<[256 := mkFiber 4160 4096 (mkTCB [] 0 0) ctx 0 (Some WaitQueue) 0 0]> ∅)
    512 0 0 256 0 536887192 [].

Definition one_waiter_queues (q : queue_id) : list Z :=
  match q with
  | WaitQueue => [256]
  | _ => []
  end.

(** The fiber that gets the processor when the caller has left the run
    queue, which then holds [l]: its head, or the idle fiber when it is
    empty or a data read is pending. *)
Definition next_up `{hw : Platform} (s : state) (l : list Z) : Z :=
  if bool_decide (hd_def l = NULL) || flag_set (fiber_flags s) MICROBIT_FLAG_DATA_READ
  then idle s else hd_def l.

(** * Properties *)

(** ** Stepping through computations *)

Lemma bind_Ok {A B} (m : M A) (k : A -> M B) s a s' :
  m s = Ok a s' -> bind m k s = k a s'.
Proof. unfold bind. intros ->. reflexivity. Qed.

Lemma bind_assoc {A B C} (m : M A) (k : A -> M B) (k' : B -> M C) s :
  bind (bind m k) k' s = bind m (fun a => bind (k a) k') s.
Proof. unfold bind. by destruct (m s). Qed.

Lemma bind_ret {A B} (a : A) (k : A -> M B) s : bind (ret a) k s = k a s.
Proof. reflexivity. Qed.

Lemma bind_gets {A B} (proj : state -> A) (k : A -> M B) s :
  bind (gets proj) k s = k (proj s) s.
Proof. reflexivity. Qed.

Lemma bind_modify {B} upd (k : unit -> M B) s :
  bind (modify upd) k s = k tt (upd s).
Proof. reflexivity. Qed.

Lemma load_Ok p s fr : p <> 0 -> heap s !! p = Some fr -> load p s = Ok fr s.
Proof. intros Hp Hl. unfold load. rewrite decide_False by done. by rewrite Hl. Qed.

Lemma load_NULL s : load NULL s = Fault.
Proof. reflexivity. Qed.

Lemma store_Ok p u s fr : p <> 0 -> heap s !! p = Some fr ->
  store p u s = Ok tt (set_heap (<[p := u fr]> (heap s)) s).
Proof.
  intros Hp Hl. unfold store. erewrite bind_Ok by (by apply load_Ok). reflexivity.
Qed.

Lemma queue_head_set_heap q h s : queue_head q (set_heap h s) = queue_head q s.
Proof. by destruct q. Qed.

Lemma queue_head_set_irq q b s : queue_head q (set_irq_enabled b s) = queue_head q s.
Proof. by destruct q. Qed.

Lemma heap_set_queue_head q v s : heap (set_queue_head q v s) = heap s.
Proof. by destruct q. Qed.

Lemma queue_head_set_eq q v s : queue_head q (set_queue_head q v s) = v.
Proof. by destruct q. Qed.

Lemma queue_head_set_ne q q' v s :
  q <> q' -> queue_head q' (set_queue_head q v s) = queue_head q' s.
Proof. by destruct q, q'. Qed.

Lemma set_heap_twice h h' s : set_heap h (set_heap h' s) = set_heap h s.
Proof. reflexivity. Qed.

Lemma alter_Some {A} (g : A -> A) (k : Z) (m : gmap Z A) x :
  m !! k = Some x -> alter g k m = <[k := g x]> m.
Proof.
  intros Hk. apply map_eq. intros j. destruct (decide (k = j)) as [->|Hne].
  - by rewrite lookup_alter_eq, lookup_insert_eq, Hk.
  - by rewrite lookup_alter_ne, lookup_insert_ne.
Qed.

Ltac mnorm :=
  simpl;
  repeat first
    [ rewrite set_heap_twice | rewrite queue_head_set_heap
    | rewrite queue_head_set_irq | rewrite heap_set_queue_head ];
  simpl.

Ltac heap_look :=
  mnorm;
  repeat first [ rewrite lookup_insert_eq | rewrite lookup_insert_ne by congruence ];
  first [ eassumption | reflexivity ].

(** One statement of a computation whose outcome is known. *)
Ltac mstep :=
  lazymatch goal with
  | |- bind (bind _ _) _ _ = _ => rewrite bind_assoc
  | |- bind (ret _) _ _ = _ => rewrite bind_ret
  | |- bind (gets _) _ _ = _ => rewrite bind_gets
  | |- bind (modify _) _ _ = _ => rewrite bind_modify
  | |- bind disable_irq _ _ = _ => unfold disable_irq at 1; rewrite bind_modify
  | |- bind enable_irq _ _ = _ => unfold enable_irq at 1; rewrite bind_modify
  | |- bind (load _) _ _ = _ =>
      erewrite bind_Ok by (apply load_Ok; [ congruence | heap_look ])
  | |- bind (store _ _) _ _ = _ =>
      erewrite bind_Ok by (apply store_Ok; [ congruence | heap_look ])
  end.

(** ** The queue primitives on arbitrary heaps *)

Lemma queue_fiber_Ok f q s fr :
  f <> 0 -> heap s !! f = Some fr ->
  (queue_head q s <> 0 ->
   queue_head q s <> f /\ is_Some (heap s !! queue_head q s)) ->
  queue_fiber f q s = Ok tt (queued f q fr s).
Proof.
  intros Hf Hl Hhd. unfold queue_fiber, queued, push_heap.
  do 6 mstep. mnorm. rewrite !insert_insert_eq. do 2 mstep. mnorm.
  destruct (decide (queue_head q s = 0)) as [H0 | Hnz].
  - do 2 mstep. unfold enable_irq, modify.
    f_equal. destruct s, q; reflexivity.
  - destruct (Hhd Hnz) as [Hne [hr Hhr]].
    mstep. mnorm. mstep. unfold enable_irq, modify. f_equal. mnorm.
    erewrite alter_Some by (rewrite lookup_insert_ne by congruence; eassumption).
    destruct s, q; reflexivity.
Qed.

Lemma dequeue_fiber_off f s fr :
  f <> 0 -> heap s !! f = Some fr -> queue fr = None -> dequeue_fiber f s = Ok tt s.
Proof.
  intros Hf Hl Hq. unfold dequeue_fiber. mstep. by rewrite Hq.
Qed.

Lemma dequeue_fiber_Ok f q s fr :
  f <> 0 -> heap s !! f = Some fr -> queue fr = Some q ->
  (prev fr <> 0 -> prev fr <> f /\ is_Some (heap s !! prev fr)) ->
  (next fr <> 0 -> next fr <> f /\ is_Some (heap s !! next fr)) ->
  dequeue_fiber f s = Ok tt (dequeued f q fr s).
Proof.
  intros Hf Hl Hq Hp Hn. unfold dequeue_fiber, dequeued, unlink_heap.
  mstep. rewrite Hq. do 3 mstep. mnorm.
  destruct (decide (prev fr = 0)) as [P0 | Pnz].
  - mstep. mstep. mstep. mnorm.
    destruct (decide (next fr = 0)) as [N0 | Nnz].
    + do 4 mstep. mnorm. unfold enable_irq, modify. rewrite !insert_insert_eq.
      f_equal. destruct s, q; reflexivity.
    + destruct (Hn Nnz) as [Hne [nr Hnr]].
      mstep. mnorm. do 3 mstep. mnorm. unfold enable_irq, modify.
      rewrite !insert_insert_eq.
      erewrite alter_Some by eassumption. rewrite P0.
      f_equal. destruct s, q; reflexivity.
  - destruct (Hp Pnz) as [Hne [pr Hpr]].
    mstep. mnorm. mstep. mstep. mnorm.
    destruct (decide (next fr = 0)) as [N0 | Nnz].
    + do 4 mstep. mnorm. unfold enable_irq, modify. rewrite !insert_insert_eq.
      erewrite alter_Some by eassumption.
      f_equal.
    + destruct (Hn Nnz) as [Hne' [nr Hnr]].
      assert (exists nr',
        <[prev fr:=set_next (next fr) pr]> (heap s) !! next fr = Some nr')
        as [nr' Hnr'].
      { destruct (decide (prev fr = next fr)) as [E|E].
        - rewrite E, lookup_insert_eq. eauto.
        - rewrite lookup_insert_ne by done. eauto. }
      erewrite bind_Ok by (apply store_Ok; [ congruence | mnorm; eassumption ]).
      mnorm. do 3 mstep. mnorm. unfold enable_irq, modify.
      rewrite !insert_insert_eq.
      erewrite (alter_Some _ (prev fr)) by eassumption.
      erewrite alter_Some by eassumption.
      f_equal.
Qed.
(** ** Doubly linked lists *)

Lemma dll_member h q prv hd l f :
  dll h q prv hd l -> f ∈ l ->
  f <> 0 /\ exists fr, h !! f = Some fr /\ queue fr = Some q.
Proof.
  revert prv hd. induction l as [|a l IH]; intros prv hd Hd Hin.
  - by apply elem_of_nil in Hin.
  - destruct Hd as (-> & Ha & fr & Hl & Hq & Hp & Hrest).
    apply elem_of_cons in Hin as [->|Hin]; [eauto|].
    eapply IH; eauto.
Qed.

Lemma dll_frame h h' q prv hd l :
  (forall f, f ∈ l -> h' !! f = h !! f) ->
  dll h q prv hd l -> dll h' q prv hd l.
Proof.
  revert prv hd. induction l as [|a l IH]; intros prv hd Hsame Hd; [done|].
  destruct Hd as (-> & Ha & fr & Hl & Hq & Hp & Hrest).
  simpl. split; [done|]. split; [done|]. exists fr. split.
  - rewrite Hsame; [done | apply elem_of_cons; auto].
  - repeat split; try done. apply IH; [|done].
    intros f Hf. apply Hsame. apply elem_of_cons; auto.
Qed.

Lemma dll_head h q prv hd l : dll h q prv hd l -> hd = hd_def l.
Proof. destruct l; simpl; [done|]. by intros (-> & _). Qed.

Lemma last_def_cons prv a l : last_def prv (a :: l) = last_def a l.
Proof.
  unfold last_def. destruct l as [|b l]; [done|]. simpl. 
  by destruct (last (b :: l)) eqn:E; [|apply last_None in E].
Qed.

Lemma dll_split h q prv hd l1 f l2 :
  dll h q prv hd (l1 ++ f :: l2) ->
  f <> 0 /\ exists fr, h !! f = Some fr /\ queue fr = Some q /\
    prev fr = last_def prv l1 /\ next fr = hd_def l2.
Proof.
  revert prv hd. induction l1 as [|a l1 IH]; intros prv hd Hd.
  - destruct Hd as (-> & Ha & fr & Hl & Hq & Hp & Hrest).
    split; [done|]. exists fr. repeat split; try done.
    by apply dll_head in Hrest.
  - destruct Hd as (-> & Ha & fr & Hl & Hq & Hp & Hrest).
    rewrite last_def_cons. eapply IH; eauto.
Qed.

Lemma last_def_elem l : last_def 0 l <> 0 -> last_def 0 l ∈ l.
Proof.
  unfold last_def. destruct (last l) eqn:E; simpl; [|done].
  intros _. apply last_Some in E as [l' ->]. apply elem_of_app. right. apply list_elem_of_singleton. done.
Qed.

Lemma hd_def_elem l : hd_def l <> 0 -> hd_def l ∈ l.
Proof. destruct l; simpl; [done|]. intros _. apply elem_of_cons; auto. Qed.

Lemma unlink_heap_self f fr h :
  unlink_heap f fr h !! f = Some (strip fr).
Proof. unfold unlink_heap. by rewrite lookup_insert_eq. Qed.

Lemma unlink_heap_other f fr h g :
  g <> f -> (next fr = 0 \/ g <> next fr) -> (prev fr = 0 \/ g <> prev fr) ->
  unlink_heap f fr h !! g = h !! g.
Proof.
  intros Hf Hn Hp. unfold unlink_heap. rewrite lookup_insert_ne by done.
  destruct Hn as [Hn|Hn], Hp as [Hp|Hp];
    rewrite ?(decide_True (P := next fr = 0)), ?(decide_True (P := prev fr = 0)) by done;
    repeat case_decide; rewrite ?lookup_alter_ne by done; done.
Qed.

Lemma unlink_heap_next f fr h nr :
  next fr <> 0 -> next fr <> f -> next fr <> prev fr -> h !! next fr = Some nr ->
  unlink_heap f fr h !! next fr = Some (set_prev (prev fr) nr).
Proof.
  intros Hn Hf Hp Hl. unfold unlink_heap. rewrite lookup_insert_ne by done.
  rewrite decide_False by done. rewrite lookup_alter_eq.
  destruct (decide (prev fr = 0)); [by rewrite Hl|].
  rewrite lookup_alter_ne by done. by rewrite Hl.
Qed.

Lemma unlink_heap_prev f fr h pr :
  prev fr <> 0 -> prev fr <> f -> next fr <> prev fr -> h !! prev fr = Some pr ->
  unlink_heap f fr h !! prev fr = Some (set_next (next fr) pr).
Proof.
  intros Hn Hf Hp Hl. unfold unlink_heap. rewrite lookup_insert_ne by done.
  rewrite (decide_False (P := prev fr = 0)) by done.
  destruct (decide (next fr = 0)).
  - by rewrite lookup_alter_eq, Hl.
  - rewrite lookup_alter_ne by done. by rewrite lookup_alter_eq, Hl.
Qed.

Lemma dll_unlink h q f fr l2 : forall l1 prv hd,
  h !! f = Some fr ->
  NoDup (l1 ++ f :: l2) ->
  (prv = 0 \/ prv ∉ l1 ++ f :: l2) ->
  dll h q prv hd (l1 ++ f :: l2) ->
  dll (unlink_heap f fr h) q prv (match l1 with [] => next fr | _ => hd end) (l1 ++ l2).
Proof.
  induction l1 as [|a l1 IH]; intros prv hd Hf Hnd Hprv Hd.
  - simpl in *. destruct Hd as (-> & Ha & fr' & Hl & Hq & Hp & Hrest).
    assert (fr' = fr) as -> by congruence.
    apply NoDup_cons in Hnd as [Hnin Hnd].
    destruct l2 as [|g l2]; [done|].
    destruct Hrest as (Hg & Hg0 & gr & Hgl & Hgq & Hgp & Hrest).
    apply NoDup_cons in Hnd as [Hgnin Hnd].
    assert (g <> f) by (intros ->; apply Hnin, elem_of_cons; auto).
    assert (prv <> g).
    { destruct Hprv as [->|Hprv]; [done|]. intros ->. apply Hprv. do 2 (apply elem_of_cons; auto). right. apply elem_of_cons. auto. }
    simpl. split; [done|]. split; [done|].
    exists (set_prev (prev fr) gr). split.
    { rewrite <- Hg. apply unlink_heap_next; congruence. }
    simpl. repeat split; try done.
    eapply dll_frame; [|done].
    intros x Hx. apply unlink_heap_other.
    + intros ->. apply Hnin. apply elem_of_cons; auto.
    + right. intros ->. congruence.
    + destruct Hprv as [->|Hprv]; [left; congruence|]. right. intros E.
      apply Hprv. rewrite <- Hp, <- E. do 2 (apply elem_of_cons; right). done.
  - simpl in Hd. destruct Hd as (-> & Ha & ar & Hl & Hq & Hp & Hrest).
    simpl in Hnd. apply NoDup_cons in Hnd as [Hnin Hnd].
    pose proof (dll_split _ _ _ _ _ _ _ Hrest) as (Hf0 & fr' & Hfl & Hfq & Hfp & Hfn).
    assert (fr' = fr) as -> by congruence.
    specialize (IH a (next ar) Hf Hnd (or_intror Hnin) Hrest).
    assert (a <> f) by (intros ->; apply Hnin, elem_of_app; right; apply elem_of_cons; auto).
    simpl. split; [done|]. split; [done|].
    assert (next fr = 0 \/ a <> next fr) as Hnx.
    { destruct (decide (next fr = 0)); [auto|right]. intros E. apply Hnin.
      apply elem_of_app. right. apply elem_of_cons. right. rewrite E, Hfn. apply hd_def_elem. congruence. }
    destruct l1 as [|b l1].
    + simpl in *. unfold last_def in Hfp. simpl in Hfp.
      exists (set_next (next fr) ar). split.
      { rewrite <- Hfp. apply unlink_heap_prev; try congruence.
        destruct Hnx; congruence. }
      simpl. repeat split; try done.
    + exists ar. split.
      { rewrite unlink_heap_other; try done. right. rewrite Hfp. intros E. apply Hnin.
        apply elem_of_app. left. rewrite E. 
        unfold last_def. destruct (last (b :: l1)) eqn:EL; [|by apply last_None in EL]. simpl.
        apply last_Some in EL as [l' ->]. apply elem_of_app. right. by apply list_elem_of_singleton. }
      split; [done|]. split; [done|]. exact IH.
Qed.


Lemma push_heap_self f q hd fr h :
  hd <> f ->
  push_heap f q hd fr h !! f = Some (set_prev 0 (set_next hd (set_queue (Some q) fr))).
Proof.
  intros Hne. unfold push_heap. case_decide.
  - by rewrite lookup_insert_eq.
  - rewrite lookup_alter_ne by done. by rewrite lookup_insert_eq.
Qed.

Lemma push_heap_head f q hd fr h hr :
  hd <> 0 -> hd <> f -> h !! hd = Some hr ->
  push_heap f q hd fr h !! hd = Some (set_prev f hr).
Proof.
  intros H0 Hne Hl. unfold push_heap. rewrite decide_False by done.
  rewrite lookup_alter_eq, lookup_insert_ne by done. by rewrite Hl.
Qed.

Lemma push_heap_other f q hd fr h g :
  g <> f -> g <> hd -> push_heap f q hd fr h !! g = h !! g.
Proof.
  intros Hf Hh. unfold push_heap. case_decide.
  - by rewrite lookup_insert_ne.
  - rewrite lookup_alter_ne by done. by rewrite lookup_insert_ne.
Qed.

Lemma upd_eq L q l : upd L q l q = l.
Proof. unfold upd. by rewrite decide_True. Qed.

Lemma upd_ne L q q' l : q' <> q -> upd L q l q' = L q'.
Proof. intros. unfold upd. by rewrite decide_False. Qed.

(** A record that is on no queue occurs in no queue's list. *)
Lemma off_queue_not_elem s L q f fr :
  queues_ok s L -> heap s !! f = Some fr -> queue fr = None -> f ∉ L q.
Proof.
  intros Hok Hl Hq Hin. destruct (Hok q) as [Hd _].
  destruct (dll_member _ _ _ _ _ _ Hd Hin) as (_ & fr' & Hl' & Hq'). congruence.
Qed.

Lemma other_queue_not_elem s L q q' f :
  queues_ok s L -> q <> q' -> f ∈ L q -> f ∉ L q'.
Proof.
  intros Hok Hne Hin Hin'.
  destruct (Hok q) as [Hd _]. destruct (Hok q') as [Hd' _].
  destruct (dll_member _ _ _ _ _ _ Hd Hin) as (_ & fr & Hl & Hq).
  destruct (dll_member _ _ _ _ _ _ Hd' Hin') as (_ & fr' & Hl' & Hq'). congruence.
Qed.

Lemma queues_ok_queue s L q f fr :
  queues_ok s L -> f <> 0 -> heap s !! f = Some fr -> queue fr = None ->
  queue_fiber f q s = Ok tt (queued f q fr s) /\
  queues_ok (queued f q fr s) (upd L q (f :: L q)).
Proof.
  intros Hok Hf Hl Hq.
  assert (forall q', f ∉ L q') as Hoff by (intros; eapply off_queue_not_elem; eauto).
  destruct (Hok q) as [Hd Hnd].
  assert (queue_head q s <> 0 -> queue_head q s ∈ L q) as Hhd.
  { rewrite (dll_head _ _ _ _ _ Hd). apply hd_def_elem. }
  split.
  - apply queue_fiber_Ok; try done. intros Hnz. specialize (Hhd Hnz). split.
    + intros E. rewrite E in Hhd. by apply (Hoff q).
    + destruct (dll_member _ _ _ _ _ _ Hd Hhd) as (_ & hr & -> & _). eauto.
  - intros q'. unfold queued. mnorm. destruct (decide (q' = q)) as [->|Hne].
    + rewrite upd_eq, queue_head_set_eq. split; [|apply NoDup_cons; auto].
      simpl. split; [done|]. split; [done|].
      assert (queue_head q s <> f) as Hnf.
      { intros E. destruct (decide (f = 0)) as [|Hnz]; [done|]. rewrite <- E in Hnz.
        apply (Hoff q). rewrite <- E. auto. }
      eexists. split; [by apply push_heap_self|]. simpl. do 2 (split; [done|]).
      destruct (L q) as [|g l] eqn:EL; [done|].
      destruct Hd as (Hg & Hg0 & gr & Hgl & Hgq & Hgp & Hrest).
      simpl. split; [done|]. split; [done|].
      exists (set_prev f gr). split.
      { rewrite Hg. apply push_heap_head; congruence. }
      simpl. do 2 (split; [done|]).
      eapply dll_frame; [|done]. intros x Hx. apply push_heap_other.
      * intros ->. apply (Hoff q). rewrite EL. apply elem_of_cons; auto.
      * rewrite Hg. intros ->. by apply NoDup_cons in Hnd as [? _].
    + rewrite upd_ne, queue_head_set_ne by done. destruct (Hok q') as [Hd' Hnd'].
      split; [|done]. eapply dll_frame; [|done]. intros x Hx. apply push_heap_other.
      * intros ->. by apply (Hoff q').
      * intros ->. destruct (decide (queue_head q s = 0)) as [E|Hnz].
        { rewrite E in Hx. by destruct (dll_member _ _ _ _ _ _ Hd' Hx). }
        eapply (other_queue_not_elem s L q q'); eauto.
Qed.

Lemma queues_ok_dequeue s L q l1 f l2 :
  queues_ok s L -> L q = l1 ++ f :: l2 ->
  exists fr, heap s !! f = Some fr /\ queue fr = Some q /\
    prev fr = last_def 0 l1 /\ next fr = hd_def l2 /\
    dequeue_fiber f s = Ok tt (dequeued f q fr s) /\
    queues_ok (dequeued f q fr s) (upd L q (l1 ++ l2)).
Proof.
  intros Hok HL. destruct (Hok q) as [Hd Hnd]. rewrite HL in Hd, Hnd.
  destruct (dll_split _ _ _ _ _ _ _ Hd) as (Hf0 & fr & Hl & Hq & Hp & Hn).
  exists fr. do 4 (split; [done|]).
  assert (prev fr <> 0 -> prev fr ∈ l1) as Hpin by (rewrite Hp; apply last_def_elem).
  assert (next fr <> 0 -> next fr ∈ l2) as Hnin by (rewrite Hn; apply hd_def_elem).
  apply NoDup_app in Hnd as (Hnd1 & Hdisj & Hnd2).
  apply NoDup_cons in Hnd2 as [Hfl2 Hnd2].
  assert (f ∉ l1) as Hfl1 by (intros Hin; apply (Hdisj _ Hin), elem_of_cons; auto).
  split.
  - eapply dequeue_fiber_Ok; try done.
    + intros Hnz. specialize (Hpin Hnz). split; [by intros E; rewrite E in Hpin|].
      edestruct (dll_member _ _ _ _ _ (prev fr) Hd) as (_ & pr & -> & _); eauto.
      apply elem_of_app; auto.
    + intros Hnz. specialize (Hnin Hnz). split; [by intros E; rewrite E in Hnin|].
      edestruct (dll_member _ _ _ _ _ (next fr) Hd) as (_ & pr & -> & _); eauto.
      apply elem_of_app; right. apply elem_of_cons; auto.
  - intros q'. unfold dequeued. mnorm. destruct (decide (q' = q)) as [->|Hne].
    + rewrite upd_eq. split.
      2:{ apply NoDup_app. split; [done|]. split; [|done].
          intros x Hx Hx2. apply (Hdisj _ Hx), elem_of_cons; auto. }
      assert (queue_head q (if decide (prev fr = 0) then set_queue_head q (next fr) s else s)
              = match l1 with [] => next fr | _ => queue_head q s end) as ->.
      { destruct l1 as [|a l1].
        - rewrite decide_True by done. by rewrite queue_head_set_eq.
        - rewrite decide_False; [done|]. rewrite Hp. rewrite last_def_cons.
          intros E. 
          assert (last_def a l1 ∈ a :: l1) as Hin.
          { unfold last_def. destruct (last l1) eqn:EL; simpl.
            - apply last_Some in EL as [l' ->]. apply elem_of_cons. right.
              apply elem_of_app. right. by apply list_elem_of_singleton.
            - apply elem_of_cons; auto. }
          rewrite E in Hin.
          edestruct (dll_member _ _ _ _ _ 0 Hd) as (? & _); [|done].
          apply elem_of_app; auto. }
      apply dll_unlink; auto.
      apply NoDup_app. split; [done|]. split; [done|]. apply NoDup_cons; auto.
    + rewrite upd_ne by done. destruct (Hok q') as [Hd' Hnd'].
      assert (queue_head q' (if decide (prev fr = 0) then set_queue_head q (next fr) s else s)
              = queue_head q' s) as ->.
      { case_decide; [by apply queue_head_set_ne|done]. }
      split; [|done]. eapply dll_frame; [|done]. intros x Hx.
      assert (forall y, y ∈ l1 ++ f :: l2 -> x <> y) as Hxy.
      { intros y Hy ->. eapply (other_queue_not_elem s L q q'); eauto. by rewrite HL. }
      apply unlink_heap_other.
      * apply Hxy. apply elem_of_app. right. apply elem_of_cons; auto.
      * destruct (decide (next fr = 0)); [auto|right]. apply Hxy.
        apply elem_of_app. right. apply elem_of_cons; auto.
      * destruct (decide (prev fr = 0)); [auto|right]. apply Hxy.
        apply elem_of_app; auto.
Qed.

(** ** Queue operations touch linkage only *)

Lemma strip_idem fr : strip (strip fr) = strip fr.
Proof. reflexivity. Qed.

Lemma strip_set_next v fr : strip (set_next v fr) = strip fr.
Proof. reflexivity. Qed.

Lemma strip_set_prev v fr : strip (set_prev v fr) = strip fr.
Proof. reflexivity. Qed.

Lemma strip_set_queue v fr : strip (set_queue v fr) = strip fr.
Proof. reflexivity. Qed.

Lemma links_only_refl h : links_only h h.
Proof. by intros g. Qed.

Lemma links_only_trans h1 h2 h3 :
  links_only h1 h2 -> links_only h2 h3 -> links_only h1 h3.
Proof. intros H12 H23 g. by rewrite H23, H12. Qed.

Lemma links_only_alter h u k :
  (forall fr, strip (u fr) = strip fr) -> links_only h (alter u k h).
Proof.
  intros Hu g. destruct (decide (k = g)) as [->|Hne].
  - rewrite lookup_alter_eq. destruct (h !! g); simpl; [by rewrite Hu|done].
  - by rewrite lookup_alter_ne.
Qed.

Lemma links_only_insert h f fr fr' :
  h !! f = Some fr -> strip fr' = strip fr -> links_only h (<[f := fr']> h).
Proof.
  intros Hl Hs g. destruct (decide (f = g)) as [->|Hne].
  - rewrite lookup_insert_eq, Hl. simpl. by rewrite Hs.
  - by rewrite lookup_insert_ne.
Qed.

Lemma links_only_lookup h h' g fr' :
  links_only h h' -> h' !! g = Some fr' ->
  exists fr, h !! g = Some fr /\ strip fr' = strip fr.
Proof.
  intros Hlo Hl. specialize (Hlo g). rewrite Hl in Hlo.
  destruct (h !! g) as [fr|]; simpl in Hlo; [|done].
  exists fr. split; [done|]. congruence.
Qed.

Lemma links_only_lookup_rev h h' g fr :
  links_only h h' -> h !! g = Some fr ->
  exists fr', h' !! g = Some fr' /\ strip fr' = strip fr.
Proof.
  intros Hlo Hl. specialize (Hlo g). rewrite Hl in Hlo.
  destruct (h' !! g) as [fr'|]; simpl in Hlo; [|done].
  exists fr'. split; [done|]. congruence.
Qed.

Lemma strip_fields fr fr' :
  strip fr' = strip fr ->
  context fr' = context fr /\ flags fr' = flags fr /\ tcb fr' = tcb fr /\
  stack_top fr' = stack_top fr /\ stack_bottom fr' = stack_bottom fr.
Proof. destruct fr, fr'. unfold strip. simpl. intros [=]. by subst. Qed.

Lemma links_only_unlink h f fr :
  h !! f = Some fr -> links_only h (unlink_heap f fr h).
Proof.
  intros Hl. unfold unlink_heap.
  assert (links_only h
    (if decide (prev fr = 0) then h else alter (set_next (next fr)) (prev fr) h)) as H1.
  { case_decide; [apply links_only_refl | by apply links_only_alter]. }
  set (h1 := if decide (prev fr = 0) then h else _) in *.
  assert (links_only h
    (if decide (next fr = 0) then h1 else alter (set_prev (prev fr)) (next fr) h1)) as H2.
  { case_decide; [done|]. eapply links_only_trans; [exact H1|]. by apply links_only_alter. }
  set (h2 := if decide (next fr = 0) then h1 else _) in *.
  intros g. destruct (decide (f = g)) as [->|Hne].
  - by rewrite lookup_insert_eq, Hl.
  - rewrite lookup_insert_ne by done. apply H2.
Qed.

Lemma links_only_push h f q hd fr :
  h !! f = Some fr -> links_only h (push_heap f q hd fr h).
Proof.
  intros Hl. unfold push_heap.
  assert (links_only h (<[f:=set_prev 0 (set_next hd (set_queue (Some q) fr))]> h)) as H1.
  { by eapply links_only_insert. }
  case_decide; [done|]. eapply links_only_trans; [exact H1|]. by apply links_only_alter.
Qed.

Lemma frame_queues_refl s : frame_queues s s.
Proof. by destruct s. Qed.

Lemma frame_queues_trans s1 s2 s3 :
  frame_queues s1 s2 -> frame_queues s2 s3 -> frame_queues s1 s3.
Proof.
  unfold frame_queues. intros H12 H23. rewrite H23. rewrite H12. by destruct s1.
Qed.

Lemma frame_queues_queued f q fr s : frame_queues s (queued f q fr s).
Proof. unfold frame_queues, queued. by destruct s, q. Qed.

Lemma frame_queues_dequeued f q fr s : frame_queues s (dequeued f q fr s).
Proof. unfold frame_queues, dequeued. case_decide; by destruct s, q. Qed.

Lemma frame_queues_ticks s s' : frame_queues s s' -> ticks s' = ticks s.
Proof. intros ->. reflexivity. Qed.

Lemma queues_ok_ext s L L' :
  (forall q, L q = L' q) -> queues_ok s L -> queues_ok s L'.
Proof. intros HL Hok q. rewrite <- HL. apply Hok. Qed.

(** ** The walk of the sleep queue *)

Lemma hd_def_cons a l : hd_def (a :: l) = a.
Proof. reflexivity. Qed.

Lemma scheduler_tick_walk_step fuel f s fr :
  f <> 0 -> heap s !! f = Some fr ->
  scheduler_tick_walk (S fuel) f s =
    ((if ticks s >=? context fr
      then dequeue_fiber f ;; queue_fiber f RunQueue
      else ret tt) ;;
     scheduler_tick_walk fuel (next fr)) s.
Proof.
  intros Hf Hl. simpl scheduler_tick_walk. rewrite decide_False by done.
  mstep. by mstep.
Qed.

Lemma scheduler_tick_walk_ok (P : Z -> bool) : forall rest kept fuel s L,
  queues_ok s L -> L SleepQueue = kept ++ rest -> (length rest <= fuel)%nat ->
  (forall g fr, heap s !! g = Some fr -> (ticks s >=? context fr) = P g) ->
  exists s',
    scheduler_tick_walk fuel (hd_def rest) s = Ok tt s' /\
    queues_ok s'
      (upd (upd L SleepQueue (kept ++ List.filter (fun g => negb (P g)) rest))
         RunQueue (rev (List.filter P rest) ++ L RunQueue)) /\
    links_only (heap s) (heap s') /\ frame_queues s s'.
Proof.
  induction rest as [|f rest IH]; intros kept fuel s L Hok HL Hfuel HP.
  - exists s. split; [by destruct fuel|]. split.
    + eapply queues_ok_ext; [|exact Hok]. intros q. unfold upd.
      rewrite app_nil_r in HL. repeat case_decide; subst; simpl; rewrite ?app_nil_r; done.
    + split; [apply links_only_refl | apply frame_queues_refl].
  - destruct fuel as [|fuel]; [simpl in Hfuel; lia|].
    destruct (queues_ok_dequeue _ _ _ _ _ _ Hok HL)
      as (fr & Hl & Hq & Hp & Hn & Hdeq & Hok1).
    assert (f <> 0) as Hf0.
    { destruct (Hok SleepQueue) as [Hd _]. rewrite HL in Hd.
      by destruct (dll_split _ _ _ _ _ _ _ Hd). }
    rewrite hd_def_cons, (scheduler_tick_walk_step _ _ _ _ Hf0 Hl), Hn, (HP _ _ Hl).
    destruct (P f) eqn:EP.
    + (* the sleeper is woken *)
      set (s1 := dequeued f SleepQueue fr s) in *.
      assert (heap s1 !! f = Some (strip fr)) as Hl1 by apply unlink_heap_self.
      destruct (queues_ok_queue s1 _ RunQueue f (strip fr) Hok1 Hf0 Hl1 eq_refl)
        as [Hq2 Hok2].
      set (s2 := queued f RunQueue (strip fr) s1) in *.
      assert (links_only (heap s) (heap s2)) as Hlo.
      { eapply links_only_trans; [by apply links_only_unlink|].
        unfold s2, queued. mnorm. by apply links_only_push. }
      assert (frame_queues s s2) as Hfr.
      { eapply frame_queues_trans;
          [apply frame_queues_dequeued | apply frame_queues_queued]. }
      destruct (IH kept fuel s2 _ Hok2) as (s' & Hrun & Hok' & Hlo' & Hfr').
      { rewrite upd_ne, upd_eq by done. done. }
      { simpl in Hfuel. lia. }
      { intros g gr Hg. destruct (links_only_lookup _ _ _ _ Hlo Hg) as (gr0 & Hg0 & Hs).
        apply strip_fields in Hs as (-> & _). rewrite (frame_queues_ticks _ _ Hfr).
        by apply HP. }
      exists s'. split.
      { rewrite bind_assoc. erewrite bind_Ok by exact Hdeq.
        erewrite bind_Ok by exact Hq2. exact Hrun. }
      split.
      { eapply queues_ok_ext; [|exact Hok']. intros q. unfold upd. simpl. rewrite EP. simpl.
        repeat case_decide; subst; try done. by rewrite <- app_assoc. }
      split; [by eapply links_only_trans | by eapply frame_queues_trans].
    + (* the sleeper stays *)
      destruct (IH (kept ++ [f]) fuel s L Hok) as (s' & Hrun & Hok' & Hlo' & Hfr').
      { by rewrite <- app_assoc. }
      { simpl in Hfuel. lia. }
      { done. }
      exists s'. split; [by rewrite bind_ret|]. split; [|done].
      eapply queues_ok_ext; [|exact Hok']. intros q. unfold upd. simpl. rewrite EP. simpl.
      repeat case_decide; subst; try done. by rewrite <- app_assoc.
Qed.

(** ** Moving a record between queues *)

Lemma without_notin f l : f ∉ l -> without f l = l.
Proof.
  induction l as [|a l IH]; intros Hnin; [done|]. unfold without in *. simpl.
  destruct (Z.eqb_spec a f) as [->|Hne]; simpl.
  - exfalso. apply Hnin. apply elem_of_cons; auto.
  - f_equal. apply IH. intros Hin. apply Hnin. apply elem_of_cons; auto.
Qed.

Lemma without_split f l1 l2 :
  NoDup (l1 ++ f :: l2) -> without f (l1 ++ f :: l2) = l1 ++ l2.
Proof.
  intros Hnd. apply NoDup_app in Hnd as (_ & Hdisj & Hnd2).
  apply NoDup_cons in Hnd2 as [Hf2 _].
  assert (f ∉ l1) as Hf1 by (intros Hin; apply (Hdisj _ Hin), elem_of_cons; auto).
  unfold without. rewrite List.filter_app. simpl. rewrite Z.eqb_refl. simpl.
  fold (without f l1). fold (without f l2). by rewrite !without_notin.
Qed.

Lemma same_links_refl h : same_links h h.
Proof. by intros g. Qed.

Lemma same_links_trans h1 h2 h3 :
  same_links h1 h2 -> same_links h2 h3 -> same_links h1 h3.
Proof. intros H12 H23 g. by rewrite H23, H12. Qed.

Lemma same_links_insert h f fr fr' :
  h !! f = Some fr -> linkage fr' = linkage fr -> same_links h (<[f := fr']> h).
Proof.
  intros Hl Hs g. destruct (decide (f = g)) as [->|Hne].
  - rewrite lookup_insert_eq, Hl. simpl. by rewrite Hs.
  - by rewrite lookup_insert_ne.
Qed.

Lemma same_links_lookup h h' g fr :
  same_links h h' -> h !! g = Some fr ->
  exists fr', h' !! g = Some fr' /\ queue fr' = queue fr /\
              next fr' = next fr /\ prev fr' = prev fr.
Proof.
  intros Hs Hl. specialize (Hs g). rewrite Hl in Hs.
  destruct (h' !! g) as [fr'|]; simpl in Hs; [|done].
  exists fr'. unfold linkage in Hs. split; [done|]. by injection Hs as -> -> ->.
Qed.

Lemma dll_same_links h h' q prv hd l :
  same_links h h' -> dll h q prv hd l -> dll h' q prv hd l.
Proof.
  intros Hs. revert prv hd. induction l as [|a l IH]; intros prv hd Hd; [done|].
  destruct Hd as (-> & Ha & fr & Hl & Hq & Hp & Hrest).
  destruct (same_links_lookup _ _ _ _ Hs Hl) as (fr' & Hl' & Hq' & Hn' & Hp').
  simpl. do 2 (split; [done|]). exists fr'. split; [done|].
  split; [congruence|]. split; [congruence|]. rewrite Hn'. by apply IH.
Qed.

Lemma queues_ok_same_links s s' L :
  same_links (heap s) (heap s') -> (forall q, queue_head q s' = queue_head q s) ->
  queues_ok s L -> queues_ok s' L.
Proof.
  intros Hs Hh Hok q. destruct (Hok q) as [Hd Hnd]. split; [|done].
  rewrite Hh. by eapply dll_same_links.
Qed.

Lemma dequeue_fiber_any s L f fr :
  queues_ok s L -> f <> 0 -> heap s !! f = Some fr ->
  (forall q, queue fr = Some q -> f ∈ L q) ->
  exists s' fr',
    dequeue_fiber f s = Ok tt s' /\
    queues_ok s' (fun q => without f (L q)) /\
    heap s' !! f = Some fr' /\ queue fr' = None /\ strip fr' = strip fr /\
    links_only (heap s) (heap s') /\ frame_queues s s'.
Proof.
  intros Hok Hf Hl Hon. destruct (queue fr) as [q|] eqn:Hq.
  - destruct (list_elem_of_split _ _ (Hon q eq_refl)) as (l1 & l2 & HL).
    destruct (queues_ok_dequeue _ _ _ _ _ _ Hok HL)
      as (fr0 & Hl0 & _ & _ & _ & Hdeq & Hok1).
    assert (fr0 = fr) as -> by congruence.
    exists (dequeued f q fr s), (strip fr). split; [done|]. split.
    { eapply queues_ok_ext; [|exact Hok1]. intros q'. unfold upd. case_decide.
      - subst. rewrite HL. symmetry. apply without_split. rewrite <- HL. apply Hok.
      - symmetry. apply without_notin.
        eapply (other_queue_not_elem s L q q'); eauto. }
    split; [apply unlink_heap_self|]. split; [done|]. split; [done|].
    split; [by apply links_only_unlink | apply frame_queues_dequeued].
  - exists s, fr. split; [by eapply dequeue_fiber_off|]. split.
    { eapply queues_ok_ext; [|exact Hok]. intros q'. symmetry. apply without_notin.
      eapply off_queue_not_elem; eauto. }
    do 3 (split; [done|]). split; [apply links_only_refl | apply frame_queues_refl].
Qed.

Lemma move_fiber s L f fr Q :
  queues_ok s L -> f <> 0 -> heap s !! f = Some fr ->
  (forall q, queue fr = Some q -> f ∈ L q) ->
  exists s' fr',
    (dequeue_fiber f ;; queue_fiber f Q) s = Ok tt s' /\
    queues_ok s' (upd (fun q => without f (L q)) Q (f :: without f (L Q))) /\
    heap s' !! f = Some fr' /\ queue fr' = Some Q /\ strip fr' = strip fr /\
    links_only (heap s) (heap s') /\ frame_queues s s'.
Proof.
  intros Hok Hf Hl Hon.
  destruct (dequeue_fiber_any _ _ _ _ Hok Hf Hl Hon)
    as (s1 & fr1 & Hdeq & Hok1 & Hl1 & Hq1 & Hs1 & Hlo1 & Hfr1).
  destruct (queues_ok_queue s1 _ Q f fr1 Hok1 Hf Hl1 Hq1) as [Hq2 Hok2].
  exists (queued f Q fr1 s1). eexists. split.
  { erewrite bind_Ok by exact Hdeq. exact Hq2. }
  split; [exact Hok2|]. split.
  { unfold queued. mnorm. apply push_heap_self.
    destruct (Hok1 Q) as [Hd _]. intros E.
    assert (f ∈ without f (L Q)) as Hin.
    { pose proof (dll_head _ _ _ _ _ Hd) as Hhd. rewrite E in Hhd.
      rewrite Hhd at 1. apply hd_def_elem. congruence. }
    unfold without in Hin. apply list_elem_of_In, List.filter_In in Hin as [_ Hin].
    by rewrite Z.eqb_refl in Hin. }
  split; [done|]. split; [done|]. split.
  - eapply links_only_trans; [exact Hlo1|]. unfold queued. mnorm.
    by apply links_only_push.
  - eapply frame_queues_trans; [exact Hfr1 | apply frame_queues_queued].
Qed.

(** * The claims *)

Lemma set_prev_id fr : set_prev (prev fr) fr = fr.
Proof. by destruct fr. Qed.

Lemma roundtrip_heap h f fr Q hd :
  h !! f = Some fr -> hd <> f ->
  (hd <> 0 -> exists hr, h !! hd = Some hr /\ prev hr = 0) ->
  unlink_heap f (set_prev 0 (set_next hd (set_queue (Some Q) fr)))
    (push_heap f Q hd fr h) = <[f := strip fr]> h.
Proof.
  intros Hl Hne Hhd. apply map_eq. intros g. unfold unlink_heap. simpl.
  destruct (decide (f = g)) as [->|Hg]; [by rewrite !lookup_insert_eq|].
  rewrite !lookup_insert_ne by done.
  destruct (decide (hd = 0)) as [H0|Hnz].
  - unfold push_heap. rewrite decide_True by done. simpl. by rewrite lookup_insert_ne.
  - destruct (Hhd Hnz) as (hr & Hhr & Hp).
    destruct (decide (hd = g)) as [->|Hgh].
    + rewrite lookup_alter_eq. erewrite push_heap_head by eauto. simpl.
      rewrite Hhr. f_equal. rewrite <- Hp. by destruct hr.
    + rewrite lookup_alter_ne by done. by apply push_heap_other.
Qed.

(** C5.  For a record [f] that is on no queue ([f->queue] is null):
    [dequeue_fiber f] returns at once and leaves the whole state, so every
    queue and every field of [f], as it was; and in any state whose four
    queues are well-formed lists, [queue_fiber f Q] followed by
    [dequeue_fiber f] succeeds and gives back the state it started from, up
    to the interrupt mask (left enabled) and the two link fields of [f]
    itself (left null, as they are in every record that is off-queue after a
    [dequeue_fiber] or a [new Fiber()]): the queue heads, the idle fiber,
    every other record and the list held by each queue are the same. *)
Theorem enqueue_dequeue_roundtrip s f fr :
  f <> 0 -> heap s !! f = Some fr -> queue fr = None ->
  dequeue_fiber f s = Ok tt s /\
  forall L Q, queues_ok s L ->
    let s' := set_irq_enabled true (set_heap (<[f := strip fr]> (heap s)) s) in
    (queue_fiber f Q ;; dequeue_fiber f) s = Ok tt s' /\
    queues_ok s' L /\
    (forall q, queue_head q s' = queue_head q s) /\
    idle s' = idle s /\
    (forall g, g <> f -> heap s' !! g = heap s !! g) /\
    (next fr = 0 -> prev fr = 0 -> s' = set_irq_enabled true s).
Proof.
  intros Hf Hl Hq. split; [by eapply dequeue_fiber_off|].
  intros L Q Hok s'.
  destruct (queues_ok_queue s L Q f fr Hok Hf Hl Hq) as [Hqf Hok1].
  destruct (Hok Q) as [Hd Hnd].
  assert (queue_head Q s <> f) as Hne.
  { intros E. apply (off_queue_not_elem s L Q f fr Hok Hl Hq).
    rewrite (dll_head _ _ _ _ _ Hd) in E. rewrite <- E. apply hd_def_elem. congruence. }
  assert (queue_head Q s <> 0 ->
          exists hr, heap s !! queue_head Q s = Some hr /\ prev hr = 0) as Hhd.
  { intros Hnz. destruct (L Q) as [|g l]; [done|].
    destruct Hd as (-> & _ & gr & Hgl & _ & Hgp & _). eauto. }
  set (fr1 := set_prev 0 (set_next (queue_head Q s) (set_queue (Some Q) fr))).
  assert (heap (queued f Q fr s) !! f = Some fr1) as Hl1.
  { unfold queued. mnorm. by apply push_heap_self. }
  assert (dequeue_fiber f (queued f Q fr s) = Ok tt (dequeued f Q fr1 (queued f Q fr s)))
    as Hdq.
  { eapply dequeue_fiber_Ok; try done.
    intros Hnz. simpl in Hnz. split; [done|]. simpl.
    destruct (Hhd Hnz) as (hr & Hhr & _). unfold queued. mnorm.
    erewrite push_heap_head by eauto. eauto. }
  assert (dequeued f Q fr1 (queued f Q fr s) = s') as Hs'.
  { unfold dequeued, queued, s'. mnorm. unfold fr1.
    rewrite roundtrip_heap by done. destruct s, Q; reflexivity. }
  split; [|split; [|split; [|split; [|split]]]].
  - erewrite bind_Ok by exact Hqf. by rewrite Hdq, Hs'.
  - intros q. destruct (Hok q) as [Hd' Hnd']. split; [|done].
    unfold s'. mnorm. eapply dll_frame; [|exact Hd'].
    intros g Hg. rewrite lookup_insert_ne; [done|]. intros ->.
    by apply (off_queue_not_elem s L q g fr Hok Hl Hq).
  - intros q. unfold s'. by mnorm.
  - reflexivity.
  - intros g Hg. unfold s'. mnorm. by rewrite lookup_insert_ne.
  - intros Hn Hp. unfold s'. f_equal.
    replace (strip fr) with fr.
    + rewrite insert_id by done. by destruct s.
    + destruct fr. unfold strip. simpl in *. by subst.
Qed.

(** ** Growing a stack buffer *)

Lemma wrap32_range z : 0 <= wrap32 z < 2 ^ 32.
Proof. unfold wrap32. apply Z.mod_pos_bound. lia. Qed.

Lemma wrap32_small z : 0 <= z < 2 ^ 32 -> wrap32 z = z.
Proof. unfold wrap32. intros. by apply Z.mod_small. Qed.

Lemma grow_buffer_ge n b d : d <= b -> grow_buffer n b d = Some b.
Proof.
  intros Hle. destruct n; simpl; destruct (Z.ltb_spec b d); try lia; done.
Qed.

Lemma grow_buffer_None_lt n b d : grow_buffer n b d = None -> b < d.
Proof. destruct n; simpl; destruct (Z.ltb_spec b d); done. Qed.

(** The loop stops at the first doubling that reaches the depth, provided
    that doubling fits in a 32-bit word. *)
Lemma grow_buffer_pow : forall (k n : nat) b d,
  (k <= n)%nat -> 0 <= b ->
  (forall j : nat, (j < k)%nat -> b * 2 ^ Z.of_nat j < d) ->
  d <= b * 2 ^ Z.of_nat k -> b * 2 ^ Z.of_nat k < 2 ^ 32 ->
  grow_buffer n b d = Some (b * 2 ^ Z.of_nat k).
Proof.
  induction k as [|k IH]; intros n b d Hkn Hb Hlt Hge Hfit.
  - rewrite Z.pow_0_r, Z.mul_1_r in *. by apply grow_buffer_ge.
  - destruct n as [|n]; [lia|].
    assert (b < d) as Hbd.
    { specialize (Hlt 0%nat ltac:(lia)). simpl in Hlt. lia. }
    simpl grow_buffer. destruct (Z.ltb_spec b d); [|lia].
    rewrite Nat2Z.inj_succ, Z.pow_succ_r in * by lia.
    rewrite Z.shiftl_mul_pow2 by lia. change (2 ^ 1) with 2.
    assert (0 < 2 ^ Z.of_nat k) by (apply Z.pow_pos_nonneg; lia).
    rewrite wrap32_small by nia.
    replace (b * (2 * 2 ^ Z.of_nat k)) with (b * 2 * 2 ^ Z.of_nat k) in * by ring.
    apply IH; try lia.
    intros j Hj. specialize (Hlt (S j) ltac:(lia)).
    rewrite Nat2Z.inj_succ, Z.pow_succ_r in Hlt by lia.
    replace (b * 2 * 2 ^ Z.of_nat j) with (b * (2 * 2 ^ Z.of_nat j)) by ring. done.
Qed.

Lemma grow_buffer_zero n d : 0 < d -> grow_buffer n 0 d = None.
Proof.
  intros Hd. induction n as [|n IH]; simpl; destruct (Z.ltb_spec 0 d); try lia; done.
Qed.

Lemma grow_buffer_more : forall (n m : nat) b d,
  0 <= b < 2 ^ 32 ->
  grow_buffer (n + m) b d =
    match grow_buffer n b d with
    | Some r => Some r
    | None => grow_buffer m (wrap32 (b * 2 ^ Z.of_nat n)) d
    end.
Proof.
  induction n as [|n IH]; intros m b d Hb.
  - simpl. rewrite Z.mul_1_r, wrap32_small by done.
    destruct (Z.ltb_spec b d) as [Hlt|Hge]; [done|]. by rewrite grow_buffer_ge.
  - simpl grow_buffer. destruct (Z.ltb_spec b d) as [Hlt|Hge]; [|done].
    rewrite IH by apply wrap32_range.
    destruct (grow_buffer n _ d); [done|]. f_equal.
    rewrite Z.shiftl_mul_pow2 by lia. change (2 ^ 1) with 2.
    rewrite Nat2Z.inj_succ, Z.pow_succ_r by lia. unfold wrap32.
    rewrite Z.mul_mod_idemp_l by lia. f_equal. ring.
Qed.

(** Thirty-two steps decide the loop: with more fuel the outcome is the
    same, so [None] from [grow_buffer 32] is a loop that never exits. *)
Lemma grow_buffer_fuel (m : nat) b d :
  0 <= b < 2 ^ 32 -> grow_buffer (32 + m) b d = grow_buffer 32 b d.
Proof.
  intros Hb. rewrite grow_buffer_more by done.
  destruct (grow_buffer 32 b d) eqn:E; [done|].
  apply grow_buffer_None_lt in E.
  replace (wrap32 (b * 2 ^ Z.of_nat 32)) with 0.
  - apply grow_buffer_zero. lia.
  - unfold wrap32. change (2 ^ Z.of_nat 32) with (2 ^ 32). by rewrite Z.mod_mul.
Qed.

Lemma malloc_Ok size s :
  malloc size s =
    Ok (fst (next_alloc s))
       (set_heap_log (Malloc size (fst (next_alloc s)) :: heap_log s)
          (set_allocs (snd (next_alloc s)) s)).
Proof. unfold malloc. by destruct (next_alloc s). Qed.

Section StackProperties.
Context `{hw : Platform}.

Lemma verify_stack_size_fits f s fr :
  f <> 0 -> heap s !! f = Some fr ->
  wrap32 (CORTEX_M0_STACK_BASE - SP (cpu s)) <= wrap32 (stack_top fr - stack_bottom fr) ->
  verify_stack_size f s = Ok tt s.
Proof.
  intros Hf Hl Hle. unfold verify_stack_size, get_MSP. do 2 mstep.
  destruct (Z.ltb_spec (wrap32 (stack_top fr - stack_bottom fr))
              (wrap32 (CORTEX_M0_STACK_BASE - SP (cpu s)))); [lia|done].
Qed.

Lemma verify_stack_size_grows f s fr size :
  f <> 0 -> heap s !! f = Some fr ->
  wrap32 (stack_top fr - stack_bottom fr) < wrap32 (CORTEX_M0_STACK_BASE - SP (cpu s)) ->
  grow_buffer 32 (wrap32 (stack_top fr - stack_bottom fr))
    (wrap32 (CORTEX_M0_STACK_BASE - SP (cpu s))) = Some size ->
  verify_stack_size f s = Ok tt (regrown f fr size s).
Proof.
  intros Hf Hl Hlt Hg. unfold verify_stack_size, get_MSP. do 2 mstep.
  destruct (Z.ltb_spec (wrap32 (stack_top fr - stack_bottom fr))
              (wrap32 (CORTEX_M0_STACK_BASE - SP (cpu s)))); [|lia].
  rewrite Hg. do 2 mstep. unfold free. mstep. mstep.
  erewrite bind_Ok by apply malloc_Ok.
  mstep. mnorm. mstep. unfold store.
  erewrite bind_Ok by (apply load_Ok; [done|heap_look]).
  unfold modify, regrown. f_equal. mnorm. rewrite insert_insert_eq. by destruct s.
Qed.

Lemma verify_stack_size_hangs f s fr :
  f <> 0 -> heap s !! f = Some fr ->
  grow_buffer 32 (wrap32 (stack_top fr - stack_bottom fr))
    (wrap32 (CORTEX_M0_STACK_BASE - SP (cpu s))) = None ->
  verify_stack_size f s = Diverge.
Proof.
  intros Hf Hl Hg. pose proof (grow_buffer_None_lt _ _ _ Hg) as Hlt.
  unfold verify_stack_size, get_MSP. do 2 mstep.
  destruct (Z.ltb_spec (wrap32 (stack_top fr - stack_bottom fr))
              (wrap32 (CORTEX_M0_STACK_BASE - SP (cpu s)))); [|lia].
  by rewrite Hg.
Qed.

End StackProperties.

Section StackClaim.
Context `{hw : Platform}.


End StackClaim.



(** ** The scheduler proper *)

Lemma switch_frame_refl s : switch_frame s s.
Proof. split; [done|by destruct s]. Qed.

Lemma switch_frame_trans s1 s2 s3 :
  switch_frame s1 s2 -> switch_frame s2 s3 -> switch_frame s1 s3.
Proof.
  intros [H12 E12] [H23 E23]. split.
  - intros g. by rewrite H23, H12.
  - rewrite E23, E12. by destruct s1.
Qed.

Lemma switch_frame_insert s f fr fr' s' :
  heap s !! f = Some fr -> sched_view fr' = sched_view fr ->
  s' = set_cpu (cpu s') (set_allocs (allocs s')
         (set_heap_log (heap_log s') (set_heap (<[f := fr']> (heap s)) s))) ->
  switch_frame s s'.
Proof.
  intros Hl Hv ->. split; [|by destruct s].
  intros g. simpl. destruct (decide (f = g)) as [->|Hne].
  - rewrite lookup_insert_eq, Hl. simpl. by rewrite Hv.
  - by rewrite lookup_insert_ne.
Qed.

Lemma switch_frame_same_links s s' : switch_frame s s' -> same_links (heap s) (heap s').
Proof.
  intros [Hv _] g. specialize (Hv g).
  destruct (heap s' !! g) as [a|], (heap s !! g) as [b|]; simpl in *; try done.
  unfold sched_view in Hv. unfold linkage. by injection Hv as -> -> -> _ _.
Qed.

Lemma switch_frame_heads s s' q : switch_frame s s' -> queue_head q s' = queue_head q s.
Proof. intros [_ ->]. by destruct q. Qed.

Lemma switch_frame_queues_ok s s' L : switch_frame s s' -> queues_ok s L -> queues_ok s' L.
Proof.
  intros Hf. apply queues_ok_same_links; [by apply switch_frame_same_links|].
  intros q. by apply switch_frame_heads.
Qed.

Lemma switch_frame_lookup s s' g fr :
  switch_frame s s' -> heap s !! g = Some fr ->
  exists fr', heap s' !! g = Some fr' /\ sched_view fr' = sched_view fr.
Proof.
  intros [Hv _] Hl. specialize (Hv g). rewrite Hl in Hv.
  destruct (heap s' !! g) as [fr'|]; simpl in Hv; [|done].
  exists fr'. split; [done|congruence].
Qed.

Section SchedulerProperties.
Context `{hw : Platform}.

(** Whatever [verify_stack_size] does when it returns, it leaves the
    scheduler's view of every record alone. *)
Lemma verify_stack_size_frame f s s' :
  verify_stack_size f s = Ok tt s' -> switch_frame s s'.
Proof.
  intros Hv. destruct (decide (f = 0)) as [->|Hf].
  { unfold verify_stack_size, get_MSP in Hv. rewrite bind_gets in Hv.
    unfold bind in Hv. by rewrite load_NULL in Hv. }
  destruct (heap s !! f) as [fr|] eqn:Hl.
  2:{ unfold verify_stack_size, get_MSP in Hv. rewrite bind_gets in Hv.
      unfold bind, load in Hv. rewrite decide_False, Hl in Hv by done. done. }
  set (b := wrap32 (stack_top fr - stack_bottom fr)).
  set (d := wrap32 (CORTEX_M0_STACK_BASE - SP (cpu s))).
  destruct (Z.ltb_spec b d) as [Hlt|Hge].
  - destruct (grow_buffer 32 b d) as [size|] eqn:Hg.
    + rewrite (verify_stack_size_grows f s fr size) in Hv by done.
      injection Hv as <-.
      apply (switch_frame_insert s f fr
               (set_stack_top (wrap32 (fst (next_alloc s) + size))
                  (set_stack_bottom (fst (next_alloc s)) fr)));
        [exact Hl | reflexivity | ].
      unfold regrown. by destruct s.
    + by rewrite (verify_stack_size_hangs f s fr) in Hv.
  - rewrite (verify_stack_size_fits f s fr) in Hv by done.
    injection Hv as <-. apply switch_frame_refl.
Qed.

Lemma schedule_pick_Ok s cr :
  currentFiber s <> 0 -> heap s !! currentFiber s = Some cr ->
  schedule_pick s = Ok tt (set_currentFiber (selection_rule s cr) s).
Proof.
  intros Hc Hl. unfold schedule_pick, selection_rule. do 2 mstep.
  destruct (bool_decide (runQueue s = 0) || flag_set (fiber_flags s) MICROBIT_FLAG_DATA_READ).
  - by mstep.
  - do 2 mstep. destruct (decide (queue cr = Some RunQueue)) as [Hq|Hq].
    + rewrite (bool_decide_eq_true_2 _ Hq).
      destruct (decide (next cr = 0)) as [Hn|Hn].
      * by rewrite (bool_decide_eq_true_2 _ Hn).
      * by rewrite (bool_decide_eq_false_2 _ Hn).
    + by rewrite (bool_decide_eq_false_2 _ Hq).
Qed.

Lemma schedule_switch_same old s :
  currentFiber s = old -> schedule_switch old s = Ok Returns s.
Proof. intros Hc. unfold schedule_switch. mstep. by rewrite decide_True. Qed.

Lemma schedule_switch_Ok old s s1 old_rec new_rec :
  currentFiber s <> old ->
  verify_stack_size old s = Ok tt s1 ->
  old <> 0 -> heap s1 !! old = Some old_rec ->
  currentFiber s <> 0 -> heap s1 !! currentFiber s = Some new_rec ->
  schedule_switch old s = Ok Switched (switched old old_rec new_rec s1).
Proof.
  intros Hne Hv Ho Hol Hn Hnl. unfold schedule_switch. mstep.
  rewrite decide_False by done. erewrite bind_Ok by exact Hv.
  repeat mstep. unfold swap_context. repeat mstep. reflexivity.
Qed.

Lemma schedule_switch_frame old s k s' :
  schedule_switch old s = Ok k s' -> switch_frame s s'.
Proof.
  unfold schedule_switch. rewrite bind_gets.
  destruct (decide (currentFiber s = old)) as [E|Hne].
  { intros [= <- <-]. apply switch_frame_refl. }
  unfold bind at 1. destruct (verify_stack_size old s) as [[] s1| | |] eqn:Hv; try done.
  pose proof (verify_stack_size_frame _ _ _ Hv) as Hf1.
  rewrite bind_assoc. unfold bind at 1, load at 1.
  destruct (decide (old = 0)); [done|].
  destruct (heap s1 !! old) as [old_rec|] eqn:Hol; [|done].
  rewrite bind_assoc. unfold bind at 1, load at 1.
  destruct (decide (currentFiber s = 0)); [done|].
  destruct (heap s1 !! currentFiber s) as [new_rec|] eqn:Hnl; [|done].
  intros Hsw.
  assert (s' = switched old old_rec new_rec s1) as ->.
  { pose proof (schedule_switch_Ok old s s1 old_rec new_rec Hne Hv) as Hok.
    unfold schedule_switch in Hok. rewrite bind_gets, decide_False in Hok by done.
    unfold bind at 1 in Hok. rewrite Hv in Hok.
    rewrite bind_assoc in Hok. unfold bind at 1, load at 1 in Hok.
    rewrite decide_False, Hol in Hok by done.
    rewrite bind_assoc in Hok. unfold bind at 1, load at 1 in Hok.
    rewrite decide_False, Hnl in Hok by done.
    rewrite Hok in Hsw by done. by injection Hsw. }
  eapply switch_frame_trans; [exact Hf1|].
  apply (switch_frame_insert s1 old old_rec (set_tcb (cpu s1) old_rec));
    [exact Hol | reflexivity | ].
  unfold switched. by destruct s1.
Qed.

Lemma schedule_normal s cr :
  currentFiber s <> 0 -> heap s !! currentFiber s = Some cr ->
  flag_set (flags cr) MICROBIT_FIBER_FLAG_FOB = false ->
  schedule s = (schedule_pick ;; schedule_switch (currentFiber s)) s.
Proof.
  intros Hc Hl Hfob. unfold schedule. do 2 mstep. by rewrite Hfob.
Qed.

End SchedulerProperties.

Section SchedulerClaims.
Context `{hw : Platform}.

(** C4.  Outside fork-on-block context (the FOB flag of the current fiber
    is clear) [schedule] is its round robin followed by the context switch,
    and the round robin installs as [currentFiber] exactly the fiber of
    [selection_rule]: the idle fiber if the run queue is empty or the
    data-read flag is set; otherwise the next link of the current fiber if
    it is on the run queue (the head of the run queue if that link is null);
    otherwise the head of the run queue.  The context switch never changes
    that choice. *)
Theorem schedule_selects s cr :
  currentFiber s <> 0 -> heap s !! currentFiber s = Some cr ->
  flag_set (flags cr) MICROBIT_FIBER_FLAG_FOB = false ->
  schedule s = (schedule_pick ;; schedule_switch (currentFiber s)) s /\
  schedule_pick s = Ok tt (set_currentFiber (selection_rule s cr) s) /\
  (forall k s', schedule s = Ok k s' -> currentFiber s' = selection_rule s cr).
Proof.
  intros Hc Hl Hfob.
  pose proof (schedule_normal s cr Hc Hl Hfob) as Hn.
  pose proof (schedule_pick_Ok s cr Hc Hl) as Hp.
  split; [done|]. split; [done|].
  intros k s'. rewrite Hn. erewrite bind_Ok by exact Hp. intros Hsw.
  apply schedule_switch_frame in Hsw as [_ ->]. reflexivity.
Qed.

(** C9.  When the current fiber is the head of the run queue and its next
    link is null (it is the only runnable fiber), its FOB flag is clear and
    no data read is pending, [schedule] returns to its caller and the state
    is untouched: no context switch, no stack resizing, the same current
    fiber, queues and saved contexts. *)
Theorem schedule_alone s c cr :
  currentFiber s = c -> c <> 0 -> heap s !! c = Some cr ->
  runQueue s = c -> queue cr = Some RunQueue -> next cr = 0 ->
  flag_set (flags cr) MICROBIT_FIBER_FLAG_FOB = false ->
  flag_set (fiber_flags s) MICROBIT_FLAG_DATA_READ = false ->
  schedule s = Ok Returns s.
Proof.
  intros Hc Hnz Hl Hrun Hq Hn Hfob Hdr. subst c.
  rewrite (schedule_normal s cr) by done.
  erewrite bind_Ok by (by apply schedule_pick_Ok).
  assert (selection_rule s cr = currentFiber s) as Hsel.
  { unfold selection_rule. rewrite Hdr, (bool_decide_eq_false_2 _) by congruence.
    simpl. rewrite (bool_decide_eq_true_2 _ Hq), (bool_decide_eq_true_2 _ Hn). done. }
  rewrite Hsel.
  replace (set_currentFiber (currentFiber s) s) with s by (by destruct s).
  by apply schedule_switch_same.
Qed.

End SchedulerClaims.

(** Fiber 256 runs alone and yields: it is chosen again. *)
Lemma schedule_selects_witness :
  let s := one_fiber 0 536887192 [] in
  schedule_pick (hw := microbit) s = Ok tt (set_currentFiber 256 s).
Proof.
  intros s.
  exact (proj1 (proj2 (schedule_selects (hw := microbit) s
                         (example_fiber 4096 0 (Some RunQueue) 0 0)
                         ltac:(vm_compute; discriminate) eq_refl eq_refl))).
Defined.

Lemma schedule_alone_witness :
  let s := one_fiber 0 536887192 [] in
  schedule (hw := microbit) s = Ok Returns s.
Proof.
  intros s.
  apply (schedule_alone (hw := microbit) s 256
           (example_fiber 4096 0 (Some RunQueue) 0 0));
    first [ reflexivity | vm_compute; discriminate ].
Defined.

(** ** The event filter *)

Section EventFilter.
Context `{hw : Platform}.

(** What the dispatcher reads back from the word that
    [fiber_wait_for_event id value] stores: the low eight bits of [id], and
    0 in place of [value]. *)
Lemma event_wakes_packed id val evt :
  0 <= id < 2 ^ 16 -> 0 <= val < 2 ^ 16 ->
  event_wakes (wrap32 (Z.lor (Z.shiftl val 16) id)) evt =
    ((id mod 256 =? MICROBIT_ID_ANY) || (id mod 256 =? source evt))
    && ((0 =? MICROBIT_EVT_ANY) || (0 =? value evt)).
Proof.
  intros Hid Hval. unfold event_wakes.
  set (w := wrap32 (Z.lor (Z.shiftl val 16) id)).
  assert (Z.land w 255 = id mod 256) as Hlow.
  { unfold w, wrap32. change 255 with (Z.ones 8). change 256 with (2 ^ 8).
    apply Z.bits_inj'. intros n Hn. rewrite Z.land_spec.
    destruct (Z.ltb_spec n 8) as [Hlt|Hge].
    - rewrite Z.ones_spec_low, andb_true_r by lia.
      rewrite !Z.mod_pow2_bits_low by lia.
      rewrite Z.lor_spec, Z.shiftl_spec_low by lia. reflexivity.
    - rewrite Z.ones_spec_high, andb_false_r by lia.
      by rewrite Z.mod_pow2_bits_high by lia. }
  assert (Z.shiftr (Z.land w 65280) 16 = 0) as Hhigh.
  { rewrite Z.shiftr_land. change (Z.shiftr 65280 16) with 0. apply Z.land_0_r. }
  rewrite Hlow, Hhigh.
  assert (wrap16 (id mod 256) = id mod 256) as ->.
  { unfold wrap16. apply Z.mod_small.
    pose proof (Z.mod_pos_bound id 256 ltac:(lia)). lia. }
  reflexivity.
Qed.

End EventFilter.

(** C1 fails on the code.  Fiber 256 waits for the event (id 5, value 7);
    the event (source 5, value 8) is delivered, which the match rule
    rejects, and the dispatcher moves the fiber to the run queue: it has
    read the value 0 back from the context word and taken it for
    MICROBIT_EVT_ANY.  Fiber 256 waits for (id 261, any value); the event
    (source 261, value 1) is delivered, which the match rule accepts, and
    the fiber stays on the wait queue: the dispatcher has read the id 5. *)
Theorem event_filter_not_recovered :
  match (fiber_wait_for_event (hw := microbit) 5 7 ;;
         scheduler_event (hw := microbit) 8 (mkEvent 5 8))
          (one_fiber 0 536887192 []) with
  | Ok _ s => runQueue s = 256 /\ waitQueue s = 0
  | _ => False
  end /\
  match (fiber_wait_for_event (hw := microbit) 261 0 ;;
         scheduler_event (hw := microbit) 8 (mkEvent 261 1))
          (one_fiber 0 536887192 []) with
  | Ok _ s => runQueue s = 0 /\ waitQueue s = 256
  | _ => False
  end.
Proof. vm_compute. repeat split; reflexivity. Qed.

(** C2 fails on the code.  Fiber 256 runs a handler in fork-on-block
    context (its FOB flag is set), the pool is empty and memory is
    exhausted, either at once or when the stack of the new record is
    requested.  [getFiberContext] returns NULL, the blocking primitive goes
    on with the current fiber, and [schedule] then hands the null
    [forkedFiber] to [verify_stack_size], which dereferences it. *)
Theorem fork_on_block_out_of_memory_faults :
  fiber_sleep (hw := microbit) 10 (one_fiber 1 536887192 []) = Fault /\
  fiber_wait_for_event (hw := microbit) 5 7 (one_fiber 1 536887192 []) = Fault /\
  fiber_sleep (hw := microbit) 10 (one_fiber 1 536887192 [1024]) = Fault /\
  fiber_wait_for_event (hw := microbit) 5 7 (one_fiber 1 536887192 [1024]) = Fault /\
  forall s, forkedFiber s = NULL -> verify_stack_size (hw := microbit) (forkedFiber s) s = Fault.
Proof.
  split; [vm_compute; reflexivity|].
  split; [vm_compute; reflexivity|].
  split; [vm_compute; reflexivity|].
  split; [vm_compute; reflexivity|].
  intros s ->. unfold verify_stack_size, get_MSP. rewrite bind_gets.
  unfold bind. by rewrite load_NULL.
Qed.

(** ** Obtaining a record *)

Lemma next_alloc_eq s : next_alloc s = (hd_def (allocs s), tail (allocs s)).
Proof. unfold next_alloc. by destruct (allocs s). Qed.

Lemma queues_ok_irq b s L : queues_ok s L -> queues_ok (set_irq_enabled b s) L.
Proof.
  apply queues_ok_same_links; [apply same_links_refl|]. intros q. by destruct q.
Qed.

Lemma new_Fiber_Ok s :
  hd_def (allocs s) <> 0 ->
  new_Fiber s =
    Ok (hd_def (allocs s))
       (set_heap_log (New (hd_def (allocs s)) :: heap_log s)
          (set_heap (<[hd_def (allocs s) := zero_Fiber]> (heap s))
             (set_allocs (tail (allocs s)) s))).
Proof. intros Hnz. unfold new_Fiber. rewrite next_alloc_eq. by rewrite decide_False. Qed.

Lemma new_Fiber_fails s :
  hd_def (allocs s) = 0 -> new_Fiber s = Ok 0 (set_allocs (tail (allocs s)) s).
Proof. intros Hz. unfold new_Fiber. rewrite next_alloc_eq. by rewrite decide_True. Qed.

Section PoolProperties.
Context `{hw : Platform}.

Lemma getFiberContext_pool s L p l :
  queues_ok s L -> L FiberPool = p :: l ->
  exists pr,
    heap s !! p = Some pr /\ p <> 0 /\ fiberPool s = p /\
    getFiberContext s = Ok p (recycled p pr s) /\
    queues_ok (recycled p pr s) (upd L FiberPool l) /\
    heap (recycled p pr s) !! p = Some (set_flags 0 (strip pr)) /\
    links_only (heap s) (<[p := strip pr]> (heap (recycled p pr s))) /\
    frame_queues s (recycled p pr s).
Proof.
  intros Hok HL.
  assert (queues_ok (set_irq_enabled false s) L) as Hok0 by by apply queues_ok_irq.
  destruct (queues_ok_dequeue _ _ FiberPool [] p l Hok0 HL)
    as (pr & Hl & Hq & Hp & Hn & Hdeq & Hok1).
  destruct (Hok FiberPool) as [Hd _]. rewrite HL in Hd.
  destruct Hd as (Hhd & Hp0 & _). simpl in Hhd.
  exists pr. split; [done|]. split; [done|]. split; [done|].
  set (s1 := dequeued p FiberPool pr (set_irq_enabled false s)) in *.
  assert (heap s1 !! p = Some (strip pr)) as Hl1 by apply unlink_heap_self.
  split; [|split; [|split; [|split]]].
  - unfold getFiberContext. do 2 mstep. simpl. rewrite Hhd.
    rewrite decide_False by done. erewrite bind_Ok by exact Hdeq.
    fold s1. mstep. reflexivity.
  - eapply queues_ok_same_links; [| |exact Hok1].
    + unfold recycled. fold s1. mnorm. eapply same_links_insert; [exact Hl1|done].
    + intros q. unfold recycled. fold s1. by mnorm.
  - unfold recycled. fold s1. mnorm. apply lookup_insert_eq.
  - unfold recycled. fold s1. mnorm. rewrite insert_insert_eq.
    rewrite (insert_id _ _ _ Hl1). unfold s1, dequeued. mnorm.
    by apply links_only_unlink.
  - unfold recycled. fold s1.
    eapply frame_queues_trans with (s2 := s1).
    + unfold s1, frame_queues, dequeued. case_decide; by destruct s.
    + unfold frame_queues. by destruct s1.
Qed.

Lemma getFiberContext_fresh s :
  fiberPool s = 0 ->
  hd_def (allocs s) <> 0 -> hd_def (tail (allocs s)) <> 0 ->
  getFiberContext s =
    Ok (hd_def (allocs s))
       (allocated (hd_def (allocs s)) (hd_def (tail (allocs s))) s).
Proof.
  intros Hpool Ha Hb. unfold getFiberContext. do 2 mstep. simpl. rewrite Hpool.
  rewrite decide_True by done. mstep.
  erewrite bind_Ok by (by apply new_Fiber_Ok).
  rewrite decide_False by done. mnorm.
  mstep. erewrite bind_Ok by apply malloc_Ok. rewrite next_alloc_eq. mnorm.
  mstep. mnorm. rewrite insert_insert_eq. do 3 mstep. mnorm. rewrite insert_insert_eq.
  mstep. mnorm. rewrite decide_False by done. mstep. mnorm. rewrite insert_insert_eq.
  unfold ret, allocated, fresh_Fiber. first [ reflexivity | by (f_equal; destruct s) ].
Qed.

(** Out of memory: the record, or else its stack, cannot be allocated. *)
Lemma getFiberContext_no_record s :
  fiberPool s = 0 -> hd_def (allocs s) = 0 ->
  getFiberContext s = Ok 0 (set_allocs (tail (allocs s)) (set_irq_enabled true s)).
Proof.
  intros Hpool Ha. unfold getFiberContext. do 2 mstep. simpl. rewrite Hpool.
  rewrite decide_True by done. mstep.
  erewrite bind_Ok by (by apply new_Fiber_fails). by destruct s.
Qed.

Lemma getFiberContext_no_stack s :
  fiberPool s = 0 -> hd_def (allocs s) <> 0 -> hd_def (tail (allocs s)) = 0 ->
  getFiberContext s =
    Ok 0 (set_heap (delete (hd_def (allocs s)) (heap s))
            (set_heap_log (Delete (hd_def (allocs s))
                             :: Malloc FIBER_STACK_SIZE 0
                             :: New (hd_def (allocs s)) :: heap_log s)
               (set_allocs (tail (tail (allocs s))) (set_irq_enabled true s)))).
Proof.
  intros Hpool Ha Hb. unfold getFiberContext. do 2 mstep. simpl. rewrite Hpool.
  rewrite decide_True by done. mstep.
  erewrite bind_Ok by (by apply new_Fiber_Ok).
  rewrite decide_False by done. mnorm.
  mstep. erewrite bind_Ok by apply malloc_Ok. rewrite next_alloc_eq. mnorm.
  mstep. mnorm. rewrite insert_insert_eq. do 3 mstep. mnorm. rewrite insert_insert_eq.
  mstep. mnorm. rewrite Hb. rewrite decide_True by done.
  unfold delete_Fiber. mstep. mnorm. rewrite delete_insert_eq.
  unfold ret. first [ reflexivity | by (f_equal; destruct s) ].
Qed.

End PoolProperties.

(** ** Creation *)

(** Statements of the allocator and of the architecture layer. *)
Ltac mstep_env :=
  lazymatch goal with
  | |- bind (poke _ _ _) _ _ = _ =>
      unfold poke at 1; rewrite decide_False by done; rewrite bind_modify
  | |- bind (free _) _ _ = _ => unfold free at 1; rewrite bind_modify
  | |- bind (malloc _) _ _ = _ =>
      erewrite bind_Ok by apply malloc_Ok; rewrite next_alloc_eq
  | |- bind (save_context _ _) _ _ = _ => unfold save_context at 1
  | |- bind (save_register_context _) _ _ = _ => unfold save_register_context at 1
  | |- bind (restore_register_context _) _ _ = _ =>
      unfold restore_register_context at 1
  | |- bind get_MSP _ _ = _ => unfold get_MSP at 1
  end.

Ltac msteps :=
  repeat (first [ mstep | mstep_env ]; mnorm; rewrite ?insert_insert_eq).

Section CreateProperties.
Context `{hw : Platform}.

Lemma queues_ok_allocated s L a b :
  queues_ok s L -> heap s !! a = None -> queues_ok (allocated a b s) L.
Proof.
  intros Hok Hfresh q. destruct (Hok q) as [Hd Hnd]. split; [|done].
  replace (queue_head q (allocated a b s)) with (queue_head q s) by (by destruct q).
  eapply dll_frame; [|exact Hd]. intros g Hg. unfold allocated. simpl.
  rewrite lookup_insert_ne; [done|]. intros ->.
  destruct (dll_member _ _ _ _ _ _ Hd Hg) as (_ & fr & Hl & _). congruence.
Qed.

(** [create_fiber] from the point where [getFiberContext] has returned the
    record [f], off every queue, when the cached context exists. *)
Lemma create_fiber_cached s s1 L1 f fr t entry_fn completion_fn :
  entry_fn <> 0 -> completion_fn <> 0 ->
  getFiberContext s = Ok f s1 -> f <> 0 ->
  heap s1 !! f = Some fr -> queue fr = None -> stack_bottom fr <> 0 ->
  queues_ok s1 L1 -> emptyContext s1 = Some t ->
  exists s',
    create_fiber entry_fn completion_fn s = Ok f s' /\
    runQueue s' = f /\
    queues_ok s' (upd L1 RunQueue (f :: L1 RunQueue)).
Proof.
  intros He Hc Hg Hf Hl Hq Hsb Hok Hec.
  set (s2 := set_heap (<[f := set_tcb t fr]> (heap s1))
               (set_stackmem (<[wrap32 (stack_bottom fr + 4) := completion_fn]>
                                (<[wrap32 (stack_bottom fr + 0) := entry_fn]> (stackmem s1))) s1)).
  assert (queues_ok s2 L1) as Hok2.
  { eapply queues_ok_same_links; [| |exact Hok].
    - unfold s2. simpl. by eapply same_links_insert.
    - intros q. by destruct q. }
  assert (heap s2 !! f = Some (set_tcb t fr)) as Hl2 by apply lookup_insert_eq.
  destruct (queues_ok_queue s2 L1 RunQueue f (set_tcb t fr) Hok2 Hf Hl2 Hq) as [Hqf Hok'].
  exists (queued f RunQueue (set_tcb t fr) s2). split; [|split; [|done]].
  - unfold create_fiber. rewrite decide_False by tauto.
    erewrite bind_Ok by exact Hg. rewrite decide_False by done.
    msteps. rewrite Hec. msteps.
    match goal with |- bind _ _ ?st = _ => replace st with s2 by (unfold s2; by destruct s1) end.
    erewrite bind_Ok by exact Hqf. reflexivity.
  - reflexivity.
Qed.

(** The same for the first creation, which builds the cached context. *)
Lemma create_fiber_first s s1 L1 f fr entry_fn completion_fn :
  entry_fn <> 0 -> completion_fn <> 0 ->
  getFiberContext s = Ok f s1 -> f <> 0 ->
  heap s1 !! f = Some fr -> queue fr = None -> stack_bottom fr <> 0 ->
  queues_ok s1 L1 -> emptyContext s1 = None -> hd_def (allocs s1) <> 0 ->
  exists s',
    create_fiber entry_fn completion_fn s = Ok f s' /\
    runQueue s' = f /\
    queues_ok s' (upd L1 RunQueue (f :: L1 RunQueue)) /\
    emptyContext s' =
      Some (set_LR addr_launch_new_fiber (set_SP CORTEX_M0_STACK_BASE (cpu s1))).
Proof.
  intros He Hc Hg Hf Hl Hq Hsb Hok Hec Ha.
  set (t := set_LR addr_launch_new_fiber (set_SP CORTEX_M0_STACK_BASE (cpu s1))).
  set (s2 := set_emptyContext (Some t)
               (set_heap_log (Malloc sizeof_Cortex_M0_TCB (hd_def (allocs s1)) :: heap_log s1)
                  (set_allocs (tail (allocs s1))
                     (set_heap (<[f := set_tcb t fr]> (heap s1))
                        (set_stackmem (<[wrap32 (stack_bottom fr + 4) := completion_fn]>
                                         (<[wrap32 (stack_bottom fr + 0) := entry_fn]> (stackmem s1))) s1))))).
  assert (queues_ok s2 L1) as Hok2.
  { eapply queues_ok_same_links; [| |exact Hok].
    - unfold s2. simpl. by eapply same_links_insert.
    - intros q. by destruct q. }
  assert (heap s2 !! f = Some (set_tcb t fr)) as Hl2 by apply lookup_insert_eq.
  destruct (queues_ok_queue s2 L1 RunQueue f (set_tcb t fr) Hok2 Hf Hl2 Hq) as [Hqf Hok'].
  exists (queued f RunQueue (set_tcb t fr) s2). split; [|split; [|split; [done|]]].
  - unfold create_fiber. rewrite decide_False by tauto.
    erewrite bind_Ok by exact Hg. rewrite decide_False by done.
    msteps. rewrite Hec. msteps.
    rewrite decide_False by done. msteps.
    match goal with |- bind _ _ ?st = _ => replace st with s2 by (unfold s2, t; by destruct s1) end.
    erewrite bind_Ok by exact Hqf. reflexivity.
  - reflexivity.
  - reflexivity.
Qed.

Lemma create_fiber_param_cached s s1 L1 f fr t entry_fn param completion_fn :
  entry_fn <> 0 -> completion_fn <> 0 ->
  getFiberContext s = Ok f s1 -> f <> 0 ->
  heap s1 !! f = Some fr -> queue fr = None -> stack_bottom fr <> 0 ->
  queues_ok s1 L1 -> emptyContext s1 = Some t ->
  exists s',
    create_fiber_param entry_fn param completion_fn s = Ok f s' /\
    runQueue s' = f /\
    queues_ok s' (upd L1 RunQueue (f :: L1 RunQueue)).
Proof.
  intros He Hc Hg Hf Hl Hq Hsb Hok Hec.
  set (fr2 := set_tcb (set_LR addr_launch_new_fiber_param t) fr).
  set (s2 := set_heap (<[f := fr2]> (heap s1))
               (set_stackmem (<[wrap32 (stack_bottom fr + 8) := completion_fn]>
                                (<[wrap32 (stack_bottom fr + 4) := param]>
                                   (<[wrap32 (stack_bottom fr + 0) := entry_fn]> (stackmem s1)))) s1)).
  assert (queues_ok s2 L1) as Hok2.
  { eapply queues_ok_same_links; [| |exact Hok].
    - unfold s2. simpl. by eapply same_links_insert.
    - intros q. by destruct q. }
  assert (heap s2 !! f = Some fr2) as Hl2 by apply lookup_insert_eq.
  destruct (queues_ok_queue s2 L1 RunQueue f fr2 Hok2 Hf Hl2 Hq) as [Hqf Hok'].
  exists (queued f RunQueue fr2 s2). split; [|split; [|done]].
  - unfold create_fiber_param. rewrite decide_False by tauto.
    erewrite bind_Ok by exact Hg. rewrite decide_False by done.
    msteps. rewrite Hec. msteps.
    match goal with |- bind _ _ ?st = _ => replace st with s2 by (unfold s2, fr2; by destruct s1) end.
    erewrite bind_Ok by exact Hqf. reflexivity.
  - reflexivity.
Qed.

End CreateProperties.

Section RecordProperties.
Context `{hw : Platform}.

(** [getFiberContext] when a record can be had: the head of the pool, or a
    new one when the pool is empty and the allocator hands out a fresh
    record and a stack. *)
Lemma getFiberContext_record s L :
  queues_ok s L ->
  (L FiberPool = [] ->
   hd_def (allocs s) <> 0 /\ hd_def (tail (allocs s)) <> 0 /\
   heap s !! hd_def (allocs s) = None) ->
  exists f s1 fr,
    getFiberContext s = Ok f s1 /\
    f <> 0 /\
    f = (if decide (L FiberPool = []) then hd_def (allocs s) else fiberPool s) /\
    heap s1 !! f = Some fr /\ queue fr = None /\ flags fr = 0 /\
    queues_ok s1 (upd L FiberPool (tail (L FiberPool))) /\
    (forall g, g <> f -> strip <$> (heap s1 !! g) = strip <$> (heap s !! g)) /\
    (f ∈ L FiberPool \/ heap s !! f = None) /\
    allocs s1 = (if decide (L FiberPool = []) then tail (tail (allocs s)) else allocs s) /\
    pool_frame s s1.
Proof.
  intros Hok Halloc. destruct (L FiberPool) as [|p l] eqn:HL.
  - destruct (Halloc eq_refl) as (Ha & Hb & Hfresh).
    assert (fiberPool s = 0) as Hpool.
    { destruct (Hok FiberPool) as [Hd _]. by rewrite HL in Hd. }
    exists (hd_def (allocs s)), (allocated (hd_def (allocs s)) (hd_def (tail (allocs s))) s),
      (fresh_Fiber (hd_def (tail (allocs s)))).
    split; [by apply getFiberContext_fresh|]. split; [done|].
    rewrite decide_True by done. split; [done|].
    split; [apply lookup_insert_eq|]. do 2 (split; [done|]). split.
    { eapply queues_ok_ext; [|by apply queues_ok_allocated].
      intros q. unfold upd. case_decide; subst; by rewrite ?HL. }
    split.
    { intros g Hg. unfold allocated. simpl. by rewrite lookup_insert_ne. }
    split; [by right|]. split; [done|].
    unfold pool_frame, allocated. destruct s. simpl in *. by rewrite Hpool.
  - destruct (getFiberContext_pool s L p l Hok HL)
      as (pr & Hl & Hp0 & Hpool & Hg & Hok1 & Hl1 & Hlo & Hfr).
    exists p, (recycled p pr s), (set_flags 0 (strip pr)).
    split; [done|]. split; [done|]. rewrite decide_False by done.
    split; [done|]. split; [done|]. do 2 (split; [done|]). split; [done|].
    split.
    { intros g Hg'. specialize (Hlo g). by rewrite lookup_insert_ne in Hlo. }
    split; [left; apply elem_of_cons; auto|].
    split.
    { unfold recycled, dequeued. case_decide; by destruct s. }
    unfold pool_frame, recycled, dequeued. case_decide; by destruct s.
Qed.

(** The record that [getFiberContext] hands out has a stack buffer when the
    head of the pool has one: the stack of a new record is checked, that of
    a pooled record is not. *)
Lemma getFiberContext_stack s L f s1 fr :
  queues_ok s L -> getFiberContext s = Ok f s1 -> f <> 0 ->
  heap s1 !! f = Some fr ->
  (L FiberPool = [] -> hd_def (allocs s) <> 0 /\ hd_def (tail (allocs s)) <> 0) ->
  (forall p l pr, L FiberPool = p :: l -> heap s !! p = Some pr -> stack_bottom pr <> 0) ->
  stack_bottom fr <> 0.
Proof.
  intros Hok Hg Hf Hl Halloc Hstk.
  destruct (L FiberPool) as [|p l] eqn:HL.
  - destruct (Halloc eq_refl) as (Ha & Hb).
    assert (fiberPool s = 0) as Hpool.
    { destruct (Hok FiberPool) as [Hd _]. by rewrite HL in Hd. }
    rewrite getFiberContext_fresh in Hg by done. injection Hg as <- <-.
    unfold allocated in Hl. simpl in Hl. rewrite lookup_insert_eq in Hl.
    by injection Hl as <-.
  - destruct (getFiberContext_pool s L p l Hok HL)
      as (pr & Hlp & Hp0 & Hpool & Hg' & _ & Hl1 & _).
    rewrite Hg' in Hg. injection Hg as <- <-. rewrite Hl1 in Hl. injection Hl as <-.
    simpl. by eapply Hstk.
Qed.

End RecordProperties.

Section CreateClaim.
Context `{hw : Platform}.

Lemma getFiberContext_out_of_memory s :
  fiberPool s = 0 ->
  (hd_def (allocs s) = 0 \/ hd_def (tail (allocs s)) = 0) ->
  (hd_def (allocs s) <> 0 -> heap s !! hd_def (allocs s) = None) ->
  exists s1,
    getFiberContext s = Ok 0 s1 /\ heap s1 = heap s /\ fiberPool s1 = 0 /\
    pool_frame s s1.
Proof.
  intros Hpool Hoom Hfresh.
  destruct (decide (hd_def (allocs s) = 0)) as [Ha|Ha].
  - eexists. split; [by apply getFiberContext_no_record|].
    split; [done|]. split; [done|]. unfold pool_frame. by destruct s.
  - destruct Hoom as [|Hb]; [done|].
    eexists. split; [by apply getFiberContext_no_stack|]. simpl.
    split; [by apply delete_id, Hfresh|]. split; [done|].
    unfold pool_frame. destruct s. simpl in *. by rewrite Hpool.
Qed.

(** Both overloads of [create_fiber], where they do what is expected of
    them.  They
    - return NULL and leave the state as it is when the entry function or
      the completion function is null;
    - return NULL when no record can be obtained (the pool is empty and the
      allocation of the record, or that of its stack, fails), leaving the
      records and all four queue heads as they were;
    - otherwise return a non-null record (the head of the pool, or the new
      record when the pool is empty), which is then the head of the run
      queue, in front of the fibers that were there.
    The last part needs a stack buffer in the record taken from the pool
    and the cached initial context, which the parameterised overload relies
    on; on the very first parameterless call it needs the cache itself to
    be allocated.  [create_fiber_no_cache] and [create_fiber_null_stack]
    show what happens otherwise. *)
Lemma create_fiber_returns s entry_fn param completion_fn :
  (entry_fn = 0 \/ completion_fn = 0 ->
   create_fiber entry_fn completion_fn s = Ok 0 s /\
   create_fiber_param entry_fn param completion_fn s = Ok 0 s) /\
  (entry_fn <> 0 -> completion_fn <> 0 ->
   fiberPool s = 0 ->
   (hd_def (allocs s) = 0 \/ hd_def (tail (allocs s)) = 0) ->
   (hd_def (allocs s) <> 0 -> heap s !! hd_def (allocs s) = None) ->
   exists s',
     create_fiber entry_fn completion_fn s = Ok 0 s' /\
     create_fiber_param entry_fn param completion_fn s = Ok 0 s' /\
     heap s' = heap s /\ forall q, queue_head q s' = queue_head q s) /\
  (entry_fn <> 0 -> completion_fn <> 0 ->
   forall L, queues_ok s L ->
   (L FiberPool = [] ->
    hd_def (allocs s) <> 0 /\ hd_def (tail (allocs s)) <> 0 /\
    heap s !! hd_def (allocs s) = None) ->
   (forall p l pr, L FiberPool = p :: l -> heap s !! p = Some pr -> stack_bottom pr <> 0) ->
   let f := if decide (L FiberPool = []) then hd_def (allocs s) else fiberPool s in
   let L' := upd (upd L FiberPool (tail (L FiberPool))) RunQueue (f :: L RunQueue) in
   let left_over :=
     if decide (L FiberPool = []) then tail (tail (allocs s)) else allocs s in
   f <> 0 /\
   (is_Some (emptyContext s) ->
    exists s1 s2,
      create_fiber entry_fn completion_fn s = Ok f s1 /\
      runQueue s1 = f /\ queues_ok s1 L' /\
      create_fiber_param entry_fn param completion_fn s = Ok f s2 /\
      runQueue s2 = f /\ queues_ok s2 L') /\
   (emptyContext s = None -> hd_def left_over <> 0 ->
    exists s1,
      create_fiber entry_fn completion_fn s = Ok f s1 /\
      runQueue s1 = f /\ queues_ok s1 L' /\ is_Some (emptyContext s1))).
Proof.
  split; [|split].
  - intros Hnull. unfold create_fiber, create_fiber_param.
    by rewrite !decide_True.
  - intros He Hc Hpool Hoom Hfresh.
    destruct (getFiberContext_out_of_memory s Hpool Hoom Hfresh)
      as (s1 & Hg & Hheap & Hp1 & Hfr).
    exists s1. unfold create_fiber, create_fiber_param.
    rewrite !decide_False by tauto. rewrite !(bind_Ok _ _ _ _ _ Hg).
    rewrite !decide_True by done. do 3 (split; [done|]).
    intros q. destruct q; simpl; [by rewrite Hfr..|congruence].
  - intros He Hc L Hok Halloc Hstk f L' left_over.
    destruct (getFiberContext_record s L Hok Halloc)
      as (f0 & s1 & fr & Hg & Hf0 & Hf & Hl & Hq & _ & Hok1 & _ & _ & Hal & Hfr).
    fold f in Hf. subst f0. split; [done|].
    assert (stack_bottom fr <> 0) as Hsb.
    { apply (getFiberContext_stack s L f s1 fr Hok Hg Hf0 Hl); [|exact Hstk].
      intros HL. by destruct (Halloc HL) as (? & ? & _). }
    assert (upd (upd L FiberPool (tail (L FiberPool))) RunQueue
              (f :: upd L FiberPool (tail (L FiberPool)) RunQueue) = L') as HL'.
    { unfold L'. by rewrite upd_ne. }
    assert (emptyContext s1 = emptyContext s) as Hec by (by rewrite Hfr).
    split.
    + intros [t Ht]. rewrite <- Hec in Ht.
      destruct (create_fiber_cached s s1 _ f fr t entry_fn completion_fn
                  He Hc Hg Hf0 Hl Hq Hsb Hok1 Ht) as (s' & H1 & H2 & H3).
      destruct (create_fiber_param_cached s s1 _ f fr t entry_fn param completion_fn
                  He Hc Hg Hf0 Hl Hq Hsb Hok1 Ht) as (s'' & H4 & H5 & H6).
      rewrite HL' in H3, H6. exists s', s''. done.
    + intros Hnone Hcache. rewrite <- Hec in Hnone.
      fold left_over in Hal. rewrite <- Hal in Hcache.
      destruct (create_fiber_first s s1 _ f fr entry_fn completion_fn
                  He Hc Hg Hf0 Hl Hq Hsb Hok1 Hnone Hcache) as (s' & H1 & H2 & H3 & H4).
      rewrite HL' in H3. exists s'. rewrite H4. eauto.
Qed.

(** The first creation when the cached context cannot be allocated: line
    476 does not check [malloc], and line 477 copies into the null
    pointer. *)
Lemma create_fiber_no_cache s L entry_fn completion_fn :
  entry_fn <> 0 -> completion_fn <> 0 ->
  queues_ok s L ->
  (L FiberPool = [] ->
   hd_def (allocs s) <> 0 /\ hd_def (tail (allocs s)) <> 0 /\
   heap s !! hd_def (allocs s) = None) ->
  (forall p l pr, L FiberPool = p :: l -> heap s !! p = Some pr -> stack_bottom pr <> 0) ->
  emptyContext s = None ->
  hd_def (if decide (L FiberPool = []) then tail (tail (allocs s)) else allocs s) = 0 ->
  create_fiber entry_fn completion_fn s = Fault.
Proof.
  intros He Hc Hok Halloc Hstk Hnone Hcache.
  destruct (getFiberContext_record s L Hok Halloc)
    as (f & s1 & fr & Hg & Hf0 & _ & Hl & Hq & _ & Hok1 & _ & _ & Hal & Hfr).
  assert (stack_bottom fr <> 0) as Hsb.
  { apply (getFiberContext_stack s L f s1 fr Hok Hg Hf0 Hl); [|exact Hstk].
    intros HL. by destruct (Halloc HL) as (? & ? & _). }
  assert (emptyContext s1 = None) as Hec by (by rewrite Hfr).
  rewrite <- Hal in Hcache.
  unfold create_fiber. rewrite decide_False by tauto.
  erewrite bind_Ok by exact Hg. rewrite decide_False by done.
  msteps. rewrite Hec. msteps.
  by rewrite decide_True.
Qed.

(** A creation that takes from the pool a record whose stack is null: lines
    457 and 526 write through [stack_bottom]. *)
Lemma create_fiber_null_stack s L p l pr entry_fn param completion_fn :
  entry_fn <> 0 -> completion_fn <> 0 ->
  queues_ok s L -> L FiberPool = p :: l ->
  heap s !! p = Some pr -> stack_bottom pr = 0 ->
  create_fiber entry_fn completion_fn s = Fault /\
  create_fiber_param entry_fn param completion_fn s = Fault.
Proof.
  intros He Hc Hok HL Hl Hsb.
  destruct (getFiberContext_pool s L p l Hok HL)
    as (pr' & Hl' & Hp0 & _ & Hg & _ & Hl1 & _).
  assert (pr' = pr) as -> by congruence.
  unfold create_fiber, create_fiber_param. rewrite !decide_False by tauto.
  rewrite !(bind_Ok _ _ _ _ _ Hg). rewrite !decide_False by done.
  split.
  - rewrite bind_assoc. mstep. unfold poke at 1. simpl. by rewrite Hsb.
  - rewrite bind_assoc. mstep. unfold poke at 1. simpl. by rewrite Hsb.
Qed.

End CreateClaim.

(** ** What a call to the scheduler leaves alone *)

Lemma same_queues_refl s : same_queues s s.
Proof. done. Qed.

Lemma same_queues_trans s1 s2 s3 :
  same_queues s1 s2 -> same_queues s2 s3 -> same_queues s1 s3.
Proof.
  intros (H1 & H2 & H3 & H4) (H1' & H2' & H3' & H4'). split; [|split; [|split]].
  - intros g. by rewrite H1', H1.
  - intros q. by rewrite H2', H2.
  - congruence.
  - congruence.
Qed.

Lemma same_queues_same_links s s' : same_queues s s' -> same_links (heap s) (heap s').
Proof.
  intros (Hv & _) g. specialize (Hv g).
  destruct (heap s' !! g) as [a|], (heap s !! g) as [b|]; simpl in *; try done.
  unfold wake_view in Hv. unfold linkage. by injection Hv as -> -> -> _.
Qed.

Lemma same_queues_ok s s' L : same_queues s s' -> queues_ok s L -> queues_ok s' L.
Proof.
  intros Hs. apply queues_ok_same_links; [by apply same_queues_same_links|].
  apply Hs.
Qed.

Lemma same_queues_lookup s s' g fr :
  same_queues s s' -> heap s !! g = Some fr ->
  exists fr', heap s' !! g = Some fr' /\ wake_view fr' = wake_view fr.
Proof.
  intros (Hv & _) Hl. specialize (Hv g). rewrite Hl in Hv.
  destruct (heap s' !! g) as [fr'|]; simpl in Hv; [|done].
  exists fr'. split; [done|congruence].
Qed.

Lemma switch_frame_same_queues s s' : switch_frame s s' -> same_queues s s'.
Proof.
  intros [Hv E]. split; [|split; [|split]].
  - intros g. specialize (Hv g).
    destruct (heap s' !! g) as [a|], (heap s !! g) as [b|]; simpl in *; try done.
    unfold sched_view in Hv. unfold wake_view. by injection Hv as -> -> -> -> _.
  - intros q. rewrite E. by destruct q.
  - by rewrite E.
  - by rewrite E.
Qed.

Lemma keeps_ret {A} R (a : A) : (forall s, R s s) -> keeps R (ret a).
Proof. intros Hr s a' s' [= _ <-]. apply Hr. Qed.

Lemma keeps_bind {A B} R (m : M A) (k : A -> M B) :
  (forall s1 s2 s3, R s1 s2 -> R s2 s3 -> R s1 s3) ->
  keeps R m -> (forall a, keeps R (k a)) -> keeps R (bind m k).
Proof.
  intros Ht Hm Hk s b s'. unfold bind. destruct (m s) as [a s1| | |] eqn:E; try done.
  intros Hks. eapply Ht; [by eapply Hm | by eapply Hk].
Qed.

Lemma keeps_gets {A} R (proj : state -> A) : (forall s, R s s) -> keeps R (gets proj).
Proof. intros Hr s a' s' [= _ <-]. apply Hr. Qed.

Lemma keeps_load R p : (forall s, R s s) -> keeps R (load p).
Proof.
  intros Hr s a s'. unfold load. case_decide; [done|].
  destruct (heap s !! p); [|done]. intros [= _ <-]. apply Hr.
Qed.

Lemma keeps_modify R upd : (forall s, R s (upd s)) -> keeps R (modify upd).
Proof. intros Hr s a' s' H. inversion H; subst. apply Hr. Qed.

Lemma keeps_store_same_queues p upd :
  (forall fr, wake_view (upd fr) = wake_view fr) -> keeps same_queues (store p upd).
Proof.
  intros Hu s a s'. unfold store, bind, load. case_decide; [done|].
  destruct (heap s !! p) as [fr|] eqn:Hl; [|done]. intros Heq. inversion Heq; subst.
  split; [|split; [|done]].
  - intros g. simpl. destruct (decide (p = g)) as [->|Hne].
    + rewrite lookup_insert_eq, Hl. simpl. by rewrite Hu.
    + by rewrite lookup_insert_ne.
  - intros q. by destruct q.
Qed.

Lemma keeps_if {A} R (b : bool) (m1 m2 : M A) :
  keeps R m1 -> keeps R m2 -> keeps R (if b then m1 else m2).
Proof. by destruct b. Qed.

Lemma keeps_if_dec {A} R P `{Decision P} (m1 m2 : M A) :
  keeps R m1 -> keeps R m2 -> keeps R (if decide P then m1 else m2).
Proof. by case_decide. Qed.

Section KeepsProperties.
Context `{hw : Platform}.

Lemma verify_stack_size_keeps f : keeps same_queues (verify_stack_size f).
Proof.
  intros s [] s' Hv. by apply switch_frame_same_queues, (verify_stack_size_frame f).
Qed.

Ltac keeps_step :=
  lazymatch goal with
  | |- keeps _ (store _ _) => apply keeps_store_same_queues; intros ?; reflexivity
  | |- keeps _ (verify_stack_size _) => apply verify_stack_size_keeps
  | |- keeps _ (load _) => apply keeps_load; exact same_queues_refl
  | |- keeps _ (gets _) => apply keeps_gets; exact same_queues_refl
  | |- keeps _ (ret _) => apply keeps_ret; exact same_queues_refl
  | |- keeps _ (modify _) =>
      apply keeps_modify; intros ?; split; [done|split; [intros q; by destruct q|done]]
  | |- keeps _ (bind _ _) => apply keeps_bind; [exact same_queues_trans| |intros ?]
  | |- keeps _ (if decide _ then _ else _) => apply keeps_if_dec
  | |- keeps _ (if _ then _ else _) => apply keeps_if
  end.

(** [schedule] moves no record between queues and changes no context
    word, whichever way it leaves. *)
Lemma schedule_keeps : keeps same_queues schedule.
Proof.
  unfold schedule, schedule_after_save, schedule_pick, schedule_switch,
    save_context, restore_register_context, swap_context.
  repeat keeps_step.
Qed.

End KeepsProperties.

(** ** Blocking *)

(** The three statements that park the record [b] on the queue [Q] with
    the wake condition [v]. *)
Lemma block_on s L b br v Q :
  queues_ok s L -> b <> 0 -> heap s !! b = Some br ->
  (forall q, queue br = Some q -> b ∈ L q) ->
  exists s1 br1,
    (store b (set_context v) ;; dequeue_fiber b ;; queue_fiber b Q) s = Ok tt s1 /\
    queues_ok s1 (upd (fun q => without b (L q)) Q (b :: without b (L Q))) /\
    queue_head Q s1 = b /\
    heap s1 !! b = Some br1 /\ queue br1 = Some Q /\
    strip br1 = strip (set_context v br) /\
    (forall g, g <> b -> strip <$> (heap s1 !! g) = strip <$> (heap s !! g)) /\
    frame_queues s s1.
Proof.
  intros Hok Hb Hl Hon.
  set (s0 := set_heap (<[b := set_context v br]> (heap s)) s).
  assert (queues_ok s0 L) as Hok0.
  { eapply queues_ok_same_links; [| |exact Hok].
    - unfold s0. simpl. by eapply same_links_insert.
    - intros q. by destruct q. }
  assert (heap s0 !! b = Some (set_context v br)) as Hl0 by apply lookup_insert_eq.
  destruct (move_fiber s0 L b (set_context v br) Q Hok0 Hb Hl0 Hon)
    as (s1 & br1 & Hmv & Hok1 & Hl1 & Hq1 & Hs1 & Hlo & Hfr).
  exists s1, br1. split; [|split; [done|split; [|split; [done|split; [done|split; [done|split]]]]]].
  - mstep. fold s0. exact Hmv.
  - destruct (Hok1 Q) as [Hd _]. rewrite upd_eq in Hd. by destruct Hd as (-> & _).
  - intros g Hg. rewrite (Hlo g). unfold s0. simpl. by rewrite lookup_insert_ne.
  - eapply frame_queues_trans; [|exact Hfr]. unfold frame_queues, s0. by destruct s.
Qed.

Section BlockingProperties.
Context `{hw : Platform}.

Lemma blocking_fiber_normal s cr :
  currentFiber s <> 0 -> heap s !! currentFiber s = Some cr ->
  flag_set (flags cr) MICROBIT_FIBER_FLAG_FOB = false ->
  blocking_fiber s = Ok (currentFiber s) s.
Proof.
  intros Hc Hl Hfob. unfold blocking_fiber. do 2 mstep. by rewrite Hfob.
Qed.

Lemma blocking_fiber_fob s cr ff s1 :
  currentFiber s <> 0 -> heap s !! currentFiber s = Some cr ->
  flag_set (flags cr) MICROBIT_FIBER_FLAG_FOB = true ->
  getFiberContext s = Ok ff s1 ->
  blocking_fiber s =
    Ok (if decide (ff = 0) then currentFiber s else ff) (set_forkedFiber ff s1).
Proof.
  intros Hc Hl Hfob Hg. unfold blocking_fiber. do 2 mstep. rewrite Hfob.
  rewrite bind_assoc. erewrite bind_Ok by exact Hg. do 2 mstep. simpl.
  by case_decide.
Qed.

Lemma fiber_sleep_unfold t s f s0 :
  blocking_fiber s = Ok f s0 ->
  fiber_sleep t s =
    ((store f (set_context (wrap32 (ticks s0 + t))) ;;
      dequeue_fiber f ;; queue_fiber f SleepQueue) ;;
     schedule) s0.
Proof.
  intros Hb. unfold fiber_sleep. erewrite bind_Ok by exact Hb.
  rewrite !bind_assoc. rewrite bind_gets. unfold bind. 
  destruct (store f _ s0); try done. destruct (dequeue_fiber f s1); done.
Qed.

Lemma fiber_wait_for_event_unfold id val s f s0 :
  blocking_fiber s = Ok f s0 ->
  fiber_wait_for_event id val s =
    ((store f (set_context (wrap32 (Z.lor (Z.shiftl val 16) id))) ;;
      dequeue_fiber f ;; queue_fiber f WaitQueue) ;;
     schedule) s0.
Proof.
  intros Hb. unfold fiber_wait_for_event. erewrite bind_Ok by exact Hb.
  rewrite !bind_assoc. unfold bind.
  destruct (store f _ s0); try done. destruct (dequeue_fiber f s1); done.
Qed.

End BlockingProperties.

Section SleepProperties.
Context `{hw : Platform}.

(** What [schedule] leaves of a parked record. *)
Lemma schedule_keeps_parked s1 L1 b br1 Q k s2 :
  queues_ok s1 L1 -> heap s1 !! b = Some br1 -> queue_head Q s1 = b ->
  schedule s1 = Ok k s2 ->
  queues_ok s2 L1 /\ queue_head Q s2 = b /\ ticks s2 = ticks s1 /\
  exists br2, heap s2 !! b = Some br2 /\ context br2 = context br1 /\
              queue br2 = queue br1.
Proof.
  intros Hok Hl Hhd Hs. pose proof (schedule_keeps _ _ _ Hs) as Hk.
  split; [by eapply same_queues_ok|].
  destruct (same_queues_lookup _ _ _ _ Hk Hl) as (br2 & Hl2 & Hv).
  destruct Hk as (_ & Hh & _ & Ht).
  split; [by rewrite Hh|]. split; [done|].
  exists br2. split; [done|]. unfold wake_view in Hv. by injection Hv as -> _ _ ->.
Qed.

Lemma fiber_sleep_forked s L cr t :
  queues_ok s L ->
  currentFiber s <> 0 -> heap s !! currentFiber s = Some cr ->
  flag_set (flags cr) MICROBIT_FIBER_FLAG_FOB = true ->
  (L FiberPool = [] ->
   hd_def (allocs s) <> 0 /\ hd_def (tail (allocs s)) <> 0 /\
   heap s !! hd_def (allocs s) = None) ->
  let f := if decide (L FiberPool = []) then hd_def (allocs s) else fiberPool s in
  let L1 := upd (upd L FiberPool (tail (L FiberPool))) SleepQueue (f :: L SleepQueue) in
  exists s1 fr1,
    fiber_sleep t s = schedule s1 /\ f <> 0 /\ forkedFiber s1 = f /\
    heap s1 !! f = Some fr1 /\ context fr1 = wrap32 (ticks s + t) /\
    queue fr1 = Some SleepQueue /\ sleepQueue s1 = f /\ queues_ok s1 L1 /\
    forall k s2, schedule s1 = Ok k s2 ->
      queues_ok s2 L1 /\ sleepQueue s2 = f /\ ticks s2 = ticks s /\
      exists fr2, heap s2 !! f = Some fr2 /\ context fr2 = wrap32 (ticks s + t) /\
                  queue fr2 = Some SleepQueue.
Proof.
  intros Hok Hc Hl Hfob Halloc f L1.
  destruct (getFiberContext_record s L Hok Halloc)
    as (f0 & s0 & fr & Hg & Hf0 & Hf & Hl0 & Hq0 & _ & Hok0 & _ & _ & _ & Hpf).
  fold f in Hf. subst f0.
  pose proof (blocking_fiber_fob s cr f s0 Hc Hl Hfob Hg) as Hb.
  rewrite decide_False in Hb by done.
  set (s0' := set_forkedFiber f s0) in *.
  assert (queues_ok s0' (upd L FiberPool (tail (L FiberPool)))) as Hok0'.
  { eapply queues_ok_same_links; [apply same_links_refl| |exact Hok0].
    intros q. by destruct q. }
  assert (ticks s0' = ticks s) as Ht0 by (unfold s0'; by rewrite Hpf).
  destruct (block_on s0' _ f fr (wrap32 (ticks s + t)) SleepQueue Hok0' Hf0 Hl0)
    as (s1 & fr1 & Hblk & Hok1 & Hhd & Hl1 & Hq1 & Hs1 & _ & Hfr).
  { intros q. by rewrite Hq0. }
  apply strip_fields in Hs1 as (Hctx & _). simpl in Hctx.
  assert (queues_ok s1 L1) as Hok1'.
  { eapply queues_ok_ext; [|exact Hok1]. intros q.
    assert (forall q', without f (upd L FiberPool (tail (L FiberPool)) q') =
                       upd L FiberPool (tail (L FiberPool)) q') as Hw.
    { intros q'. apply without_notin. eapply off_queue_not_elem; eauto. }
    unfold L1. destruct (decide (q = SleepQueue)) as [->|Hne].
    - rewrite !upd_eq. rewrite Hw. by rewrite upd_ne.
    - rewrite !(upd_ne _ SleepQueue q) by done. apply Hw. }
  exists s1, fr1. split.
  { rewrite (fiber_sleep_unfold t s f s0') by done. rewrite Ht0.
    by erewrite bind_Ok by exact Hblk. }
  split; [done|]. split; [by rewrite Hfr|].
  do 5 (split; [done|]).
  intros k s2 Hs.
  destruct (schedule_keeps_parked s1 L1 f fr1 SleepQueue k s2 Hok1' Hl1 Hhd Hs)
    as (Hok2 & Hhd2 & Ht & br2 & Hl2 & Hc2 & Hq2).
  split; [done|]. split; [done|].
  split; [by rewrite Ht, (frame_queues_ticks _ _ Hfr)|].
  exists br2. split; [done|]. split; congruence.
Qed.

Lemma scheduler_tick_ok s L fuel :
  queues_ok s L -> (length (L SleepQueue) <= fuel)%nat ->
  let now := wrap32 (ticks s + FIBER_TICK_PERIOD_MS) in
  exists s',
    scheduler_tick fuel s = Ok tt s' /\
    ticks s' = now /\
    queues_ok s'
      (upd (upd L SleepQueue
              (List.filter (fun g => negb (expired (heap s) now g)) (L SleepQueue)))
         RunQueue
         (rev (List.filter (expired (heap s) now) (L SleepQueue)) ++ L RunQueue)) /\
    links_only (heap s) (heap s').
Proof.
  intros Hok Hfuel now.
  set (s0 := set_ticks now s).
  assert (queues_ok s0 L) as Hok0.
  { eapply queues_ok_same_links; [apply same_links_refl| |exact Hok].
    intros q. by destruct q. }
  destruct (scheduler_tick_walk_ok (expired (heap s) now) (L SleepQueue) [] fuel s0 L
              Hok0 eq_refl Hfuel) as (s' & Hw & Hok' & Hlo & Hfr).
  { intros g fr Hg. unfold expired. simpl in Hg. by rewrite Hg. }
  exists s'. split; [|split; [|split; [done|done]]].
  - unfold scheduler_tick. do 2 mstep. fold now. fold s0.
    destruct (Hok SleepQueue) as [Hd _]. simpl in Hd.
    by rewrite (dll_head _ _ _ _ _ Hd).
  - by rewrite (frame_queues_ticks _ _ Hfr).
Qed.

End SleepProperties.

Lemma one_fiber_ok fl sp al : queues_ok (one_fiber fl sp al) one_fiber_queues.
Proof.
  intros q. destruct q; simpl; (split; [|repeat constructor; set_solver]); try done.
  split; [done|]. split; [done|]. eexists. split; [reflexivity|]. done.
Qed.

Section TickProperties.
Context `{hw : Platform}.

Lemma expired_spec h now g fr :
  h !! g = Some fr -> expired h now g = (now >=? context fr).
Proof. intros Hl. unfold expired. by rewrite Hl. Qed.

(** [n] ticks on a sleeper [b] with deadline [context br], as long as the
    tick counter does not wrap around. *)
Lemma timer_ticks_ok fuel b : forall n s L br,
  queues_ok s L -> (length (L SleepQueue) <= fuel)%nat ->
  heap s !! b = Some br ->
  0 <= FIBER_TICK_PERIOD_MS -> 0 <= ticks s ->
  ticks s + Z.of_nat n * FIBER_TICK_PERIOD_MS < 2 ^ 32 ->
  exists s' L',
    timer_ticks n fuel s = Ok tt s' /\ queues_ok s' L' /\
    ticks s' = ticks s + Z.of_nat n * FIBER_TICK_PERIOD_MS /\
    (b ∈ L RunQueue -> b ∈ L' RunQueue) /\
    (b ∈ L SleepQueue ->
     if (0 <? Z.of_nat n) &&
        (context br <=? ticks s + Z.of_nat n * FIBER_TICK_PERIOD_MS)
     then b ∈ L' RunQueue else b ∈ L' SleepQueue).
Proof.
  induction n as [|n IH]; intros s L br Hok Hfuel Hl HP Ht Hno.
  - exists s, L. simpl. split; [done|]. split; [done|]. split; [lia|]. done.
  - destruct (scheduler_tick_ok s L fuel Hok Hfuel) as (s1 & Htick & Ht1 & Hok1 & Hlo).
    set (now := wrap32 (ticks s + FIBER_TICK_PERIOD_MS)) in *.
    assert (now = ticks s + FIBER_TICK_PERIOD_MS) as Hnow.
    { unfold now. apply wrap32_small. lia. }
    set (L1 := upd (upd L SleepQueue _) RunQueue _) in Hok1.
    destruct (links_only_lookup_rev _ _ _ _ Hlo Hl) as (br1 & Hl1 & Hs1).
    apply strip_fields in Hs1 as (Hc1 & _).
    destruct (IH s1 L1 br1 Hok1) as (s' & L' & Hrun & Hok' & Ht' & Hr' & Hs').
    { unfold L1. rewrite upd_ne, upd_eq by done.
      etransitivity; [apply List.filter_length_le|done]. }
    { exact Hl1. }
    { done. }
    { lia. }
    { lia. }
    exists s', L'. split.
    { simpl timer_ticks. by erewrite bind_Ok by exact Htick. }
    split; [done|]. split; [lia|].
    assert (b ∈ L RunQueue -> b ∈ L1 RunQueue) as Hr1.
    { intros Hin. unfold L1. rewrite upd_eq. apply elem_of_app. by right. }
    split; [by auto|].
    intros Hin. replace (0 <? Z.of_nat (S n)) with true by (symmetry; apply Z.ltb_lt; lia).
    simpl andb. rewrite Hc1 in Hs'.
    destruct (Z.leb_spec (context br) now) as [Hexp|Hnot].
    + (* woken by this tick *)
      assert (b ∈ L1 RunQueue) as Hin1.
      { unfold L1. rewrite upd_eq. apply elem_of_app. left.
        apply list_elem_of_In. apply -> List.in_rev. apply List.filter_In.
        split; [by apply list_elem_of_In|].
        rewrite (expired_spec _ _ _ _ Hl). apply Z.geb_le. lia. }
      destruct (Z.leb_spec (context br)
                  (ticks s + Z.of_nat (S n) * FIBER_TICK_PERIOD_MS)); [by auto|lia].
    + (* still asleep after this tick *)
      assert (b ∈ L1 SleepQueue) as Hin1.
      { unfold L1. rewrite upd_ne, upd_eq by done.
        apply list_elem_of_In, List.filter_In. split; [by apply list_elem_of_In|].
        rewrite (expired_spec _ _ _ _ Hl).
        destruct (Z.geb_spec now (context br)); [lia|done]. }
      specialize (Hs' Hin1). rewrite Ht1 in Hs'.
      replace (now + Z.of_nat n * FIBER_TICK_PERIOD_MS)
        with (ticks s + Z.of_nat (S n) * FIBER_TICK_PERIOD_MS) in Hs' by lia.
      destruct (Z.ltb_spec 0 (Z.of_nat n)) as [Hpos|Hzero]; [exact Hs'|].
      simpl in Hs'. assert (n = 0%nat) as -> by lia.
      destruct (Z.leb_spec (context br)
                  (ticks s + Z.of_nat 1 * FIBER_TICK_PERIOD_MS)); [lia|done].
Qed.

End TickProperties.

(** ** Flag arithmetic *)

Lemma flag_clear_self m x : flag_set (flag_clear m x) m = false.
Proof.
  unfold flag_set, flag_clear.
  rewrite <- Z.land_assoc, (Z.land_comm (Z.lnot m)), Z.land_lnot_diag, Z.land_0_r.
  reflexivity.
Qed.

Lemma flag_clear_keeps_clear m p x :
  flag_set x p = false -> flag_set (flag_clear m x) p = false.
Proof.
  unfold flag_set, flag_clear. intros H. apply negb_false_iff, Z.eqb_eq in H.
  rewrite <- Z.land_assoc, (Z.land_comm (Z.lnot m)), Z.land_assoc, H, Z.land_0_l.
  reflexivity.
Qed.

Lemma flag_or_self m x : m <> 0 -> flag_set (flag_or m x) m = true.
Proof.
  intros Hm. unfold flag_set, flag_or.
  replace (Z.land (Z.lor x m) m) with m.
  - apply negb_true_iff, Z.eqb_neq. done.
  - apply Z.bits_inj'. intros i Hi. rewrite Z.land_spec, Z.lor_spec.
    by destruct (Z.testbit x i), (Z.testbit m i).
Qed.

Lemma flag_clear_disjoint m c x :
  Z.land c m = 0 -> flag_set (flag_clear m x) c = flag_set x c.
Proof.
  intros Hd. unfold flag_set, flag_clear. f_equal. f_equal.
  apply Z.bits_inj'. intros i Hi. rewrite !Z.land_spec, Z.lnot_spec by done.
  assert (Z.testbit (Z.land c m) i = false) as Hb by (rewrite Hd; apply Z.bits_0).
  rewrite Z.land_spec in Hb.
  by destruct (Z.testbit x i), (Z.testbit m i), (Z.testbit c i).
Qed.

(** ** Flags that only gain bits *)

Lemma flags_grow_refl s : flags_grow s s.
Proof. intros g fr Hl. exists fr, 0. by rewrite Z.lor_0_r. Qed.

Lemma flags_grow_trans s1 s2 s3 :
  flags_grow s1 s2 -> flags_grow s2 s3 -> flags_grow s1 s3.
Proof.
  intros H1 H2 g fr Hl. destruct (H1 g fr Hl) as (fr2 & m2 & Hl2 & E2).
  destruct (H2 g fr2 Hl2) as (fr3 & m3 & Hl3 & E3).
  exists fr3, (Z.lor m2 m3). split; [done|]. by rewrite E3, E2, Z.lor_assoc.
Qed.

Lemma keeps_store_flags_grow p upd :
  (forall fr, exists m, flags (upd fr) = Z.lor (flags fr) m) ->
  keeps flags_grow (store p upd).
Proof.
  intros Hu s a s'. unfold store, bind, load. case_decide; [done|].
  destruct (heap s !! p) as [fr|] eqn:Hl; [|done]. intros Heq. inversion Heq; subst.
  intros g fr0 Hg. simpl. destruct (decide (p = g)) as [->|Hne].
  - rewrite lookup_insert_eq. destruct (Hu fr) as [m Hm].
    exists (upd fr), m. split; [done|]. congruence.
  - rewrite lookup_insert_ne by done. exists fr0, 0. by rewrite Z.lor_0_r.
Qed.

Lemma flag_set_lor x m0 m : flag_set x m = true -> flag_set (Z.lor x m0) m = true.
Proof.
  unfold flag_set. intros H. apply negb_true_iff, Z.eqb_neq in H.
  apply negb_true_iff, Z.eqb_neq. rewrite Z.land_lor_distr_l.
  intros E. apply Z.lor_eq_0_iff in E. tauto.
Qed.

Section FlagsGrow.
Context `{hw : Platform}.

Lemma verify_stack_size_flags_grow f : keeps flags_grow (verify_stack_size f).
Proof.
  intros s [] s' Hv g fr Hl.
  destruct (switch_frame_lookup _ _ _ _ (verify_stack_size_frame f s s' Hv) Hl)
    as (fr' & Hl' & E).
  exists fr', 0. split; [done|]. unfold sched_view in E.
  injection E as _ _ _ _ ->. by rewrite Z.lor_0_r.
Qed.

Ltac grow_step :=
  lazymatch goal with
  | |- keeps _ (store _ (fun r => set_flags (flag_or ?m (flags r)) r)) =>
      apply keeps_store_flags_grow; intros ?; by exists m
  | |- keeps _ (store _ _) =>
      apply keeps_store_flags_grow; intros ?; exists 0; by rewrite Z.lor_0_r
  | |- keeps _ (verify_stack_size _) => apply verify_stack_size_flags_grow
  | |- keeps _ (load _) => apply keeps_load; exact flags_grow_refl
  | |- keeps _ (gets _) => apply keeps_gets; exact flags_grow_refl
  | |- keeps _ (ret _) => apply keeps_ret; exact flags_grow_refl
  | |- keeps _ (modify _) =>
      apply keeps_modify; intros ? g fr Hl; exists fr, 0; by rewrite Z.lor_0_r
  | |- keeps _ (bind _ _) => apply keeps_bind; [exact flags_grow_trans| |intros ?]
  | |- keeps _ (if decide _ then _ else _) => apply keeps_if_dec
  | |- keeps _ (if _ then _ else _) => apply keeps_if
  end.

(** [schedule] clears no flag of any record, in or out of fork-on-block
    context. *)
Lemma schedule_flags_grow : keeps flags_grow schedule.
Proof.
  unfold schedule, schedule_after_save, schedule_pick, schedule_switch,
    save_context, restore_register_context, swap_context.
  repeat grow_step.
Qed.

End FlagsGrow.

Section ReleaseProperties.
Context `{hw : Platform}.

(** Outside fork-on-block context [schedule] leaves every flags word as it
    is. *)
Lemma schedule_normal_frame s cr k s' :
  currentFiber s <> 0 -> heap s !! currentFiber s = Some cr ->
  flag_set (flags cr) MICROBIT_FIBER_FLAG_FOB = false ->
  schedule s = Ok k s' ->
  switch_frame (set_currentFiber (selection_rule s cr) s) s'.
Proof.
  intros Hc Hl Hfob. rewrite (schedule_normal s cr Hc Hl Hfob).
  erewrite bind_Ok by (by apply schedule_pick_Ok). apply schedule_switch_frame.
Qed.

Lemma release_fiber_moves s L cr :
  queues_ok s L ->
  currentFiber s <> 0 -> heap s !! currentFiber s = Some cr ->
  (forall q, queue cr = Some q -> currentFiber s ∈ L q) ->
  let c := currentFiber s in
  let L1 := upd (fun q => without c (L q)) FiberPool (c :: without c (L FiberPool)) in
  exists s1 cr1,
    release_fiber s = schedule s1 /\
    currentFiber s1 = c /\ fiberPool s1 = c /\ queues_ok s1 L1 /\
    heap s1 !! c = Some cr1 /\ queue cr1 = Some FiberPool /\
    flags cr1 = flags cr /\
    (forall g fr1, heap s1 !! g = Some fr1 ->
       exists fr, heap s !! g = Some fr /\ flags fr1 = flags fr) /\
    (forall k s2, schedule s1 = Ok k s2 ->
       fiberPool s2 = c /\ queues_ok s2 L1 /\
       exists cr2, heap s2 !! c = Some cr2 /\ queue cr2 = Some FiberPool /\
         (forall m, flag_set (flags cr) m = true -> flag_set (flags cr2) m = true) /\
         (flag_set (flags cr) MICROBIT_FIBER_FLAG_FOB = false ->
          flags cr2 = flags cr)).
Proof.
  intros Hok Hc Hl Hon c L1.
  destruct (move_fiber s L c cr FiberPool Hok Hc Hl Hon)
    as (s1 & cr1 & Hmv & Hok1 & Hl1 & Hq1 & Hs1 & Hlo & Hfr).
  assert (currentFiber s1 = c) as Hc1 by (by rewrite Hfr).
  assert (fiberPool s1 = c) as Hp1.
  { destruct (Hok1 FiberPool) as [Hd _]. unfold L1 in Hd. rewrite upd_eq in Hd.
    destruct Hd as (Hh & _). exact Hh. }
  apply strip_fields in Hs1 as (_ & Hfl & _).
  exists s1, cr1. split.
  { destruct (dequeue_fiber_any s L c cr Hok Hc Hl Hon)
      as (s0 & _ & Hd & _ & _ & _ & _ & _ & Hf0).
    assert (queue_fiber c FiberPool s0 = Ok tt s1) as Hq.
    { unfold bind in Hmv. by rewrite Hd in Hmv. }
    assert (currentFiber s0 = c) as Hc0 by (by rewrite Hf0).
    unfold release_fiber. rewrite bind_assoc, bind_gets. fold c.
    erewrite bind_Ok by exact Hd. rewrite bind_assoc, bind_gets, Hc0.
    by erewrite bind_Ok by exact Hq. }
  do 6 (split; [done|]). split.
  { intros g fr1 Hg. destruct (links_only_lookup _ _ _ _ Hlo Hg) as (fr & Hg0 & Hs).
    apply strip_fields in Hs as (_ & Hf & _). eauto. }
  intros k s2 Hs.
  pose proof (schedule_keeps s1 k s2 Hs) as Hsq.
  destruct (same_queues_lookup _ _ _ _ Hsq Hl1) as (cr2 & Hl2 & Hv).
  split; [change (queue_head FiberPool s2 = c); destruct Hsq as (_ & Hh & _); by rewrite Hh|].
  split; [by eapply same_queues_ok|].
  exists cr2. split; [done|]. split.
  { unfold wake_view in Hv. injection Hv as -> _ _ _. done. }
  split.
  - intros m Hm. destruct (schedule_flags_grow s1 k s2 Hs c cr1 Hl1) as (cr2' & m0 & Hl2' & E).
    assert (cr2' = cr2) as -> by congruence.
    rewrite E, Hfl. by apply flag_set_lor.
  - intros Hfob. rewrite <- Hfl in Hfob.
    assert (currentFiber s1 <> 0) as Hnz by (rewrite Hc1; exact Hc).
    assert (heap s1 !! currentFiber s1 = Some cr1) as Hlc by (by rewrite Hc1).
    pose proof (schedule_normal_frame s1 cr1 k s2 Hnz Hlc Hfob Hs) as Hsf.
    assert (heap (set_currentFiber (selection_rule s1 cr1) s1) !! c = Some cr1) as Hl1' by done.
    destruct (switch_frame_lookup _ _ _ _ Hsf Hl1') as (cr2' & Hl2' & Hv').
    assert (cr2' = cr2) as -> by congruence.
    unfold sched_view in Hv'. injection Hv' as _ _ _ _ ->. done.
Qed.

End ReleaseProperties.

Section ReleaseClaim.
Context `{hw : Platform}.


End ReleaseClaim.


(** ** Fork on block *)

Section ForkProperties.
Context `{hw : Platform}.

Lemma verify_stack_size_total f s fr :
  f <> 0 -> heap s !! f = Some fr ->
  is_Some (grow_buffer 32 (wrap32 (stack_top fr - stack_bottom fr))
             (wrap32 (CORTEX_M0_STACK_BASE - SP (cpu s)))) ->
  exists s', verify_stack_size f s = Ok tt s'.
Proof.
  intros Hf Hl [size Hg].
  destruct (Z.ltb_spec (wrap32 (stack_top fr - stack_bottom fr))
              (wrap32 (CORTEX_M0_STACK_BASE - SP (cpu s)))) as [Hlt|Hge].
  - eexists. by eapply verify_stack_size_grows.
  - eexists. by eapply verify_stack_size_fits.
Qed.

Lemma getFiberContext_record_size s L f s1 fr :
  queues_ok s L -> getFiberContext s = Ok f s1 -> f <> 0 ->
  heap s1 !! f = Some fr ->
  (L FiberPool = [] -> hd_def (allocs s) <> 0 /\ hd_def (tail (allocs s)) <> 0) ->
  wrap32 (stack_top fr - stack_bottom fr) = forked_buffer_size s.
Proof.
  intros Hok Hg Hf Hl Halloc. unfold forked_buffer_size.
  destruct (L FiberPool) as [|p l] eqn:HL.
  - destruct (Halloc eq_refl) as (Ha & Hb).
    assert (fiberPool s = 0) as Hpool.
    { destruct (Hok FiberPool) as [Hd _]. by rewrite HL in Hd. }
    rewrite getFiberContext_fresh in Hg by done. injection Hg as <- <-.
    unfold allocated in Hl. simpl in Hl. rewrite lookup_insert_eq in Hl.
    injection Hl as <-. rewrite decide_True by done. simpl.
    unfold wrap32. rewrite Zminus_mod_idemp_l. f_equal. ring.
  - destruct (getFiberContext_pool s L p l Hok HL)
      as (pr & Hlp & Hp0 & Hpool & Hg' & _ & Hl1 & _).
    rewrite Hg' in Hg. injection Hg as <- <-. rewrite Hl1 in Hl. injection Hl as <-.
    rewrite decide_False by congruence. by rewrite Hpool, Hlp.
Qed.

(** [schedule] in fork-on-block context: the forked record is marked
    CHILD, the current fiber is marked PARENT and resumes at its
    snapshot. *)
Lemma schedule_fob s cr f fr :
  MICROBIT_FIBER_FLAG_PARENT <> 0 ->
  currentFiber s <> 0 -> heap s !! currentFiber s = Some cr ->
  flag_set (flags cr) MICROBIT_FIBER_FLAG_FOB = true ->
  forkedFiber s = f -> f <> 0 -> f <> currentFiber s -> heap s !! f = Some fr ->
  is_Some (grow_buffer 32 (wrap32 (stack_top fr - stack_bottom fr))
             (wrap32 (CORTEX_M0_STACK_BASE - SP (cpu s)))) ->
  exists s' cr' fr',
    schedule s = Ok Resumes_at_snapshot s' /\
    currentFiber s' = currentFiber s /\
    heap s' !! currentFiber s = Some cr' /\
    flags cr' = flag_or MICROBIT_FIBER_FLAG_PARENT (flags cr) /\
    heap s' !! f = Some fr' /\
    flags fr' = flag_or MICROBIT_FIBER_FLAG_CHILD (flags fr) /\
    same_queues s s'.
Proof.
  intros HP Hc Hl Hfob Hff Hf Hne Hlf Hgrow.
  destruct (verify_stack_size_total f s fr Hf Hlf Hgrow) as (s1 & Hv).
  pose proof (verify_stack_size_frame _ _ _ Hv) as Hsf.
  destruct (switch_frame_lookup _ _ _ _ Hsf Hl) as (cr1 & Hl1 & Hv1).
  destruct (switch_frame_lookup _ _ _ _ Hsf Hlf) as (fr1 & Hlf1 & Hvf1).
  assert (currentFiber s1 = currentFiber s) as Hc1 by (destruct Hsf as [_ ->]; done).
  assert (forkedFiber s1 = f) as Hff1 by (destruct Hsf as [_ ->]; done).
  assert (flags cr1 = flags cr) as Hfl1 by (unfold sched_view in Hv1; congruence).
  assert (flags fr1 = flags fr) as Hflf1 by (unfold sched_view in Hvf1; congruence).
  set (cr2 := set_flags (flag_or MICROBIT_FIBER_FLAG_PARENT (flags cr1)) cr1).
  set (fr2 := set_tcb (cpu s1) (set_flags (flag_or MICROBIT_FIBER_FLAG_CHILD (flags fr1)) fr1)).
  pose proof (schedule_keeps s) as Hk.
  assert (schedule s = Ok Resumes_at_snapshot
            (set_cpu (tcb cr2)
               (set_heap (<[f := fr2]> (<[currentFiber s := cr2]> (heap s1))) s1))) as Hs.
  { unfold schedule. do 2 mstep. rewrite Hfob. rewrite bind_assoc, bind_gets, Hff.
    erewrite bind_Ok by exact Hv. rewrite bind_assoc, bind_gets, Hc1.
    mstep. mnorm. rewrite bind_assoc, bind_gets. simpl forkedFiber. rewrite Hff1.
    mstep. mnorm. rewrite bind_assoc, bind_gets. simpl forkedFiber. rewrite Hff1.
    rewrite bind_assoc. mstep. unfold save_context. rewrite bind_assoc, bind_gets.
    mstep. mnorm. rewrite insert_insert_eq.
    unfold schedule_after_save. rewrite bind_gets. simpl currentFiber. rewrite Hc1.
    mstep. cbn [flags set_flags]. rewrite (flag_or_self _ _ HP).
    unfold restore_register_context. rewrite bind_assoc. mstep.
    reflexivity. }
  eexists _, cr2, fr2. split; [exact Hs|]. split; [simpl; done|].
  split; [simpl; by rewrite lookup_insert_ne, lookup_insert_eq|].
  split; [simpl; congruence|].
  split; [simpl; by rewrite lookup_insert_eq|].
  split; [simpl; congruence|].
  by eapply Hk.
Qed.

Lemma fork_on_block_snapshot_parent s cr :
  currentFiber s <> 0 -> heap s !! currentFiber s = Some cr ->
  flag_set (flags cr) MICROBIT_FIBER_FLAG_PARENT = true ->
  fork_on_block_snapshot s =
    Ok Exits
      (set_heap (<[currentFiber s :=
                     set_flags (flag_clear MICROBIT_FIBER_FLAG_PARENT
                                  (flag_clear MICROBIT_FIBER_FLAG_FOB (flags cr))) cr]>
                   (heap s)) s).
Proof.
  intros Hc Hl Hp. unfold fork_on_block_snapshot. do 2 mstep. rewrite Hp.
  mstep. rewrite bind_assoc, bind_gets. simpl currentFiber. mstep. mnorm.
  by rewrite insert_insert_eq.
Qed.

Lemma fork_on_block_snapshot_first s cr :
  currentFiber s <> 0 -> heap s !! currentFiber s = Some cr ->
  flag_set (flags cr) MICROBIT_FIBER_FLAG_PARENT = false ->
  fork_on_block_snapshot s =
    Ok Calls_handler
      (set_heap (<[currentFiber s :=
                     set_flags (flag_or MICROBIT_FIBER_FLAG_FOB (flags cr)) cr]>
                   (heap s)) s).
Proof.
  intros Hc Hl Hp. unfold fork_on_block_snapshot. do 2 mstep. rewrite Hp.
  by mstep.
Qed.

Lemma fork_on_block_return_unfold s cr :
  currentFiber s <> 0 -> heap s !! currentFiber s = Some cr ->
  let s' := set_heap (<[currentFiber s :=
                          set_flags (flag_clear MICROBIT_FIBER_FLAG_FOB (flags cr)) cr]>
                        (heap s)) s in
  fork_on_block_return s =
    if flag_set (flag_clear MICROBIT_FIBER_FLAG_FOB (flags cr)) MICROBIT_FIBER_FLAG_CHILD
    then release_fiber s' else Ok Returns s'.
Proof.
  intros Hc Hl s'. unfold fork_on_block_return.
  rewrite bind_assoc, bind_gets. mstep. fold s'. rewrite bind_gets.
  simpl currentFiber. mstep. cbn [flags set_flags]. by destruct (flag_set _ _).
Qed.

End ForkProperties.

Section ForkBlocking.
Context `{hw : Platform}.

(** A blocking primitive called in fork-on-block context, up to its call of
    [schedule]: a record [f] is obtained and parked on [Q] with the wake
    condition [v]; the current fiber keeps its flags. *)
Lemma block_forked s L cr v Q :
  queues_ok s L ->
  currentFiber s <> 0 -> heap s !! currentFiber s = Some cr ->
  flag_set (flags cr) MICROBIT_FIBER_FLAG_FOB = true ->
  currentFiber s ∈ L RunQueue ->
  (L FiberPool = [] ->
   hd_def (allocs s) <> 0 /\ hd_def (tail (allocs s)) <> 0 /\
   heap s !! hd_def (allocs s) = None) ->
  exists f s0 s1 cr1 fr1,
    blocking_fiber s = Ok f s0 /\ ticks s0 = ticks s /\
    (store f (set_context v) ;; dequeue_fiber f ;; queue_fiber f Q) s0 = Ok tt s1 /\
    f <> 0 /\ f <> currentFiber s /\
    currentFiber s1 = currentFiber s /\ forkedFiber s1 = f /\ cpu s1 = cpu s /\
    heap s1 !! currentFiber s = Some cr1 /\ flags cr1 = flags cr /\
    heap s1 !! f = Some fr1 /\
    wrap32 (stack_top fr1 - stack_bottom fr1) = forked_buffer_size s.
Proof.
  intros Hok Hc Hl Hfob Hrun Halloc.
  destruct (getFiberContext_record s L Hok Halloc)
    as (f & s0 & fr & Hg & Hf0 & _ & Hl0 & Hq0 & _ & Hok0 & Hoth & Hwhere & _ & Hpf).
  assert (f <> currentFiber s) as Hne.
  { intros ->. destruct Hwhere as [Hin|Hnone]; [|congruence].
    by eapply (other_queue_not_elem s L RunQueue FiberPool). }
  pose proof (blocking_fiber_fob s cr f s0 Hc Hl Hfob Hg) as Hb.
  rewrite decide_False in Hb by done.
  set (s0' := set_forkedFiber f s0) in *.
  assert (queues_ok s0' (upd L FiberPool (tail (L FiberPool)))) as Hok0'.
  { eapply queues_ok_same_links; [apply same_links_refl| |exact Hok0].
    intros q. by destruct q. }
  destruct (block_on s0' _ f fr v Q Hok0' Hf0 Hl0)
    as (s1 & fr1 & Hblk & _ & _ & Hl1 & _ & Hs1 & Hoth1 & Hfr).
  { intros q. by rewrite Hq0. }
  assert (exists cr1, heap s1 !! currentFiber s = Some cr1 /\ flags cr1 = flags cr)
    as (cr1 & Hlc1 & Hfl1).
  { specialize (Hoth1 (currentFiber s) ltac:(congruence)).
    specialize (Hoth (currentFiber s) ltac:(congruence)).
    simpl in Hoth1. rewrite Hoth, Hl in Hoth1.
    destruct (heap s1 !! currentFiber s) as [cr1|]; simpl in Hoth1; [|done].
    exists cr1. split; [done|].
    assert (strip cr1 = strip cr) as Hstrip by congruence.
    by apply strip_fields in Hstrip as (_ & Hflc & _). }
  exists f, s0', s1, cr1, fr1.
  split; [done|]. split; [unfold s0'; by rewrite Hpf|]. split; [done|].
  split; [done|]. split; [done|].
  split; [rewrite Hfr; unfold s0'; simpl; by rewrite Hpf|].
  split; [by rewrite Hfr|].
  split; [rewrite Hfr; unfold s0'; simpl; by rewrite Hpf|].
  split; [done|]. split; [done|]. split; [done|].
  apply strip_fields in Hs1 as (_ & _ & _ & -> & ->). simpl.
  eapply getFiberContext_record_size; eauto.
  intros HL. by destruct (Halloc HL) as (? & ? & _).
Qed.

(** The blocking exit of a fork-on-block episode, for either blocking
    primitive [blk]: the call resumes the current fiber at its snapshot,
    from where [fork_on_block] clears FOB and PARENT and returns. *)
Lemma blocking_exit (blk : M control) s L cr v Q :
  (forall f s0, blocking_fiber s = Ok f s0 ->
     blk s = ((store f (set_context (v (ticks s0))) ;;
               dequeue_fiber f ;; queue_fiber f Q) ;; schedule) s0) ->
  MICROBIT_FIBER_FLAG_PARENT <> 0 ->
  queues_ok s L ->
  currentFiber s <> 0 -> heap s !! currentFiber s = Some cr ->
  flag_set (flags cr) MICROBIT_FIBER_FLAG_FOB = true ->
  currentFiber s ∈ L RunQueue ->
  (L FiberPool = [] ->
   hd_def (allocs s) <> 0 /\ hd_def (tail (allocs s)) <> 0 /\
   heap s !! hd_def (allocs s) = None) ->
  is_Some (grow_buffer 32 (forked_buffer_size s)
             (wrap32 (CORTEX_M0_STACK_BASE - SP (cpu s)))) ->
  exists s3 s4 cr4,
    blk s = Ok Resumes_at_snapshot s3 /\
    currentFiber s3 = currentFiber s /\
    fork_on_block_snapshot s3 = Ok Exits s4 /\
    currentFiber s4 = currentFiber s /\
    heap s4 !! currentFiber s = Some cr4 /\
    flag_set (flags cr4) MICROBIT_FIBER_FLAG_FOB = false /\
    flag_set (flags cr4) MICROBIT_FIBER_FLAG_PARENT = false.
Proof.
  intros Hblk HP Hok Hc Hl Hfob Hrun Halloc Hgrow.
  destruct (block_forked s L cr (v (ticks s)) Q Hok Hc Hl Hfob Hrun Halloc)
    as (f & s0 & s1 & cr1 & fr1 & Hb & Ht0 & Hpark & Hf0 & Hne & Hc1 & Hff1 & Hcpu
        & Hlc1 & Hfl1 & Hlf1 & Hsize).
  rewrite <- Hc1 in Hlc1.
  destruct (schedule_fob s1 cr1 f fr1 HP) as (s3 & cr3 & fr3 & Hs & Hc3 & Hl3 & Hfl3 & _).
  { by rewrite Hc1. }
  { done. }
  { by rewrite Hfl1. }
  { done. }
  { done. }
  { by rewrite Hc1. }
  { done. }
  { by rewrite Hsize, Hcpu. }
  rewrite Hc1 in Hc3, Hl3. rewrite <- Hc3 in Hl3.
  assert (flag_set (flags cr3) MICROBIT_FIBER_FLAG_PARENT = true) as Hp3.
  { rewrite Hfl3. by apply flag_or_self. }
  pose proof (fork_on_block_snapshot_parent s3 cr3 ltac:(congruence) Hl3 Hp3) as Hsnap.
  eexists s3, _, _. split.
  { rewrite (Hblk f s0 Hb), Ht0. erewrite bind_Ok by exact Hpark. exact Hs. }
  split; [done|]. split; [exact Hsnap|]. split; [simpl; done|].
  split; [simpl; rewrite <- Hc3; apply lookup_insert_eq|]. simpl. split.
  - apply flag_clear_keeps_clear, flag_clear_self.
  - apply flag_clear_self.
Qed.

End ForkBlocking.

(** The idle fiber (512) is on no queue: removing it changes nothing, and
    putting it on the run queue and taking it off again gives the state
    back. *)
Lemma enqueue_dequeue_roundtrip_witness :
  let s := one_fiber 0 536887192 [] in
  dequeue_fiber 512 s = Ok tt s /\
  (queue_fiber 512 RunQueue ;; dequeue_fiber 512) s = Ok tt (set_irq_enabled true s).
Proof.
  intros s.
  destruct (enqueue_dequeue_roundtrip s 512 (example_fiber 8192 0 None 0 0))
    as [H1 H2].
  - discriminate.
  - reflexivity.
  - reflexivity.
  - split; [exact H1|].
    destruct (H2 one_fiber_queues RunQueue (one_fiber_ok 0 536887192 []))
      as (H3 & _ & _ & _ & _ & H4).
    rewrite H3. by rewrite H4.
Defined.

(** [create_fiber] on a board with an empty pool: a null completion routine
    gives NULL and the same state; with no memory left it gives NULL and the
    run queue still holds fiber 256 alone; with memory for a record at 1024
    and its stack it gives 1024, then the head of the run queue. *)
Lemma create_fiber_returns_example :
  create_fiber (hw := microbit) 4200 0 (one_fiber 0 536887192 [])
    = Ok 0 (one_fiber 0 536887192 []) /\
  (exists s', create_fiber (hw := microbit) 4200 4161 (one_fiber 0 536887192 []) = Ok 0 s' /\
              runQueue s' = 256) /\
  (exists s1, create_fiber (hw := microbit) 4200 4161 (one_fiber 0 536887192 [1024; 12288])
                = Ok 1024 s1 /\ runQueue s1 = 1024).
Proof.
  split; [|split].
  - apply (proj1 (create_fiber_returns (hw := microbit) (one_fiber 0 536887192 [])
                    4200 0 0)). by right.
  - destruct (proj1 (proj2 (create_fiber_returns (hw := microbit)
                              (one_fiber 0 536887192 []) 4200 0 4161)))
      as (s' & H1 & _ & _ & H4).
    + discriminate.
    + discriminate.
    + reflexivity.
    + by left.
    + intros H. by vm_compute in H.
    + exists s'. split; [exact H1|]. exact (H4 RunQueue).
  - destruct (proj2 (proj2 (create_fiber_returns (hw := microbit)
                              (one_fiber 0 536887192 [1024; 12288]) 4200 0 4161))
                ltac:(discriminate) ltac:(discriminate) one_fiber_queues
                (one_fiber_ok 0 536887192 [1024; 12288]))
      as (_ & H & _).
    + intros _. vm_compute. repeat split; discriminate.
    + intros p l pr HL. discriminate HL.
    + destruct H as (s1 & _ & H1 & H2 & _); [by eexists|].
      exists s1. split; [exact H1|exact H2].
Qed.

(** C6 fails on the code.  [create_fiber] returns NULL when the record or
    the stack that [getFiberContext] allocates cannot be had, and misses two
    other failed allocations, where it goes through a null pointer instead:
    - the first creation, made while no cached context exists (here the
      one [scheduler_init] makes for the idle fiber, the main fiber 256
      being set up), with memory left for the record at 1024 and its stack
      at 12288 and none for the cached context: line 476 does not check
      [malloc] and line 477 copies into the null pointer;
    - a creation that takes from the pool a record whose stack is null.
      Fiber 256, with 100 bytes of stack in use and a buffer of 64, is
      released while memory is exhausted: [verify_stack_size] frees the
      buffer and stores the null pointer of its own unchecked [malloc], and
      the record goes to the pool.  The next creation, by either overload,
      writes its entry point through the null [stack_bottom] (lines 457 and
      526).
    Both hold in general: for every first creation whose cache allocation
    fails, and for every pooled record with a null stack. *)
Theorem create_fiber_out_of_memory_faults :
  create_fiber (hw := microbit) 4200 4161
    (main_started (hw := microbit) (mkTCB [] 536887192 0) 256 4096 [1024; 12288]) = Fault /\
  match release_fiber (hw := microbit) (one_fiber 4 536887192 []) with
  | Ok _ s =>
      fiberPool s = 256 /\
      create_fiber (hw := microbit) 4200 4161 s = Fault /\
      create_fiber_param (hw := microbit) 4200 7 4161 s = Fault
  | _ => False
  end /\
  (forall (hw : Platform) s L entry_fn completion_fn,
     entry_fn <> 0 -> completion_fn <> 0 -> queues_ok s L ->
     L FiberPool = [] ->
     hd_def (allocs s) <> 0 -> hd_def (tail (allocs s)) <> 0 ->
     heap s !! hd_def (allocs s) = None ->
     emptyContext s = None -> hd_def (tail (tail (allocs s))) = 0 ->
     create_fiber entry_fn completion_fn s = Fault) /\
  (forall (hw : Platform) s L p l pr entry_fn param completion_fn,
     entry_fn <> 0 -> completion_fn <> 0 -> queues_ok s L ->
     L FiberPool = p :: l -> heap s !! p = Some pr -> stack_bottom pr = 0 ->
     create_fiber entry_fn completion_fn s = Fault /\
     create_fiber_param entry_fn param completion_fn s = Fault).
Proof.
  split; [vm_compute; reflexivity|].
  split; [vm_compute; repeat split; reflexivity|].
  split.
  - intros hw s L entry_fn completion_fn He Hc Hok HL Ha Hb Hfresh Hnone Hcache.
    apply (create_fiber_no_cache s L); try done.
    + intros p l pr HL'. congruence.
    + by rewrite decide_True.
  - intros hw s L p l pr entry_fn param completion_fn He Hc Hok HL Hl Hsb.
    by apply (create_fiber_null_stack s L p l pr).
Qed.

Section ForkOutOfMemory.
Context `{hw : Platform}.

Lemma verify_stack_size_NULL s : verify_stack_size NULL s = Fault.
Proof.
  unfold verify_stack_size, get_MSP. rewrite bind_gets. unfold bind.
  by rewrite load_NULL.
Qed.

(** The defect behind C2, in general: whenever a blocking primitive [blk]
    is called in fork-on-block context from a well-formed state with an
    empty pool and no memory for a new record, the current fiber is parked
    and [schedule] then dereferences the null [forkedFiber]. *)
Lemma blocking_out_of_memory (blk : M control) s L cr v Q :
  (forall f s0, blocking_fiber s = Ok f s0 ->
     blk s = ((store f (set_context (v (ticks s0))) ;;
               dequeue_fiber f ;; queue_fiber f Q) ;; schedule) s0) ->
  queues_ok s L ->
  currentFiber s <> 0 -> heap s !! currentFiber s = Some cr ->
  flag_set (flags cr) MICROBIT_FIBER_FLAG_FOB = true ->
  (forall q, queue cr = Some q -> currentFiber s ∈ L q) ->
  fiberPool s = 0 ->
  (hd_def (allocs s) = 0 \/ hd_def (tail (allocs s)) = 0) ->
  (hd_def (allocs s) <> 0 -> heap s !! hd_def (allocs s) = None) ->
  blk s = Fault.
Proof.
  intros Hblk Hok Hc Hl Hfob Hon Hpool Hoom Hfresh.
  destruct (getFiberContext_out_of_memory s Hpool Hoom Hfresh)
    as (s0 & Hg & Hheap & Hp0 & Hpf).
  pose proof (blocking_fiber_fob s cr 0 s0 Hc Hl Hfob Hg) as Hb.
  rewrite decide_True in Hb by done.
  set (s0' := set_forkedFiber 0 s0) in *.
  assert (queues_ok s0' L) as Hok0.
  { eapply queues_ok_same_links; [| |exact Hok].
    - unfold s0'. simpl. rewrite Hheap. apply same_links_refl.
    - intros q. unfold s0'. destruct q; simpl; [by rewrite Hpf..|congruence]. }
  assert (heap s0' !! currentFiber s = Some cr) as Hl0.
  { unfold s0'. simpl. by rewrite Hheap. }
  destruct (block_on s0' L (currentFiber s) cr (v (ticks s0')) Q Hok0 Hc Hl0 Hon)
    as (s1 & cr1 & Hpark & _ & _ & Hl1 & _ & Hs1 & _ & Hfr).
  apply strip_fields in Hs1 as (_ & Hfl & _). simpl in Hfl.
  assert (currentFiber s1 = currentFiber s) as Hc1.
  { rewrite Hfr. unfold s0'. simpl. by rewrite Hpf. }
  assert (forkedFiber s1 = 0) as Hff1 by (by rewrite Hfr).
  rewrite (Hblk _ _ Hb). erewrite bind_Ok by exact Hpark.
  unfold schedule. rewrite bind_gets, Hc1. mstep. rewrite Hfl, Hfob.
  rewrite bind_assoc, bind_gets, Hff1. unfold bind at 1.
  by rewrite verify_stack_size_NULL.
Qed.

Lemma fiber_sleep_out_of_memory s L cr t :
  queues_ok s L ->
  currentFiber s <> 0 -> heap s !! currentFiber s = Some cr ->
  flag_set (flags cr) MICROBIT_FIBER_FLAG_FOB = true ->
  (forall q, queue cr = Some q -> currentFiber s ∈ L q) ->
  fiberPool s = 0 ->
  (hd_def (allocs s) = 0 \/ hd_def (tail (allocs s)) = 0) ->
  (hd_def (allocs s) <> 0 -> heap s !! hd_def (allocs s) = None) ->
  fiber_sleep t s = Fault.
Proof.
  intros. eapply (blocking_out_of_memory (fiber_sleep t) s L cr
                    (fun now => wrap32 (now + t)) SleepQueue); try done.
  intros f s0 Hb. by apply fiber_sleep_unfold.
Qed.

Lemma fiber_wait_for_event_out_of_memory s L cr id val :
  queues_ok s L ->
  currentFiber s <> 0 -> heap s !! currentFiber s = Some cr ->
  flag_set (flags cr) MICROBIT_FIBER_FLAG_FOB = true ->
  (forall q, queue cr = Some q -> currentFiber s ∈ L q) ->
  fiberPool s = 0 ->
  (hd_def (allocs s) = 0 \/ hd_def (tail (allocs s)) = 0) ->
  (hd_def (allocs s) <> 0 -> heap s !! hd_def (allocs s) = None) ->
  fiber_wait_for_event id val s = Fault.
Proof.
  intros. eapply (blocking_out_of_memory (fiber_wait_for_event id val) s L cr
                    (fun _ => wrap32 (Z.lor (Z.shiftl val 16) id)) WaitQueue); try done.
  intros f s0 Hb. by apply fiber_wait_for_event_unfold.
Qed.

End ForkOutOfMemory.

(** * Further properties of the scheduler *)

(** ** The queue primitives *)

(** X1.  [queue_fiber f q] on a record that is on no queue, in a state whose
    queues are the well-formed lists [L]: the call succeeds, [f] is the new
    head of [q], in front of the fibers that were there; the other three
    queues keep their heads and their lists; no record changes in anything
    but its queue linkage; interrupts are enabled on return. *)
Theorem queue_fiber_pushes s L q f fr :
  queues_ok s L -> f <> 0 -> heap s !! f = Some fr -> queue fr = None ->
  exists s',
    queue_fiber f q s = Ok tt s' /\
    queue_head q s' = f /\
    queues_ok s' (upd L q (f :: L q)) /\
    (forall q', q' <> q -> queue_head q' s' = queue_head q' s) /\
    links_only (heap s) (heap s') /\
    irq_enabled s' = true.
Proof.
  intros Hok Hf Hl Hq.
  destruct (queues_ok_queue s L q f fr Hok Hf Hl Hq) as [Hrun Hok'].
  exists (queued f q fr s). split; [done|]. split.
  { unfold queued. mnorm. apply queue_head_set_eq. }
  split; [done|]. split.
  { intros q' Hne. unfold queued. mnorm. by rewrite queue_head_set_ne. }
  split; [|done].
  unfold queued. mnorm. by apply links_only_push.
Qed.

(** The idle fiber (512) is put on the run queue in front of fiber 256. *)
Lemma queue_fiber_pushes_witness :
  exists s',
    queue_fiber 512 RunQueue (one_fiber 0 536887192 []) = Ok tt s' /\
    runQueue s' = 512 /\
    queues_ok s' (upd one_fiber_queues RunQueue [512; 256]).
Proof.
  destruct (queue_fiber_pushes (one_fiber 0 536887192 []) one_fiber_queues RunQueue 512
              (example_fiber 8192 0 None 0 0) (one_fiber_ok 0 536887192 []))
    as (s' & H1 & H2 & H3 & _); [discriminate|reflexivity|reflexivity|].
  exists s'. auto.
Defined.

(** X2.  [dequeue_fiber f] on a fiber that is on the queue [q], between the
    fibers [l1] and [l2]: the call succeeds, [q] holds [l1] followed by [l2]
    in the same order, the other queues keep their heads and their lists,
    [f] is left with a null queue pointer and null links, no record changes
    in anything but its queue linkage, and interrupts are enabled on
    return. *)
Theorem dequeue_fiber_removes s L q l1 f l2 :
  queues_ok s L -> L q = l1 ++ f :: l2 ->
  exists s' fr',
    dequeue_fiber f s = Ok tt s' /\
    queues_ok s' (upd L q (l1 ++ l2)) /\
    heap s' !! f = Some fr' /\ queue fr' = None /\ next fr' = 0 /\ prev fr' = 0 /\
    queue_head q s' = hd_def (l1 ++ l2) /\
    (forall q', q' <> q -> queue_head q' s' = queue_head q' s) /\
    links_only (heap s) (heap s') /\
    irq_enabled s' = true.
Proof.
  intros Hok HL.
  destruct (queues_ok_dequeue s L q l1 f l2 Hok HL) as (fr & Hl & Hq & Hp & Hn & Hrun & Hok').
  exists (dequeued f q fr s), (strip fr). split; [done|]. split; [done|].
  split; [apply unlink_heap_self|]. do 3 (split; [done|]). split.
  { destruct (Hok' q) as [Hd _]. rewrite upd_eq in Hd. by apply dll_head in Hd. }
  split.
  { intros q' Hne. unfold dequeued. mnorm. case_decide; [|done].
    by rewrite queue_head_set_ne. }
  split; [|done].
  unfold dequeued. mnorm. by apply links_only_unlink.
Qed.

(** Fiber 256, alone on the run queue, is taken off it. *)
Lemma dequeue_fiber_removes_witness :
  exists s' fr',
    dequeue_fiber 256 (one_fiber 0 536887192 []) = Ok tt s' /\
    runQueue s' = 0 /\ heap s' !! 256 = Some fr' /\ queue fr' = None.
Proof.
  destruct (dequeue_fiber_removes (one_fiber 0 536887192 []) one_fiber_queues RunQueue
              [] 256 [] (one_fiber_ok 0 536887192 []) eq_refl)
    as (s' & fr' & H1 & _ & H3 & H4 & _ & _ & H7 & _).
  exists s', fr'. auto.
Defined.

(** X3.  [queue_fiber] does not look whether the record is already queued:
    called on the fiber that is the head of [q], it succeeds and leaves that
    fiber as the head with its [next] and its [prev] pointing to itself, so
    that [q] is no longer a null-terminated list. *)
Theorem queue_fiber_again_cycles s q f fr :
  f <> 0 -> heap s !! f = Some fr -> queue_head q s = f ->
  exists s' fr',
    queue_fiber f q s = Ok tt s' /\
    queue_head q s' = f /\
    heap s' !! f = Some fr' /\ next fr' = f /\ prev fr' = f /\
    forall L, ~ queues_ok s' L.
Proof.
  intros Hf Hl Hhd.
  set (fr' := set_prev f (set_prev 0 (set_next f (set_queue (Some q) fr)))).
  set (s' := set_irq_enabled true
               (set_queue_head q f
                  (set_heap (<[f := fr']> (heap s)) (set_irq_enabled false s)))).
  assert (queue_fiber f q s = Ok tt s') as Hrun.
  { unfold queue_fiber. do 6 mstep. mnorm. rewrite !insert_insert_eq.
    rewrite Hhd. do 2 mstep. mnorm. rewrite Hhd. rewrite decide_False by done.
    mstep. mnorm. rewrite !insert_insert_eq. mstep.
    unfold enable_irq, modify. reflexivity. }
  assert (heap s' !! f = Some fr') as Hl'.
  { unfold s'. mnorm. apply lookup_insert_eq. }
  assert (queue_head q s' = f) as Hhd'.
  { unfold s'. mnorm. apply queue_head_set_eq. }
  exists s', fr'. do 5 (split; [done|]).
  intros L Hok. destruct (Hok q) as [Hd _]. rewrite Hhd' in Hd.
  destruct (L q) as [|a l]; cbn [dll] in Hd; [done|].
  destruct Hd as (Ha & _ & fr0 & Hl0 & _ & Hp & _).
  rewrite <- Ha, Hl' in Hl0. injection Hl0 as <-. simpl in Hp. done.
Qed.

(** Fiber 256 is the head of the run queue and is queued there again. *)
Lemma queue_fiber_again_cycles_witness :
  exists s' fr',
    queue_fiber 256 RunQueue (one_fiber 0 536887192 []) = Ok tt s' /\
    heap s' !! 256 = Some fr' /\ next fr' = 256 /\ prev fr' = 256.
Proof.
  destruct (queue_fiber_again_cycles (one_fiber 0 536887192 []) RunQueue 256
              (example_fiber 4096 0 (Some RunQueue) 0 0))
    as (s' & fr' & H1 & _ & H3 & H4 & H5 & _); [discriminate|reflexivity|reflexivity|].
  exists s', fr'. auto.
Defined.

(** ** Records from the pool and from the heap *)

Section PoolFurther.
Context `{hw : Platform}.

(** X4.  [getFiberContext] with a pool that holds [p] in front of [l]: the
    call hands out [p] and leaves [l] in the pool; it calls neither [new]
    nor [malloc]; the record comes back off every queue with flags 0 and
    with the stack buffer, saved registers and context word it had in the
    pool. *)
Theorem getFiberContext_reuses_pool s L p l :
  queues_ok s L -> L FiberPool = p :: l ->
  exists pr s' pr',
    heap s !! p = Some pr /\
    getFiberContext s = Ok p s' /\
    heap s' !! p = Some pr' /\
    flags pr' = 0 /\ queue pr' = None /\ next pr' = 0 /\ prev pr' = 0 /\
    stack_top pr' = stack_top pr /\ stack_bottom pr' = stack_bottom pr /\
    tcb pr' = tcb pr /\ context pr' = context pr /\
    queues_ok s' (upd L FiberPool l) /\
    allocs s' = allocs s /\ heap_log s' = heap_log s.
Proof.
  intros Hok HL.
  destruct (getFiberContext_pool s L p l Hok HL)
    as (pr & Hl & Hp0 & Hpool & Hg & Hok1 & Hl1 & Hlo & Hfr).
  exists pr, (recycled p pr s), (set_flags 0 (strip pr)).
  do 3 (split; [done|]). do 8 (split; [done|]). split; [done|].
  rewrite Hfr. done.
Qed.

(** X5.  [getFiberContext] with an empty pool, when the allocator hands out
    a fresh record at [a] and a stack at [b]: the call returns [a]; the
    record has the stack buffer from [b] to [b + FIBER_STACK_SIZE], flags 0
    and no queue; every other record and all four queues are as they
    were. *)
Theorem getFiberContext_allocates s L a b rest :
  queues_ok s L -> L FiberPool = [] ->
  allocs s = a :: b :: rest -> a <> 0 -> b <> 0 -> heap s !! a = None ->
  exists s',
    getFiberContext s = Ok a s' /\
    heap s' !! a = Some (fresh_Fiber b) /\
    (forall g, g <> a -> heap s' !! g = heap s !! g) /\
    queues_ok s' L /\
    allocs s' = rest /\
    heap_log s' = Malloc FIBER_STACK_SIZE b :: New a :: heap_log s.
Proof.
  intros Hok HL Hal Ha Hb Hfresh.
  assert (fiberPool s = 0) as Hpool.
  { destruct (Hok FiberPool) as [Hd _]. by rewrite HL in Hd. }
  exists (allocated a b s). split.
  { rewrite getFiberContext_fresh; rewrite ?Hal; done. }
  split; [apply lookup_insert_eq|]. split.
  { intros g Hg. unfold allocated. simpl. by rewrite lookup_insert_ne. }
  split; [by apply queues_ok_allocated|].
  unfold allocated. simpl. by rewrite Hal.
Qed.

End PoolFurther.

Lemma one_pooled_ok al : queues_ok (one_pooled al) one_pooled_queues.
Proof.
  intros q. destruct q; simpl; (split; [|repeat constructor; set_solver]); try done.
  - split; [done|]. split; [done|]. eexists. split; [reflexivity|]. done.
  - split; [done|]. split; [done|]. eexists. split; [reflexivity|]. done.
Qed.

(** The pool holds the record 1024 alone. *)
Lemma getFiberContext_reuses_pool_witness :
  exists s' pr',
    getFiberContext (hw := microbit) (one_pooled []) = Ok 1024 s' /\
    heap s' !! 1024 = Some pr' /\ flags pr' = 0 /\ stack_bottom pr' = 12288 /\
    queues_ok s' (upd one_pooled_queues FiberPool []) /\ heap_log s' = [].
Proof.
  destruct (getFiberContext_reuses_pool (hw := microbit) (one_pooled []) one_pooled_queues
              1024 [] (one_pooled_ok []) eq_refl)
    as (pr & s' & pr' & H1 & H2 & H3 & H4 & _ & _ & _ & _ & H9 & _ & _ & H12 & _ & H14).
  exists s', pr'. split; [done|]. split; [done|]. split; [done|].
  split; [rewrite H9; by injection H1 as <-|]. split; done.
Defined.

(** A record at 1024 with its stack at 12288 is allocated. *)
Lemma getFiberContext_allocates_witness :
  exists s',
    getFiberContext (hw := microbit) (one_fiber 0 536887192 [1024; 12288]) = Ok 1024 s' /\
    heap s' !! 1024 = Some (mkFiber 12352 12288 (mkTCB [] 0 0) 0 0 None 0 0) /\
    allocs s' = [].
Proof.
  destruct (getFiberContext_allocates (hw := microbit) (one_fiber 0 536887192 [1024; 12288])
              one_fiber_queues 1024 12288 [] (one_fiber_ok 0 536887192 [1024; 12288])
              eq_refl eq_refl)
    as (s' & H1 & H2 & _ & _ & H5 & _); [discriminate|discriminate|reflexivity|].
  exists s'. auto.
Defined.

(** ** Creation and the trampolines *)

Lemma queue_fiber_frame s L q f fr :
  queues_ok s L -> f <> 0 -> heap s !! f = Some fr -> queue fr = None ->
  exists s' fr',
    queue_fiber f q s = Ok tt s' /\
    queues_ok s' (upd L q (f :: L q)) /\
    heap s' !! f = Some fr' /\ queue fr' = Some q /\ strip fr' = strip fr /\
    links_only (heap s) (heap s') /\ frame_queues s s'.
Proof.
  intros Hok Hf Hl Hq.
  destruct (queues_ok_queue s L q f fr Hok Hf Hl Hq) as [Hrun Hok'].
  assert (links_only (heap s) (heap (queued f q fr s))) as Hlo.
  { unfold queued. mnorm. by apply links_only_push. }
  destruct (links_only_lookup_rev _ _ _ _ Hlo Hl) as (fr' & Hl' & Hs).
  exists (queued f q fr s), fr'. split; [done|]. split; [done|]. split; [done|].
  split.
  { destruct (Hok' q) as [Hd _]. rewrite upd_eq in Hd.
    destruct Hd as (_ & _ & fr0 & Hl0 & Hq0 & _). congruence. }
  split; [done|]. split; [done|]. apply frame_queues_queued.
Qed.

Lemma wrap32_plus_ne2 b j k :
  0 <= j < k -> k < 2 ^ 32 -> wrap32 (b + k) <> wrap32 (b + j).
Proof.
  intros Hj Hk E. unfold wrap32 in E.
  assert (((b + k) - (b + j)) mod 2 ^ 32 = 0) as E3.
  { rewrite Zminus_mod, E, Z.sub_diag. reflexivity. }
  replace (b + k - (b + j)) with (k - j) in E3 by lia.
  rewrite Z.mod_small in E3 by lia. lia.
Qed.

Section CreateFurther.
Context `{hw : Platform}.

(** [create_fiber] from the point where [getFiberContext] has returned [f],
    with the cached context [t]: the state it ends in. *)
Lemma create_fiber_cached_state s s1 L1 f fr t entry_fn completion_fn :
  entry_fn <> 0 -> completion_fn <> 0 ->
  getFiberContext s = Ok f s1 -> f <> 0 ->
  heap s1 !! f = Some fr -> queue fr = None -> stack_bottom fr <> 0 ->
  queues_ok s1 L1 -> emptyContext s1 = Some t ->
  exists s' fr',
    create_fiber entry_fn completion_fn s = Ok f s' /\
    queues_ok s' (upd L1 RunQueue (f :: L1 RunQueue)) /\
    heap s' !! f = Some fr' /\ queue fr' = Some RunQueue /\
    strip fr' = strip (set_tcb t fr) /\
    stackmem s' = <[wrap32 (stack_bottom fr + 4) := completion_fn]>
                    (<[wrap32 (stack_bottom fr + 0) := entry_fn]> (stackmem s1)) /\
    emptyContext s' = Some t /\ allocs s' = allocs s1 /\ heap_log s' = heap_log s1 /\
    links_only (<[f := set_tcb t fr]> (heap s1)) (heap s') /\
    currentFiber s' = currentFiber s1.
Proof.
  intros He Hc Hg Hf Hl Hq Hsb Hok Hec.
  set (s2 := set_heap (<[f := set_tcb t fr]> (heap s1))
               (set_stackmem (<[wrap32 (stack_bottom fr + 4) := completion_fn]>
                                (<[wrap32 (stack_bottom fr + 0) := entry_fn]> (stackmem s1))) s1)).
  assert (queues_ok s2 L1) as Hok2.
  { eapply queues_ok_same_links; [| |exact Hok].
    - unfold s2. simpl. by eapply same_links_insert.
    - intros q. by destruct q. }
  assert (heap s2 !! f = Some (set_tcb t fr)) as Hl2 by apply lookup_insert_eq.
  destruct (queue_fiber_frame s2 L1 RunQueue f (set_tcb t fr) Hok2 Hf Hl2 Hq)
    as (s' & fr' & Hqf & Hok' & Hl' & Hq' & Hs' & Hlo & Hfr).
  exists s', fr'. split.
  { unfold create_fiber. rewrite decide_False by tauto.
    erewrite bind_Ok by exact Hg. rewrite decide_False by done.
    msteps. rewrite Hec. msteps.
    match goal with |- bind _ _ ?st = _ => replace st with s2 by (unfold s2; by destruct s1) end.
    erewrite bind_Ok by exact Hqf. reflexivity. }
  do 4 (split; [done|]). do 4 (split; [by rewrite Hfr|]).
  split; [exact Hlo|]. by rewrite Hfr.
Qed.

Lemma create_fiber_param_cached_state s s1 L1 f fr t entry_fn param completion_fn :
  entry_fn <> 0 -> completion_fn <> 0 ->
  getFiberContext s = Ok f s1 -> f <> 0 ->
  heap s1 !! f = Some fr -> queue fr = None -> stack_bottom fr <> 0 ->
  queues_ok s1 L1 -> emptyContext s1 = Some t ->
  exists s' fr',
    create_fiber_param entry_fn param completion_fn s = Ok f s' /\
    queues_ok s' (upd L1 RunQueue (f :: L1 RunQueue)) /\
    heap s' !! f = Some fr' /\ queue fr' = Some RunQueue /\
    strip fr' = strip (set_tcb (set_LR addr_launch_new_fiber_param t) fr) /\
    stackmem s' = <[wrap32 (stack_bottom fr + 8) := completion_fn]>
                    (<[wrap32 (stack_bottom fr + 4) := param]>
                       (<[wrap32 (stack_bottom fr + 0) := entry_fn]> (stackmem s1))) /\
    emptyContext s' = Some t /\ allocs s' = allocs s1 /\ heap_log s' = heap_log s1 /\
    links_only (<[f := set_tcb (set_LR addr_launch_new_fiber_param t) fr]> (heap s1))
      (heap s') /\
    currentFiber s' = currentFiber s1.
Proof.
  intros He Hc Hg Hf Hl Hq Hsb Hok Hec.
  set (fr2 := set_tcb (set_LR addr_launch_new_fiber_param t) fr).
  set (s2 := set_heap (<[f := fr2]> (heap s1))
               (set_stackmem (<[wrap32 (stack_bottom fr + 8) := completion_fn]>
                                (<[wrap32 (stack_bottom fr + 4) := param]>
                                   (<[wrap32 (stack_bottom fr + 0) := entry_fn]> (stackmem s1)))) s1)).
  assert (queues_ok s2 L1) as Hok2.
  { eapply queues_ok_same_links; [| |exact Hok].
    - unfold s2. simpl. by eapply same_links_insert.
    - intros q. by destruct q. }
  assert (heap s2 !! f = Some fr2) as Hl2 by apply lookup_insert_eq.
  destruct (queue_fiber_frame s2 L1 RunQueue f fr2 Hok2 Hf Hl2 Hq)
    as (s' & fr' & Hqf & Hok' & Hl' & Hq' & Hs' & Hlo & Hfr).
  exists s', fr'. split.
  { unfold create_fiber_param. rewrite decide_False by tauto.
    erewrite bind_Ok by exact Hg. rewrite decide_False by done.
    msteps. rewrite Hec. msteps.
    match goal with |- bind _ _ ?st = _ => replace st with s2 by (unfold s2, fr2; by destruct s1) end.
    erewrite bind_Ok by exact Hqf. reflexivity. }
  do 4 (split; [done|]). do 4 (split; [by rewrite Hfr|]).
  split; [exact Hlo|]. by rewrite Hfr.
Qed.

Lemma create_fiber_first_state s s1 L1 f fr entry_fn completion_fn :
  entry_fn <> 0 -> completion_fn <> 0 ->
  getFiberContext s = Ok f s1 -> f <> 0 ->
  heap s1 !! f = Some fr -> queue fr = None -> stack_bottom fr <> 0 ->
  queues_ok s1 L1 -> emptyContext s1 = None -> hd_def (allocs s1) <> 0 ->
  let t := set_LR addr_launch_new_fiber (set_SP CORTEX_M0_STACK_BASE (cpu s1)) in
  exists s' fr',
    create_fiber entry_fn completion_fn s = Ok f s' /\
    queues_ok s' (upd L1 RunQueue (f :: L1 RunQueue)) /\
    heap s' !! f = Some fr' /\ queue fr' = Some RunQueue /\
    strip fr' = strip (set_tcb t fr) /\
    stackmem s' = <[wrap32 (stack_bottom fr + 4) := completion_fn]>
                    (<[wrap32 (stack_bottom fr + 0) := entry_fn]> (stackmem s1)) /\
    emptyContext s' = Some t /\ allocs s' = tail (allocs s1) /\
    heap_log s' = Malloc sizeof_Cortex_M0_TCB (hd_def (allocs s1)) :: heap_log s1 /\
    links_only (<[f := set_tcb t fr]> (heap s1)) (heap s') /\
    cpu s' = cpu s1 /\ currentFiber s' = currentFiber s1 /\ idle s' = idle s1 /\
    ticks s' = ticks s1 /\ fiber_flags s' = fiber_flags s1 /\
    forkedFiber s' = forkedFiber s1.
Proof.
  intros He Hc Hg Hf Hl Hq Hsb Hok Hec Ha t.
  set (s2 := set_emptyContext (Some t)
               (set_heap_log (Malloc sizeof_Cortex_M0_TCB (hd_def (allocs s1)) :: heap_log s1)
                  (set_allocs (tail (allocs s1))
                     (set_heap (<[f := set_tcb t fr]> (heap s1))
                        (set_stackmem (<[wrap32 (stack_bottom fr + 4) := completion_fn]>
                                         (<[wrap32 (stack_bottom fr + 0) := entry_fn]> (stackmem s1))) s1))))).
  assert (queues_ok s2 L1) as Hok2.
  { eapply queues_ok_same_links; [| |exact Hok].
    - unfold s2. simpl. by eapply same_links_insert.
    - intros q. by destruct q. }
  assert (heap s2 !! f = Some (set_tcb t fr)) as Hl2 by apply lookup_insert_eq.
  destruct (queue_fiber_frame s2 L1 RunQueue f (set_tcb t fr) Hok2 Hf Hl2 Hq)
    as (s' & fr' & Hqf & Hok' & Hl' & Hq' & Hs' & Hlo & Hfr).
  exists s', fr'. split.
  { unfold create_fiber. rewrite decide_False by tauto.
    erewrite bind_Ok by exact Hg. rewrite decide_False by done.
    msteps. rewrite Hec. msteps.
    rewrite decide_False by done. msteps.
    match goal with |- bind _ _ ?st = _ => replace st with s2 by (unfold s2, t; by destruct s1) end.
    erewrite bind_Ok by exact Hqf. reflexivity. }
  do 4 (split; [done|]). split; [by rewrite Hfr|]. split; [by rewrite Hfr|].
  split; [by rewrite Hfr|]. split; [by rewrite Hfr|]. split; [exact Hlo|].
  rewrite Hfr. done.
Qed.

End CreateFurther.

Lemma peek_Ok base off s v :
  base <> 0 -> stackmem s !! wrap32 (base + off) = Some v -> peek base off s = Ok v s.
Proof. intros Hb H. unfold peek. rewrite decide_False by done. by rewrite H. Qed.

Section LaunchFurther.
Context `{hw : Platform}.
Variable call : Z -> M unit.
Variable call_with : Z -> Z -> M unit.

(** [launch_new_fiber] in a fiber whose stack buffer starts with the words
    [ep] and [cp]. *)
Lemma launch_new_fiber_reads s fr ep cp :
  currentFiber s <> 0 -> heap s !! currentFiber s = Some fr ->
  stack_bottom fr <> 0 ->
  stackmem s !! wrap32 (stack_bottom fr + 0) = Some ep ->
  stackmem s !! wrap32 (stack_bottom fr + 4) = Some cp ->
  launch_new_fiber call s = (call ep ;; call cp ;; release_fiber) s.
Proof.
  intros Hc Hl Hsb Hep Hcp. unfold launch_new_fiber.
  repeat mstep. erewrite bind_Ok by (by apply peek_Ok).
  repeat mstep. erewrite bind_Ok by (by apply peek_Ok). reflexivity.
Qed.

Lemma launch_new_fiber_param_reads s fr ep pm cp :
  currentFiber s <> 0 -> heap s !! currentFiber s = Some fr ->
  stack_bottom fr <> 0 ->
  stackmem s !! wrap32 (stack_bottom fr + 0) = Some ep ->
  stackmem s !! wrap32 (stack_bottom fr + 4) = Some pm ->
  stackmem s !! wrap32 (stack_bottom fr + 8) = Some cp ->
  launch_new_fiber_param call_with s =
    (call_with ep pm ;; call_with cp pm ;; release_fiber_param pm) s.
Proof.
  intros Hc Hl Hsb Hep Hpm Hcp. unfold launch_new_fiber_param.
  repeat mstep. erewrite bind_Ok by (by apply peek_Ok).
  repeat mstep. erewrite bind_Ok by (by apply peek_Ok).
  repeat mstep. erewrite bind_Ok by (by apply peek_Ok). reflexivity.
Qed.

(** X6.  [create_fiber(entry_fn, completion_fn)] when a record can be had,
    with a stack buffer if it comes from the pool, and the cached context
    [t] exists: the new fiber is on the run queue with flags 0 and the saved
    registers [t], and the cache is left as it is.  When that fiber later
    runs [launch_new_fiber], with the start of its stack buffer as
    [create_fiber] left it, the trampoline reads back exactly the two words
    stored: it calls [entry_fn], then [completion_fn], then
    [release_fiber]. *)
Theorem create_then_launch s L t entry_fn completion_fn :
  entry_fn <> 0 -> completion_fn <> 0 ->
  queues_ok s L ->
  (L FiberPool = [] ->
   hd_def (allocs s) <> 0 /\ hd_def (tail (allocs s)) <> 0 /\
   heap s !! hd_def (allocs s) = None) ->
  (forall p l pr, L FiberPool = p :: l -> heap s !! p = Some pr -> stack_bottom pr <> 0) ->
  emptyContext s = Some t ->
  exists f s1 fr1,
    create_fiber entry_fn completion_fn s = Ok f s1 /\ f <> 0 /\
    heap s1 !! f = Some fr1 /\
    tcb fr1 = t /\ flags fr1 = 0 /\ queue fr1 = Some RunQueue /\
    stack_bottom fr1 <> 0 /\
    emptyContext s1 = Some t /\
    forall s2 fr2,
      currentFiber s2 = f -> heap s2 !! f = Some fr2 ->
      stack_bottom fr2 = stack_bottom fr1 ->
      stackmem s2 !! wrap32 (stack_bottom fr1 + 0) =
        stackmem s1 !! wrap32 (stack_bottom fr1 + 0) ->
      stackmem s2 !! wrap32 (stack_bottom fr1 + 4) =
        stackmem s1 !! wrap32 (stack_bottom fr1 + 4) ->
      launch_new_fiber call s2 =
        (call entry_fn ;; call completion_fn ;; release_fiber) s2.
Proof.
  intros He Hc Hok Halloc Hstk Hec.
  destruct (getFiberContext_record s L Hok Halloc)
    as (f & s0 & fr & Hg & Hf0 & _ & Hl & Hq & Hfl & Hok0 & _ & _ & _ & Hfr).
  assert (stack_bottom fr <> 0) as Hsb0.
  { apply (getFiberContext_stack s L f s0 fr Hok Hg Hf0 Hl); [|exact Hstk].
    intros HL. by destruct (Halloc HL) as (? & ? & _). }
  assert (emptyContext s0 = Some t) as Hec0 by (by rewrite Hfr).
  destruct (create_fiber_cached_state s s0 _ f fr t entry_fn completion_fn
              He Hc Hg Hf0 Hl Hq Hsb0 Hok0 Hec0)
    as (s1 & fr1 & Hrun & _ & Hl1 & Hq1 & Hs1 & Hmem & Hec1 & _).
  apply strip_fields in Hs1 as (_ & Hfl1 & Htcb & _ & Hsb). simpl in *.
  exists f, s1, fr1. do 3 (split; [done|]). split; [done|].
  split; [congruence|]. split; [done|]. split; [congruence|]. split; [done|].
  intros s2 fr2 Hc2 Hl2 Hsb2 Hw0 Hw4.
  rewrite <- Hc2 in Hl2. rewrite <- Hsb2 in Hw0, Hw4.
  apply (launch_new_fiber_reads s2 fr2); [congruence|done|congruence| |].
  - rewrite Hw0, Hmem, Hsb2, Hsb.
    rewrite lookup_insert_ne by (apply wrap32_plus_ne2; lia).
    by rewrite lookup_insert_eq.
  - rewrite Hw4, Hmem, Hsb2, Hsb. by rewrite lookup_insert_eq.
Qed.

(** X7.  [create_fiber(entry_fn, param, completion_fn)] when a record can be
    had, with a stack buffer if it comes from the pool, and the cached
    context [t] exists: the new fiber is on the run queue with flags 0 and
    the registers [t], except for LR, which holds the address of
    [launch_new_fiber_param]; the cache itself keeps its LR.
    When that fiber later runs [launch_new_fiber_param], with the start of
    its stack buffer as [create_fiber] left it, the trampoline reads back
    the three words stored: it calls [entry_fn] on [param], then
    [completion_fn] on [param], then [release_fiber(param)]. *)
Theorem create_param_then_launch s L t entry_fn param completion_fn :
  entry_fn <> 0 -> completion_fn <> 0 ->
  queues_ok s L ->
  (L FiberPool = [] ->
   hd_def (allocs s) <> 0 /\ hd_def (tail (allocs s)) <> 0 /\
   heap s !! hd_def (allocs s) = None) ->
  (forall p l pr, L FiberPool = p :: l -> heap s !! p = Some pr -> stack_bottom pr <> 0) ->
  emptyContext s = Some t ->
  exists f s1 fr1,
    create_fiber_param entry_fn param completion_fn s = Ok f s1 /\ f <> 0 /\
    heap s1 !! f = Some fr1 /\
    tcb fr1 = set_LR addr_launch_new_fiber_param t /\
    flags fr1 = 0 /\ queue fr1 = Some RunQueue /\
    stack_bottom fr1 <> 0 /\
    emptyContext s1 = Some t /\
    forall s2 fr2,
      currentFiber s2 = f -> heap s2 !! f = Some fr2 ->
      stack_bottom fr2 = stack_bottom fr1 ->
      stackmem s2 !! wrap32 (stack_bottom fr1 + 0) =
        stackmem s1 !! wrap32 (stack_bottom fr1 + 0) ->
      stackmem s2 !! wrap32 (stack_bottom fr1 + 4) =
        stackmem s1 !! wrap32 (stack_bottom fr1 + 4) ->
      stackmem s2 !! wrap32 (stack_bottom fr1 + 8) =
        stackmem s1 !! wrap32 (stack_bottom fr1 + 8) ->
      launch_new_fiber_param call_with s2 =
        (call_with entry_fn param ;; call_with completion_fn param ;;
         release_fiber_param param) s2.
Proof.
  intros He Hc Hok Halloc Hstk Hec.
  destruct (getFiberContext_record s L Hok Halloc)
    as (f & s0 & fr & Hg & Hf0 & _ & Hl & Hq & Hfl & Hok0 & _ & _ & _ & Hfr).
  assert (stack_bottom fr <> 0) as Hsb0.
  { apply (getFiberContext_stack s L f s0 fr Hok Hg Hf0 Hl); [|exact Hstk].
    intros HL. by destruct (Halloc HL) as (? & ? & _). }
  assert (emptyContext s0 = Some t) as Hec0 by (by rewrite Hfr).
  destruct (create_fiber_param_cached_state s s0 _ f fr t entry_fn param completion_fn
              He Hc Hg Hf0 Hl Hq Hsb0 Hok0 Hec0)
    as (s1 & fr1 & Hrun & _ & Hl1 & Hq1 & Hs1 & Hmem & Hec1 & _).
  apply strip_fields in Hs1 as (_ & Hfl1 & Htcb & _ & Hsb). simpl in *.
  exists f, s1, fr1. do 3 (split; [done|]). split; [done|].
  split; [congruence|]. split; [done|]. split; [congruence|]. split; [done|].
  intros s2 fr2 Hc2 Hl2 Hsb2 Hw0 Hw4 Hw8.
  rewrite <- Hc2 in Hl2. rewrite <- Hsb2 in Hw0, Hw4, Hw8.
  apply (launch_new_fiber_param_reads s2 fr2); [congruence|done|congruence| | |].
  - rewrite Hw0, Hmem, Hsb2, Hsb.
    rewrite lookup_insert_ne by (apply wrap32_plus_ne2; lia).
    rewrite lookup_insert_ne by (apply wrap32_plus_ne2; lia).
    by rewrite lookup_insert_eq.
  - rewrite Hw4, Hmem, Hsb2, Hsb.
    rewrite lookup_insert_ne by (apply wrap32_plus_ne2; lia).
    by rewrite lookup_insert_eq.
  - rewrite Hw8, Hmem, Hsb2, Hsb. by rewrite lookup_insert_eq.
Qed.

End LaunchFurther.

(** Fiber 256 creates a fiber for the handler at 4200 with the completion
    routine at 4161; the scheduler then makes the new fiber current. *)
Lemma create_then_launch_witness :
  exists f s1,
    create_fiber (hw := microbit) 4200 4161 (one_fiber 0 536887192 [1024; 12288]) = Ok f s1 /\
    launch_new_fiber (hw := microbit) (fun _ => ret tt) (set_currentFiber f s1) =
      (ret tt ;; ret tt ;; release_fiber (hw := microbit)) (set_currentFiber f s1).
Proof.
  destruct (create_then_launch (hw := microbit) (fun _ => ret tt)
              (one_fiber 0 536887192 [1024; 12288]) one_fiber_queues
              (mkTCB [] 536887292 4097) 4200 4161)
    as (f & s1 & fr1 & H1 & _ & H3 & _ & _ & _ & _ & _ & Hlaunch).
  - discriminate.
  - discriminate.
  - apply one_fiber_ok.
  - intros _. vm_compute. repeat split; discriminate.
  - intros p l pr HL. discriminate HL.
  - reflexivity.
  - exists f, s1. split; [exact H1|].
    apply (Hlaunch (set_currentFiber f s1) fr1); [reflexivity|exact H3|reflexivity..].
Defined.

Lemma create_param_then_launch_witness :
  exists f s1,
    create_fiber_param (hw := microbit) 4200 77 4193
      (one_fiber 0 536887192 [1024; 12288]) = Ok f s1 /\
    launch_new_fiber_param (hw := microbit) (fun _ _ => ret tt) (set_currentFiber f s1) =
      (ret tt ;; ret tt ;; release_fiber_param (hw := microbit) 77) (set_currentFiber f s1).
Proof.
  destruct (create_param_then_launch (hw := microbit) (fun _ _ => ret tt)
              (one_fiber 0 536887192 [1024; 12288]) one_fiber_queues
              (mkTCB [] 536887292 4097) 4200 77 4193)
    as (f & s1 & fr1 & H1 & _ & H3 & _ & _ & _ & _ & _ & Hlaunch).
  - discriminate.
  - discriminate.
  - apply one_fiber_ok.
  - intros _. vm_compute. repeat split; discriminate.
  - intros p l pr HL. discriminate HL.
  - reflexivity.
  - exists f, s1. split; [exact H1|].
    apply (Hlaunch (set_currentFiber f s1) fr1); [reflexivity|exact H3|reflexivity..].
Defined.

Section CacheFurther.
Context `{hw : Platform}.

(** X8.  The first [create_fiber], made while no cached context exists, when
    a record can be had (with a stack buffer, should it come from the pool)
    and the cache can be allocated: the new fiber gets the live registers
    with SP set to CORTEX_M0_STACK_BASE and LR to the address of
    [launch_new_fiber], and a copy of exactly that context becomes the
    cache. *)
Theorem first_create_builds_cache s L entry_fn completion_fn :
  entry_fn <> 0 -> completion_fn <> 0 ->
  queues_ok s L ->
  (L FiberPool = [] ->
   hd_def (allocs s) <> 0 /\ hd_def (tail (allocs s)) <> 0 /\
   heap s !! hd_def (allocs s) = None) ->
  (forall p l pr, L FiberPool = p :: l -> heap s !! p = Some pr -> stack_bottom pr <> 0) ->
  emptyContext s = None ->
  hd_def (if decide (L FiberPool = []) then tail (tail (allocs s)) else allocs s) <> 0 ->
  let t := set_LR addr_launch_new_fiber (set_SP CORTEX_M0_STACK_BASE (cpu s)) in
  exists f s1 fr1,
    create_fiber entry_fn completion_fn s = Ok f s1 /\ f <> 0 /\
    heap s1 !! f = Some fr1 /\ tcb fr1 = t /\
    emptyContext s1 = Some t /\
    SP t = CORTEX_M0_STACK_BASE /\ LR t = addr_launch_new_fiber /\
    regs t = regs (cpu s).
Proof.
  intros He Hc Hok Halloc Hstk Hec Hcache t.
  destruct (getFiberContext_record s L Hok Halloc)
    as (f & s0 & fr & Hg & Hf0 & _ & Hl & Hq & Hfl & Hok0 & _ & _ & Hal & Hfr).
  assert (stack_bottom fr <> 0) as Hsb0.
  { apply (getFiberContext_stack s L f s0 fr Hok Hg Hf0 Hl); [|exact Hstk].
    intros HL. by destruct (Halloc HL) as (? & ? & _). }
  assert (emptyContext s0 = None) as Hec0 by (by rewrite Hfr).
  assert (cpu s0 = cpu s) as Hcpu by (by rewrite Hfr).
  rewrite <- Hal in Hcache.
  destruct (create_fiber_first_state s s0 _ f fr entry_fn completion_fn
              He Hc Hg Hf0 Hl Hq Hsb0 Hok0 Hec0 Hcache)
    as (s1 & fr1 & Hrun & _ & Hl1 & _ & Hs1 & _ & Hec1 & _).
  apply strip_fields in Hs1 as (_ & _ & Htcb & _). simpl in Htcb.
  rewrite Hcpu in Htcb, Hec1.
  exists f, s1, fr1. do 5 (split; [done|]). done.
Qed.

(** X9.  [create_fiber] with a pool that holds [p] in front of [l], and the
    cached context [t].  When the record of [p] has a stack buffer, both
    overloads return [p] without calling the allocator; the record keeps
    the stack buffer it had in the pool, its flags are 0, and it is the
    head of the run queue while [l] stays in the pool.  When its
    [stack_bottom] is null, both overloads write through the null pointer:
    the stack of a pooled record is not checked. *)
Theorem create_fiber_recycles s L p l t entry_fn param completion_fn :
  entry_fn <> 0 -> completion_fn <> 0 ->
  queues_ok s L -> L FiberPool = p :: l ->
  emptyContext s = Some t ->
  let L' := upd (upd L FiberPool l) RunQueue (p :: L RunQueue) in
  exists pr,
    heap s !! p = Some pr /\
    (stack_bottom pr <> 0 ->
     (exists s1 pr1,
        create_fiber entry_fn completion_fn s = Ok p s1 /\
        heap s1 !! p = Some pr1 /\
        stack_top pr1 = stack_top pr /\ stack_bottom pr1 = stack_bottom pr /\
        flags pr1 = 0 /\ tcb pr1 = t /\
        queues_ok s1 L' /\ allocs s1 = allocs s /\ heap_log s1 = heap_log s) /\
     (exists s1 pr1,
        create_fiber_param entry_fn param completion_fn s = Ok p s1 /\
        heap s1 !! p = Some pr1 /\
        stack_top pr1 = stack_top pr /\ stack_bottom pr1 = stack_bottom pr /\
        flags pr1 = 0 /\ tcb pr1 = set_LR addr_launch_new_fiber_param t /\
        queues_ok s1 L' /\ allocs s1 = allocs s /\ heap_log s1 = heap_log s)) /\
    (stack_bottom pr = 0 ->
     create_fiber entry_fn completion_fn s = Fault /\
     create_fiber_param entry_fn param completion_fn s = Fault).
Proof.
  intros He Hc Hok HL Hec L'.
  destruct (getFiberContext_pool s L p l Hok HL)
    as (pr & Hl & Hp0 & Hpool & Hg & Hok1 & Hl1 & Hlo & Hfr).
  exists pr. split; [done|].
  split; [|intros Hnull; by apply (create_fiber_null_stack s L p l pr)].
  intros Hsb0.
  set (s0 := recycled p pr s) in *.
  assert (emptyContext s0 = Some t) as Hec0 by (by rewrite Hfr).
  assert (allocs s0 = allocs s) as Hal by (by rewrite Hfr).
  assert (heap_log s0 = heap_log s) as Hlog by (by rewrite Hfr).
  assert (upd (upd L FiberPool l) RunQueue (p :: upd L FiberPool l RunQueue) = L') as HL'.
  { unfold L'. by rewrite upd_ne. }
  split.
  - destruct (create_fiber_cached_state s s0 _ p (set_flags 0 (strip pr)) t
                entry_fn completion_fn He Hc Hg Hp0 Hl1 eq_refl Hsb0 Hok1 Hec0)
      as (s1 & pr1 & Hrun & Hok' & Hlp & _ & Hs1 & _ & _ & Hal1 & Hlog1 & _).
    apply strip_fields in Hs1 as (_ & Hfl & Htcb & Htop & Hbot). simpl in *.
    rewrite HL' in Hok'.
    exists s1, pr1. do 6 (split; [done|]). split; [done|]. split; congruence.
  - destruct (create_fiber_param_cached_state s s0 _ p (set_flags 0 (strip pr)) t
                entry_fn param completion_fn He Hc Hg Hp0 Hl1 eq_refl Hsb0 Hok1 Hec0)
      as (s1 & pr1 & Hrun & Hok' & Hlp & _ & Hs1 & _ & _ & Hal1 & Hlog1 & _).
    apply strip_fields in Hs1 as (_ & Hfl & Htcb & Htop & Hbot). simpl in *.
    rewrite HL' in Hok'.
    exists s1, pr1. do 6 (split; [done|]). split; [done|]. split; congruence.
Qed.

End CacheFurther.

(** The first creation on a board whose registers read SP = 536887192. *)
Lemma first_create_builds_cache_witness :
  exists f s1,
    create_fiber (hw := microbit) 4200 4161
      (set_emptyContext None (one_fiber 0 536887192 [1024; 12288; 16384])) = Ok f s1 /\
    emptyContext s1 = Some (mkTCB [] 536887292 4097).
Proof.
  destruct (first_create_builds_cache (hw := microbit)
              (set_emptyContext None (one_fiber 0 536887192 [1024; 12288; 16384]))
              one_fiber_queues 4200 4161)
    as (f & s1 & fr1 & H1 & _ & _ & _ & H5 & _).
  - discriminate.
  - discriminate.
  - apply (one_fiber_ok 0 536887192 [1024; 12288; 16384]).
  - intros _. vm_compute. repeat split; discriminate.
  - intros p l pr HL. discriminate HL.
  - reflexivity.
  - vm_compute. discriminate.
  - exists f, s1. split; [exact H1|exact H5].
Defined.

(** The pooled record 1024 is recycled for a new fiber. *)
Lemma create_fiber_recycles_witness :
  exists s1 pr1,
    create_fiber (hw := microbit) 4200 4161 (one_pooled []) = Ok 1024 s1 /\
    heap s1 !! 1024 = Some pr1 /\ stack_bottom pr1 = 12288 /\ flags pr1 = 0 /\
    heap_log s1 = [].
Proof.
  destruct (create_fiber_recycles (hw := microbit) (one_pooled []) one_pooled_queues
              1024 [] (mkTCB [] 536887292 4097) 4200 0 4161)
    as (pr & Hpr & Hgood & _).
  - discriminate.
  - discriminate.
  - apply one_pooled_ok.
  - reflexivity.
  - reflexivity.
  - injection Hpr as <-.
    destruct Hgood as [(s1 & pr1 & H1 & H2 & _ & H4 & H5 & _ & _ & _ & H9) _];
      [discriminate|].
    exists s1, pr1. split; [done|]. split; [done|]. split; [exact H4|]. split; done.
Defined.


(** ** Start-up *)

Section StartupFurther.
Context `{hw : Platform} `{bd : Board}.

(** The first six statements of [scheduler_init], which build the main
    fiber, when its record can be allocated. *)
Lemma scheduler_init_main r a b rest u :
  a <> 0 ->
  scheduler_init u (power_on r (a :: b :: rest)) =
    ((i <- create_fiber addr_idle_task addr_release_fiber ;; modify (set_idle i)) ;;
     (i <- gets idle ;; dequeue_fiber i) ;;
     ret (Z.lor u MICROBIT_FLAG_SCHEDULER_RUNNING)) (main_started r a b rest).
Proof.
  intros Ha. unfold scheduler_init.
  rewrite bind_assoc. erewrite bind_Ok by (by apply new_Fiber_Ok).
  repeat (first [ mstep | mstep_env ]; mnorm; rewrite ?insert_insert_eq, ?hd_def_cons).
  erewrite bind_Ok by (eapply queue_fiber_Ok; [done | heap_look | intros H; by simpl in H]).
  unfold queued, push_heap. mnorm. unfold swap_context.
  repeat (first [ mstep | mstep_env ]; mnorm; rewrite ?insert_insert_eq, ?hd_def_cons).
  rewrite (bind_assoc (create_fiber _ _)). reflexivity.
Qed.

Lemma main_started_ok r a b rest : a <> 0 -> queues_ok (main_started r a b rest) (main_only a).
Proof.
  intros Ha q. destruct q; simpl; (split; [|repeat constructor; set_solver]); try done.
  split; [done|]. split; [done|]. eexists. split; [apply lookup_insert_eq|]. done.
Qed.

(** X11.  [scheduler_init] right after power-on (every global of lines
    21-36 null or zero), when its five allocations succeed, handing out the
    main record [a], the main stack [b], the idle record [i], the idle stack
    [ib] and the cached context: the call returns with the scheduler bit set
    in [uBit.flags]; the main fiber is current and alone on the run queue,
    with flags 0, the stack buffer at [b] and the live registers; the idle
    fiber is on no queue and starts at [launch_new_fiber] on an empty stack;
    the cache holds that initial context; the sleep queue, the wait queue and
    the pool are empty. *)
Theorem scheduler_init_establishes r a b i ib e rest u :
  addr_idle_task <> 0 -> addr_release_fiber <> 0 ->
  a <> 0 -> i <> 0 -> ib <> 0 -> e <> 0 -> i <> a ->
  let t := set_LR addr_launch_new_fiber (set_SP CORTEX_M0_STACK_BASE r) in
  exists s' mr ir,
    scheduler_init u (power_on r (a :: b :: i :: ib :: e :: rest)) =
      Ok (Z.lor u MICROBIT_FLAG_SCHEDULER_RUNNING) s' /\
    currentFiber s' = a /\ idle s' = i /\
    queues_ok s' (main_only a) /\
    heap s' !! a = Some mr /\
    stack_bottom mr = b /\ stack_top mr = wrap32 (b + FIBER_STACK_SIZE) /\
    flags mr = 0 /\ tcb mr = r /\
    heap s' !! i = Some ir /\ queue ir = None /\
    stack_bottom ir = ib /\ flags ir = 0 /\ tcb ir = t /\
    emptyContext s' = Some t /\
    ticks s' = 0 /\ cpu s' = r /\ allocs s' = rest.
Proof.
  intros Hidle Hrel Ha Hi Hib He Hia t.
  set (s0 := main_started r a b (i :: ib :: e :: rest)).
  pose proof (main_started_ok r a b (i :: ib :: e :: rest) Ha) as Hok0. fold s0 in Hok0.
  assert (heap s0 !! a = Some (main_fiber r b)) as Hla0 by apply lookup_insert_eq.
  assert (heap s0 !! i = None) as Hfresh.
  { unfold s0. simpl. by rewrite lookup_insert_ne. }
  set (s1 := allocated i ib s0).
  assert (getFiberContext s0 = Ok i s1) as Hg.
  { unfold s1. by rewrite getFiberContext_fresh. }
  assert (queues_ok s1 (main_only a)) as Hok1 by (by apply queues_ok_allocated).
  assert (heap s1 !! i = Some (fresh_Fiber ib)) as Hli1 by apply lookup_insert_eq.
  destruct (create_fiber_first_state s0 s1 (main_only a) i (fresh_Fiber ib)
              addr_idle_task addr_release_fiber Hidle Hrel Hg Hi Hli1 eq_refl Hib Hok1 eq_refl)
    as (s2 & ir2 & Hrun & Hok2 & Hli2 & Hq2 & Hs2 & _ & Hec2 & Hal2 & _ & Hlo2
        & Hcpu2 & Hc2 & _ & Ht2 & _).
  { done. }
  set (s3 := set_idle i s2).
  assert (queues_ok s3 (upd (main_only a) RunQueue (i :: main_only a RunQueue))) as Hok3.
  { eapply queues_ok_same_links; [apply same_links_refl| |exact Hok2].
    intros q. by destruct q. }
  destruct (queues_ok_dequeue s3 _ RunQueue [] i [a] Hok3 (upd_eq _ _ _))
    as (ir3 & Hli3 & _ & _ & _ & Hdeq & Hok4).
  set (s4 := dequeued i RunQueue ir3 s3) in *.
  assert (ir3 = ir2) as -> by (unfold s3 in Hli3; simpl in Hli3; congruence).
  assert (links_only (heap s2) (heap s4)) as Hlo4.
  { unfold s4, dequeued. mnorm. by apply links_only_unlink. }
  pose proof (frame_queues_dequeued i RunQueue ir2 s3) as Hfr4. fold s4 in Hfr4.
  assert (exists mr, heap s4 !! a = Some mr /\ strip mr = strip (main_fiber r b))
    as (mr & Hla4 & Hsm).
  { assert ((<[i := set_tcb t (fresh_Fiber ib)]> (heap s1)) !! a = Some (main_fiber r b)) as H1.
    { rewrite lookup_insert_ne by done. unfold s1, allocated. simpl.
      rewrite lookup_insert_ne by done. exact Hla0. }
    destruct (links_only_lookup_rev _ _ _ _ Hlo2 H1) as (m2 & Hm2 & Hs).
    destruct (links_only_lookup_rev _ _ _ _ Hlo4 Hm2) as (m4 & Hm4 & Hs').
    exists m4. split; [done|]. congruence. }
  apply strip_fields in Hsm as (_ & Hmf & Hmt & Hmtop & Hmbot).
  apply strip_fields in Hs2 as (_ & Hif & Hit & _ & Hibot).
  exists s4, mr, (strip ir2). split.
  { rewrite scheduler_init_main by done. fold s0.
    rewrite bind_assoc. erewrite bind_Ok by exact Hrun.
    rewrite bind_modify. fold s3. rewrite bind_assoc, bind_gets.
    change (idle s3) with i. erewrite bind_Ok by exact Hdeq. reflexivity. }
  split; [rewrite Hfr4; simpl; by rewrite Hc2|].
  split; [by rewrite Hfr4|].
  split.
  { eapply queues_ok_ext; [|exact Hok4]. intros q. by destruct q. }
  split; [done|]. do 4 (split; [done|]).
  split; [apply unlink_heap_self|]. split; [done|].
  split; [done|]. split; [done|]. split; [done|].
  split; [rewrite Hfr4; simpl; by rewrite Hec2|].
  split; [rewrite Hfr4; simpl; by rewrite Ht2|].
  split; [rewrite Hfr4; simpl; by rewrite Hcpu2|].
  rewrite Hfr4. simpl. by rewrite Hal2.
Qed.

End StartupFurther.

Section StartupFailures.
Context `{hw : Platform} `{bd : Board}.

Lemma bind_Fault {A B} (m : M A) (k : A -> M B) s : m s = Fault -> bind m k s = Fault.
Proof. intros H. unfold bind. by rewrite H. Qed.

(** X12.  [scheduler_init] checks none of its allocations.  Right after
    power-on it dereferences a null pointer when the record of the main
    fiber cannot be allocated, and also when the record of the idle fiber,
    the stack of the idle fiber or the cached context cannot: in the first
    two of these cases [create_fiber] returns NULL and [dequeue_fiber(idle)]
    reads through it. *)
Theorem scheduler_init_out_of_memory r u :
  addr_idle_task <> 0 -> addr_release_fiber <> 0 ->
  (forall al, hd_def al = 0 -> scheduler_init u (power_on r al) = Fault) /\
  (forall a b al, a <> 0 ->
     hd_def al = 0 \/ hd_def (tail al) = 0 \/ hd_def (tail (tail al)) = 0 ->
     scheduler_init u (power_on r (a :: b :: al)) = Fault).
Proof.
  intros Hidle Hrel. split.
  - intros al Hal. unfold scheduler_init.
    rewrite bind_assoc. erewrite bind_Ok by (by apply new_Fiber_fails).
    repeat (first [ mstep | mstep_env ]; mnorm). unfold store.
    rewrite !bind_assoc. apply bind_Fault. simpl. apply load_NULL.
  - intros a b al Ha Hoom. rewrite scheduler_init_main by done.
    set (s0 := main_started r a b al).
    assert (forall s1, create_fiber addr_idle_task addr_release_fiber s0 = Ok 0 s1 ->
              ((i <- create_fiber addr_idle_task addr_release_fiber ;; modify (set_idle i)) ;;
               (i <- gets idle ;; dequeue_fiber i) ;;
               ret (Z.lor u MICROBIT_FLAG_SCHEDULER_RUNNING)) s0 = Fault) as Hnull.
    { intros s1 Hc. rewrite bind_assoc. erewrite bind_Ok by exact Hc.
      rewrite bind_modify, bind_assoc, bind_gets. simpl idle.
      apply bind_Fault. unfold dequeue_fiber. apply bind_Fault, load_NULL. }
    destruct (decide (hd_def al = 0)) as [H1|H1].
    { eapply Hnull. unfold create_fiber. rewrite decide_False by tauto.
      erewrite bind_Ok by (by apply getFiberContext_no_record).
      by rewrite decide_True. }
    destruct (decide (hd_def (tail al) = 0)) as [H2|H2].
    { eapply Hnull. unfold create_fiber. rewrite decide_False by tauto.
      erewrite bind_Ok by (by apply getFiberContext_no_stack).
      by rewrite decide_True. }
    destruct Hoom as [?|[?|H3]]; [done|done|].
    rewrite bind_assoc. apply bind_Fault.
    unfold create_fiber. rewrite decide_False by tauto.
    erewrite bind_Ok by (by apply getFiberContext_fresh).
    rewrite decide_False by done.
    repeat (first [ mstep | mstep_env ]; mnorm; rewrite ?insert_insert_eq).
    rewrite decide_True by done. reflexivity.
Qed.

End StartupFailures.

(** Power-on with registers whose SP reads 536887192; the allocator hands
    out 256, 4096, 512, 8192 and 16384. *)
Lemma scheduler_init_establishes_witness :
  exists s',
    scheduler_init (hw := microbit) (bd := microbit_board) 0
      (power_on (mkTCB [] 536887192 0) [256; 4096; 512; 8192; 16384]) = Ok 1 s' /\
    currentFiber s' = 256 /\ idle s' = 512 /\ queues_ok s' (main_only 256) /\
    emptyContext s' = Some (mkTCB [] 536887292 4097).
Proof.
  destruct (scheduler_init_establishes (hw := microbit) (bd := microbit_board)
              (mkTCB [] 536887192 0) 256 4096 512 8192 16384 [] 0)
    as (s' & mr & ir & H1 & H2 & H3 & H4 & _ & _ & _ & _ & _ & _ & _ & _ & _ & _ & H15 & _);
    [discriminate..|].
  exists s'. split; [exact H1|]. split; [exact H2|]. split; [exact H3|].
  split; [exact H4|exact H15].
Defined.

(** Power-on with no memory at all, and with memory for the main fiber
    only. *)
Lemma scheduler_init_out_of_memory_witness :
  scheduler_init (hw := microbit) (bd := microbit_board) 0
    (power_on (mkTCB [] 536887192 0) []) = Fault /\
  scheduler_init (hw := microbit) (bd := microbit_board) 0
    (power_on (mkTCB [] 536887192 0) [256; 4096]) = Fault.
Proof.
  destruct (scheduler_init_out_of_memory (hw := microbit) (bd := microbit_board)
              (mkTCB [] 536887192 0) 0) as [H1 H2]; [discriminate..|].
  split.
  - apply H1. reflexivity.
  - apply H2; [discriminate|]. left. reflexivity.
Defined.

(** ** Events *)

Section EventFurther.
Context `{hw : Platform}.

Lemma scheduler_event_walk_step fuel evt f s fr :
  f <> 0 -> heap s !! f = Some fr ->
  scheduler_event_walk (S fuel) evt f s =
    ((if event_wakes (context fr) evt
      then dequeue_fiber f ;; queue_fiber f RunQueue
      else ret tt) ;;
     scheduler_event_walk fuel evt (next fr)) s.
Proof.
  intros Hf Hl. simpl scheduler_event_walk. rewrite decide_False by done.
  by mstep.
Qed.

Lemma scheduler_event_walk_ok evt (P : Z -> bool) : forall rest kept fuel s L,
  queues_ok s L -> L WaitQueue = kept ++ rest -> (length rest <= fuel)%nat ->
  (forall g fr, heap s !! g = Some fr -> event_wakes (context fr) evt = P g) ->
  exists s',
    scheduler_event_walk fuel evt (hd_def rest) s = Ok tt s' /\
    queues_ok s'
      (upd (upd L WaitQueue (kept ++ List.filter (fun g => negb (P g)) rest))
         RunQueue (rev (List.filter P rest) ++ L RunQueue)) /\
    links_only (heap s) (heap s') /\ frame_queues s s'.
Proof.
  induction rest as [|f rest IH]; intros kept fuel s L Hok HL Hfuel HP.
  - exists s. split; [by destruct fuel|]. split.
    + eapply queues_ok_ext; [|exact Hok]. intros q. unfold upd.
      rewrite app_nil_r in HL. repeat case_decide; subst; simpl; rewrite ?app_nil_r; done.
    + split; [apply links_only_refl | apply frame_queues_refl].
  - destruct fuel as [|fuel]; [simpl in Hfuel; lia|].
    destruct (queues_ok_dequeue _ _ _ _ _ _ Hok HL)
      as (fr & Hl & Hq & Hp & Hn & Hdeq & Hok1).
    assert (f <> 0) as Hf0.
    { destruct (Hok WaitQueue) as [Hd _]. rewrite HL in Hd.
      by destruct (dll_split _ _ _ _ _ _ _ Hd). }
    rewrite hd_def_cons, (scheduler_event_walk_step _ _ _ _ _ Hf0 Hl), Hn, (HP _ _ Hl).
    destruct (P f) eqn:EP.
    + set (s1 := dequeued f WaitQueue fr s) in *.
      assert (heap s1 !! f = Some (strip fr)) as Hl1 by apply unlink_heap_self.
      destruct (queues_ok_queue s1 _ RunQueue f (strip fr) Hok1 Hf0 Hl1 eq_refl)
        as [Hq2 Hok2].
      set (s2 := queued f RunQueue (strip fr) s1) in *.
      assert (links_only (heap s) (heap s2)) as Hlo.
      { eapply links_only_trans; [by apply links_only_unlink|].
        unfold s2, queued. mnorm. by apply links_only_push. }
      assert (frame_queues s s2) as Hfr.
      { eapply frame_queues_trans;
          [apply frame_queues_dequeued | apply frame_queues_queued]. }
      destruct (IH kept fuel s2 _ Hok2) as (s' & Hrun & Hok' & Hlo' & Hfr').
      { rewrite upd_ne, upd_eq by done. done. }
      { simpl in Hfuel. lia. }
      { intros g gr Hg. destruct (links_only_lookup _ _ _ _ Hlo Hg) as (gr0 & Hg0 & Hs).
        apply strip_fields in Hs as (-> & _). by apply HP. }
      exists s'. split.
      { rewrite bind_assoc. erewrite bind_Ok by exact Hdeq.
        erewrite bind_Ok by exact Hq2. exact Hrun. }
      split.
      { eapply queues_ok_ext; [|exact Hok']. intros q. unfold upd. simpl. rewrite EP. simpl.
        repeat case_decide; subst; try done. by rewrite <- app_assoc. }
      split; [by eapply links_only_trans | by eapply frame_queues_trans].
    + destruct (IH (kept ++ [f]) fuel s L Hok) as (s' & Hrun & Hok' & Hlo' & Hfr').
      { by rewrite <- app_assoc. }
      { simpl in Hfuel. lia. }
      { done. }
      exists s'. split; [by rewrite bind_ret|]. split; [|done].
      eapply queues_ok_ext; [|exact Hok']. intros q. unfold upd. simpl. rewrite EP. simpl.
      repeat case_decide; subst; try done. by rewrite <- app_assoc.
Qed.

Lemma scheduler_event_ok s L fuel evt :
  queues_ok s L -> (length (L WaitQueue) <= fuel)%nat ->
  exists s',
    scheduler_event fuel evt s = Ok tt s' /\
    queues_ok s'
      (upd (upd L WaitQueue
              (List.filter (fun g => negb (wakes (heap s) evt g)) (L WaitQueue)))
         RunQueue
         (rev (List.filter (wakes (heap s) evt) (L WaitQueue)) ++ L RunQueue)) /\
    links_only (heap s) (heap s') /\ frame_queues s s'.
Proof.
  intros Hok Hfuel.
  destruct (scheduler_event_walk_ok evt (wakes (heap s) evt) (L WaitQueue) [] fuel s L
              Hok eq_refl Hfuel) as (s' & Hw & Hok' & Hlo & Hfr).
  { intros g fr Hg. unfold wakes. by rewrite Hg. }
  exists s'. split; [|done].
  unfold scheduler_event. mstep.
  destruct (Hok WaitQueue) as [Hd _]. simpl in Hd.
  by rewrite (dll_head _ _ _ _ _ Hd).
Qed.

(** X13.  [scheduler_event evt] on well-formed queues, given a bound on the
    walk that covers the wait queue: the call returns; exactly the waiters
    whose context word passes the dispatcher's test are moved to the run
    queue, each in front of those moved before it; the others stay on the
    wait queue in their order; the sleep queue and the pool are untouched,
    no record changes in anything but its queue linkage, and the tick
    counter, the current fiber and the idle fiber are as they were. *)
Theorem scheduler_event_moves_matching s L fuel evt :
  queues_ok s L -> (length (L WaitQueue) <= fuel)%nat ->
  exists s',
    scheduler_event fuel evt s = Ok tt s' /\
    queues_ok s'
      (upd (upd L WaitQueue
              (List.filter (fun g => negb (wakes (heap s) evt g)) (L WaitQueue)))
         RunQueue
         (rev (List.filter (wakes (heap s) evt) (L WaitQueue)) ++ L RunQueue)) /\
    links_only (heap s) (heap s') /\
    ticks s' = ticks s /\ currentFiber s' = currentFiber s /\ idle s' = idle s.
Proof.
  intros Hok Hfuel.
  destruct (scheduler_event_ok s L fuel evt Hok Hfuel) as (s' & Hrun & Hok' & Hlo & Hfr).
  exists s'. do 3 (split; [done|]). rewrite Hfr. done.
Qed.

(** X14.  The filter as coded, on a waiter parked by
    [fiber_wait_for_event id val] (both 16-bit values): [scheduler_event]
    moves it to the run queue exactly when the low eight bits of [id] are
    MICROBIT_ID_ANY or the source of the event, and MICROBIT_EVT_ANY or the
    value of the event is 0; the upper bits of [id] and the whole of [val]
    play no part.  Otherwise the waiter stays on the wait queue. *)
Theorem scheduler_event_filter s L fuel evt b br id val :
  queues_ok s L -> (length (L WaitQueue) <= fuel)%nat ->
  heap s !! b = Some br -> b ∈ L WaitQueue ->
  context br = wrap32 (Z.lor (Z.shiftl val 16) id) ->
  0 <= id < 2 ^ 16 -> 0 <= val < 2 ^ 16 ->
  exists s' L',
    scheduler_event fuel evt s = Ok tt s' /\ queues_ok s' L' /\
    if ((id mod 256 =? MICROBIT_ID_ANY) || (id mod 256 =? source evt))
       && ((0 =? MICROBIT_EVT_ANY) || (0 =? value evt))
    then b ∈ L' RunQueue else b ∈ L' WaitQueue.
Proof.
  intros Hok Hfuel Hl Hin Hctx Hid Hval.
  destruct (scheduler_event_ok s L fuel evt Hok Hfuel) as (s' & Hrun & Hok' & _).
  eexists s', _. split; [exact Hrun|]. split; [exact Hok'|].
  rewrite <- (event_wakes_packed id val evt Hid Hval), <- Hctx.
  assert (wakes (heap s) evt b = event_wakes (context br) evt) as Hw.
  { unfold wakes. by rewrite Hl. }
  rewrite <- Hw. destruct (wakes (heap s) evt b) eqn:E.
  - rewrite upd_eq. apply elem_of_app. left.
    apply list_elem_of_In. apply -> List.in_rev. apply List.filter_In.
    split; [by apply list_elem_of_In|done].
  - rewrite upd_ne, upd_eq by done.
    apply list_elem_of_In, List.filter_In. split; [by apply list_elem_of_In|].
    by rewrite E.
Qed.

End EventFurther.

Lemma one_waiter_ok ctx : queues_ok (one_waiter ctx) one_waiter_queues.
Proof.
  intros q. destruct q; simpl; (split; [|repeat constructor; set_solver]); try done.
  split; [done|]. split; [done|]. eexists. split; [reflexivity|]. done.
Qed.

(** Fiber 256 waits with the word 7 << 16 | 261; the event (5, 9) is
    delivered. *)
Lemma scheduler_event_moves_matching_witness :
  exists s',
    scheduler_event (hw := microbit) 1 (mkEvent 5 9) (one_waiter 459013) = Ok tt s' /\
    queues_ok s' (upd (upd one_waiter_queues WaitQueue []) RunQueue [256]).
Proof.
  destruct (scheduler_event_moves_matching (hw := microbit) (one_waiter 459013)
              one_waiter_queues 1 (mkEvent 5 9) (one_waiter_ok 459013))
    as (s' & H1 & H2 & _); [simpl; lia|].
  exists s'. split; [exact H1|exact H2].
Defined.

Lemma scheduler_event_filter_witness :
  exists s' L',
    scheduler_event (hw := microbit) 1 (mkEvent 5 9) (one_waiter 459013) = Ok tt s' /\
    queues_ok s' L' /\ 256 ∈ L' RunQueue.
Proof.
  destruct (scheduler_event_filter (hw := microbit) (one_waiter 459013)
              one_waiter_queues 1 (mkEvent 5 9) 256
              (mkFiber 4160 4096 (mkTCB [] 0 0) 459013 0 (Some WaitQueue) 0 0) 261 7
              (one_waiter_ok 459013))
    as (s' & L' & H1 & H2 & H3).
  - simpl. lia.
  - reflexivity.
  - simpl. set_solver.
  - reflexivity.
  - lia.
  - lia.
  - exists s', L'. split; [exact H1|]. split; [exact H2|exact H3].
Defined.


(** ** The stack buffer *)

Lemma grow_buffer_Some_ge : forall (n : nat) b d size,
  grow_buffer n b d = Some size -> d <= size.
Proof.
  induction n as [|n IH]; intros b d size; simpl;
    destruct (Z.ltb_spec b d) as [Hlt|Hge]; try done.
  - intros [= <-]. done.
  - apply IH.
  - intros [= <-]. done.
Qed.

Lemma grow_buffer_Some_range : forall (n : nat) b d size,
  0 <= b < 2 ^ 32 -> grow_buffer n b d = Some size -> 0 <= size < 2 ^ 32.
Proof.
  induction n as [|n IH]; intros b d size Hb; simpl;
    destruct (Z.ltb_spec b d) as [Hlt|Hge]; try done.
  - intros [= <-]. done.
  - apply IH, wrap32_range.
  - intros [= <-]. done.
Qed.

(** A non-empty buffer and a depth of at most 2^31 bytes: the doubling
    ends. *)
Lemma grow_buffer_ends : forall (n : nat) b d,
  0 < b -> d <= 2 ^ 31 -> d <= b * 2 ^ Z.of_nat n -> is_Some (grow_buffer n b d).
Proof.
  induction n as [|n IH]; intros b d Hb Hd Hreach.
  - simpl in *. rewrite Z.mul_1_r in Hreach.
    destruct (Z.ltb_spec b d); [lia|eauto].
  - simpl grow_buffer. destruct (Z.ltb_spec b d) as [Hlt|Hge]; [|eauto].
    rewrite Z.shiftl_mul_pow2 by lia. change (2 ^ 1) with 2.
    rewrite wrap32_small by lia. apply IH; [lia|done|].
    rewrite Nat2Z.inj_succ, Z.pow_succ_r in Hreach by lia. lia.
Qed.

Section StackFurther.
Context `{hw : Platform}.

Lemma grow_buffer_32 fr s :
  stack_depth s <= buffer_size fr \/ (0 < buffer_size fr /\ stack_depth s <= 2 ^ 31) ->
  is_Some (grow_buffer 32 (buffer_size fr) (stack_depth s)).
Proof.
  intros [Hfit|[Hb Hd]].
  - rewrite grow_buffer_ge by done. eauto.
  - apply grow_buffer_ends; [done|done|].
    change (2 ^ Z.of_nat 32) with (2 ^ 32). lia.
Qed.

(** X17.  [verify_stack_size] is idempotent: whenever it returns, the
    buffer of the fiber is at least as large as the live stack, and a second
    call changes nothing. *)
Theorem verify_stack_size_idempotent f s s' :
  verify_stack_size f s = Ok tt s' ->
  verify_stack_size f s' = Ok tt s' /\
  exists fr', heap s' !! f = Some fr' /\ stack_depth s' <= buffer_size fr'.
Proof.
  intros Hv. destruct (decide (f = 0)) as [->|Hf].
  { unfold verify_stack_size, get_MSP in Hv. rewrite bind_gets in Hv.
    unfold bind in Hv. by rewrite load_NULL in Hv. }
  destruct (heap s !! f) as [fr|] eqn:Hl.
  2:{ unfold verify_stack_size, get_MSP in Hv. rewrite bind_gets in Hv.
      unfold bind, load in Hv. rewrite decide_False, Hl in Hv by done. done. }
  set (b := wrap32 (stack_top fr - stack_bottom fr)).
  set (d := wrap32 (CORTEX_M0_STACK_BASE - SP (cpu s))).
  destruct (Z.ltb_spec b d) as [Hlt|Hge].
  - destruct (grow_buffer 32 b d) as [size|] eqn:Hg.
    + rewrite (verify_stack_size_grows f s fr size) in Hv by done.
      injection Hv as <-.
      pose proof (grow_buffer_Some_ge _ _ _ _ Hg) as Hsize.
      pose proof (grow_buffer_Some_range _ _ _ _ (wrap32_range _) Hg) as Hrange.
      set (fr' := set_stack_top (wrap32 (fst (next_alloc s) + size))
                    (set_stack_bottom (fst (next_alloc s)) fr)).
      assert (heap (regrown f fr size s) !! f = Some fr') as Hl'.
      { unfold regrown. mnorm. apply lookup_insert_eq. }
      assert (buffer_size fr' = size) as Hb'.
      { unfold buffer_size, fr', wrap32. simpl. rewrite Zminus_mod_idemp_l.
        replace (fst (next_alloc s) + size - fst (next_alloc s)) with size by ring.
        by apply Z.mod_small. }
      assert (stack_depth (regrown f fr size s) = d) as Hd' by reflexivity.
      split.
      * eapply verify_stack_size_fits; [done|exact Hl'|].
        fold (buffer_size fr'). fold (stack_depth (regrown f fr size s)). lia.
      * exists fr'. split; [done|]. lia.
    + by rewrite (verify_stack_size_hangs f s fr) in Hv.
  - rewrite (verify_stack_size_fits f s fr) in Hv by done.
    injection Hv as <-. split; [by apply (verify_stack_size_fits f s fr)|].
    exists fr. split; [done|]. unfold stack_depth, buffer_size. fold b d. lia.
Qed.

(** X18.  [verify_stack_size] does not check the result of [malloc].  When
    the buffer must grow to [size] bytes and memory is exhausted, the call
    still frees the old buffer and returns, leaving the fiber with a null
    [stack_bottom] and with [stack_top = size]. *)
Theorem verify_stack_size_unchecked_malloc f s fr (k : nat) :
  f <> 0 -> heap s !! f = Some fr ->
  buffer_size fr < stack_depth s ->
  (forall j : nat, (j < k)%nat -> buffer_size fr * 2 ^ Z.of_nat j < stack_depth s) ->
  stack_depth s <= buffer_size fr * 2 ^ Z.of_nat k ->
  buffer_size fr * 2 ^ Z.of_nat k < 2 ^ 32 ->
  hd_def (allocs s) = 0 ->
  exists s' fr',
    verify_stack_size f s = Ok tt s' /\
    heap s' !! f = Some fr' /\
    stack_bottom fr' = 0 /\ stack_top fr' = buffer_size fr * 2 ^ Z.of_nat k /\
    heap_log s' = Malloc (buffer_size fr * 2 ^ Z.of_nat k) 0
                    :: Free (stack_bottom fr) :: heap_log s.
Proof.
  intros Hf Hl Hlt Hsmall Hreach Hfit Hoom.
  set (b := buffer_size fr) in *. set (d := stack_depth s) in *.
  assert (0 <= b < 2 ^ 32) as Hb by apply wrap32_range.
  assert (grow_buffer 32 b d = Some (b * 2 ^ Z.of_nat k)) as Hg.
  { apply grow_buffer_pow; try done; [|lia].
    destruct (le_lt_dec k 32) as [|Hbig]; [done|exfalso].
    assert (d < 2 ^ 32) by apply wrap32_range.
    specialize (Hsmall 32%nat Hbig). change (2 ^ Z.of_nat 32) with (2 ^ 32) in Hsmall.
    assert (b = 0) as Hb0 by nia. rewrite Hb0 in Hreach. lia. }
  assert (fst (next_alloc s) = 0) as Ha by (by rewrite next_alloc_eq).
  exists (regrown f fr (b * 2 ^ Z.of_nat k) s). eexists.
  split; [by apply verify_stack_size_grows|].
  split; [unfold regrown; mnorm; apply lookup_insert_eq|]. simpl.
  rewrite Ha. split; [done|]. split; [|done].
  rewrite Z.add_0_l. apply wrap32_small.
  assert (0 < 2 ^ Z.of_nat k) by (apply Z.pow_pos_nonneg; lia). nia.
Qed.

End StackFurther.

(** A fiber whose 64-byte buffer must hold a stack of 100 bytes. *)
Lemma verify_stack_size_idempotent_witness :
  exists s',
    verify_stack_size (hw := microbit) 256 (one_fiber 0 536887192 [12288]) = Ok tt s' /\
    verify_stack_size (hw := microbit) 256 s' = Ok tt s'.
Proof.
  eexists. split; [vm_compute; reflexivity|].
  apply (verify_stack_size_idempotent (hw := microbit) 256 (one_fiber 0 536887192 [12288])).
  vm_compute. reflexivity.
Defined.

(** The same fiber when no memory is left. *)
Lemma verify_stack_size_unchecked_malloc_witness :
  exists s' fr',
    verify_stack_size (hw := microbit) 256 (one_fiber 0 536887192 []) = Ok tt s' /\
    heap s' !! 256 = Some fr' /\ stack_bottom fr' = 0 /\ stack_top fr' = 128.
Proof.
  destruct (verify_stack_size_unchecked_malloc (hw := microbit)
              256 (one_fiber 0 536887192 [])
              (example_fiber 4096 0 (Some RunQueue) 0 0) 1)
    as (s' & fr' & H1 & H2 & H3 & H4 & _).
  - discriminate.
  - reflexivity.
  - vm_compute. reflexivity.
  - intros j Hj. assert (j = 0%nat) as -> by lia. vm_compute. reflexivity.
  - vm_compute. discriminate.
  - vm_compute. reflexivity.
  - reflexivity.
  - exists s', fr'. split; [exact H1|]. split; [exact H2|]. split; [exact H3|exact H4].
Defined.

(** ** The scheduler *)

Section ScheduleFurther.
Context `{hw : Platform}.

(** All that a returning [verify_stack_size f] can have changed. *)
Lemma verify_stack_size_effect f s s' :
  verify_stack_size f s = Ok tt s' ->
  exists fr fr',
    f <> 0 /\ heap s !! f = Some fr /\ heap s' !! f = Some fr' /\
    fr' = set_stack_top (stack_top fr') (set_stack_bottom (stack_bottom fr') fr) /\
    stack_depth s <= buffer_size fr' /\
    (forall g, g <> f -> heap s' !! g = heap s !! g) /\
    cpu s' = cpu s /\ switch_frame s s'.
Proof.
  intros Hv. pose proof (verify_stack_size_frame _ _ _ Hv) as Hsf.
  destruct (decide (f = 0)) as [->|Hf].
  { unfold verify_stack_size, get_MSP in Hv. rewrite bind_gets in Hv.
    unfold bind in Hv. by rewrite load_NULL in Hv. }
  destruct (heap s !! f) as [fr|] eqn:Hl.
  2:{ unfold verify_stack_size, get_MSP in Hv. rewrite bind_gets in Hv.
      unfold bind, load in Hv. rewrite decide_False, Hl in Hv by done. done. }
  set (b := wrap32 (stack_top fr - stack_bottom fr)).
  set (d := wrap32 (CORTEX_M0_STACK_BASE - SP (cpu s))).
  destruct (Z.ltb_spec b d) as [Hlt|Hge].
  - destruct (grow_buffer 32 b d) as [size|] eqn:Hg.
    + rewrite (verify_stack_size_grows f s fr size) in Hv by done.
      injection Hv as <-.
      pose proof (grow_buffer_Some_ge _ _ _ _ Hg) as Hsize.
      pose proof (grow_buffer_Some_range _ _ _ _ (wrap32_range _) Hg) as Hrange.
      exists fr. eexists. split; [done|]. split; [done|].
      split; [unfold regrown; mnorm; apply lookup_insert_eq|].
      split; [reflexivity|]. split.
      { unfold buffer_size, wrap32. simpl. rewrite Zminus_mod_idemp_l.
        replace (fst (next_alloc s) + size - fst (next_alloc s)) with size by ring.
        rewrite Z.mod_small by done. exact Hsize. }
      split; [|done].
      intros g Hg'. unfold regrown. mnorm. by rewrite lookup_insert_ne.
    + by rewrite (verify_stack_size_hangs f s fr) in Hv.
  - rewrite (verify_stack_size_fits f s fr) in Hv by done.
    injection Hv as <-. exists fr, fr. split; [done|]. do 2 (split; [done|]).
    split; [by destruct fr|]. split; [exact Hge|]. done.
Qed.

(** The fiber that the round robin picks is a record of the heap. *)
Lemma selection_valid s L cr :
  queues_ok s L -> heap s !! currentFiber s = Some cr ->
  (queue cr = Some RunQueue -> currentFiber s ∈ L RunQueue) ->
  idle s <> 0 -> is_Some (heap s !! idle s) ->
  selection_rule s cr <> 0 /\ is_Some (heap s !! selection_rule s cr).
Proof.
  intros Hok Hl Hon Hi Hil. unfold selection_rule.
  destruct (Hok RunQueue) as [Hd _].
  assert (runQueue s <> 0 -> runQueue s <> 0 /\ is_Some (heap s !! runQueue s)) as Hhead.
  { intros Hnz. split; [done|].
    assert (runQueue s ∈ L RunQueue) as Hin.
    { simpl in Hd. rewrite (dll_head _ _ _ _ _ Hd) in *. by apply hd_def_elem. }
    destruct (dll_member _ _ _ _ _ _ Hd Hin) as (_ & fr & -> & _). eauto. }
  destruct (bool_decide (runQueue s = 0)) eqn:Erq; simpl; [done|].
  apply bool_decide_eq_false in Erq.
  destruct (flag_set (fiber_flags s) MICROBIT_FLAG_DATA_READ); [done|].
  destruct (bool_decide (queue cr = Some RunQueue)) eqn:Eq; [|by apply Hhead].
  apply bool_decide_eq_true in Eq.
  destruct (bool_decide (next cr = 0)) eqn:En; [by apply Hhead|].
  apply bool_decide_eq_false in En. split; [done|].
  destruct (list_elem_of_split _ _ (Hon Eq)) as (l1 & l2 & HL).
  rewrite HL in Hd.
  destruct (dll_split _ _ _ _ _ _ _ Hd) as (_ & fr & Hlf & _ & _ & Hn).
  assert (fr = cr) as -> by congruence.
  assert (next cr ∈ l1 ++ currentFiber s :: l2) as Hin.
  { apply elem_of_app. right. apply elem_of_cons. right.
    rewrite Hn. apply hd_def_elem. congruence. }
  destruct (dll_member _ _ _ _ _ _ Hd Hin) as (_ & nr & -> & _). eauto.
Qed.

(** [schedule] outside fork-on-block context, from a well-formed state: the
    state it ends in. *)
Lemma schedule_normal_run s L cr :
  queues_ok s L ->
  currentFiber s <> 0 -> heap s !! currentFiber s = Some cr ->
  flag_set (flags cr) MICROBIT_FIBER_FLAG_FOB = false ->
  (queue cr = Some RunQueue -> currentFiber s ∈ L RunQueue) ->
  idle s <> 0 -> is_Some (heap s !! idle s) ->
  stack_depth s <= buffer_size cr \/ (0 < buffer_size cr /\ stack_depth s <= 2 ^ 31) ->
  let c := currentFiber s in
  let n := selection_rule s cr in
  (n = c -> schedule s = Ok Returns s) /\
  (n <> c ->
   exists s2 cr2 nr,
     verify_stack_size c (set_currentFiber n s) = Ok tt s2 /\
     heap s2 !! c = Some cr2 /\ heap s !! n = Some nr /\
     schedule s = Ok Switched (switched c cr2 nr s2)).
Proof.
  intros Hok Hc Hl Hfob Hon Hi Hil Hstack c n.
  destruct (selection_valid s L cr Hok Hl Hon Hi Hil) as [Hn0 [nr Hnl]].
  fold n in Hn0, Hnl.
  pose proof (schedule_normal s cr Hc Hl Hfob) as Hs.
  pose proof (schedule_pick_Ok s cr Hc Hl) as Hp. fold n in Hp.
  split.
  - intros E. rewrite Hs. erewrite bind_Ok by exact Hp. rewrite E.
    replace (set_currentFiber c s) with s by (by destruct s).
    by apply schedule_switch_same.
  - intros Hne. set (s1 := set_currentFiber n s).
    destruct (verify_stack_size_total c s1 cr Hc Hl) as (s2 & Hv).
    { by apply grow_buffer_32. }
    destruct (verify_stack_size_effect _ _ _ Hv)
      as (fr & cr2 & _ & _ & Hl2 & _ & _ & Hoth & _).
    exists s2, cr2, nr. split; [done|]. split; [done|]. split; [done|].
    rewrite Hs. erewrite bind_Ok by exact Hp. fold s1.
    apply (schedule_switch_Ok c s1 s2 cr2 nr); try done.
    simpl. rewrite Hoth by done. exact Hnl.
Qed.

(** X19.  [schedule] outside fork-on-block context never faults on a
    well-formed state: when the current fiber and the idle fiber are records
    of the heap, the queues are well-formed and the stack of the current
    fiber fits its buffer or can be made to (a non-empty buffer and a depth
    of at most 2^31 bytes), the call ends with the fiber of the selection
    rule as [currentFiber]; it returns to its caller when that is the fiber
    it was called from, and has switched to the other fiber otherwise; the
    queues hold what they held. *)
Theorem schedule_returns s L cr :
  queues_ok s L ->
  currentFiber s <> 0 -> heap s !! currentFiber s = Some cr ->
  flag_set (flags cr) MICROBIT_FIBER_FLAG_FOB = false ->
  (queue cr = Some RunQueue -> currentFiber s ∈ L RunQueue) ->
  idle s <> 0 -> is_Some (heap s !! idle s) ->
  stack_depth s <= buffer_size cr \/ (0 < buffer_size cr /\ stack_depth s <= 2 ^ 31) ->
  exists k s',
    schedule s = Ok k s' /\
    currentFiber s' = selection_rule s cr /\
    k = (if decide (selection_rule s cr = currentFiber s) then Returns else Switched) /\
    queues_ok s' L.
Proof.
  intros Hok Hc Hl Hfob Hon Hi Hil Hstack.
  destruct (schedule_normal_run s L cr Hok Hc Hl Hfob Hon Hi Hil Hstack) as [Hsame Hsw].
  destruct (decide (selection_rule s cr = currentFiber s)) as [E|Hne].
  - exists Returns, s. split; [by apply Hsame|]. split; [done|]. split; done.
  - destruct (Hsw Hne) as (s2 & cr2 & nr & Hv & Hl2 & Hnl & Hs).
    eexists _, _. split; [exact Hs|].
    pose proof (schedule_keeps _ _ _ Hs) as Hk.
    apply verify_stack_size_frame in Hv as [_ E2].
    split; [unfold switched; simpl; by rewrite E2|]. split; [done|].
    by eapply same_queues_ok.
Qed.

(** [schedule] when the round robin picks another fiber: what the switch
    does. *)
Lemma schedule_switch_run s L cr :
  queues_ok s L ->
  currentFiber s <> 0 -> heap s !! currentFiber s = Some cr ->
  flag_set (flags cr) MICROBIT_FIBER_FLAG_FOB = false ->
  (queue cr = Some RunQueue -> currentFiber s ∈ L RunQueue) ->
  idle s <> 0 -> is_Some (heap s !! idle s) ->
  stack_depth s <= buffer_size cr \/ (0 < buffer_size cr /\ stack_depth s <= 2 ^ 31) ->
  let c := currentFiber s in
  let n := selection_rule s cr in
  n <> c ->
  exists s' cr' nr,
    schedule s = Ok Switched s' /\
    currentFiber s' = n /\
    heap s !! n = Some nr /\ cpu s' = tcb nr /\
    heap s' !! c = Some cr' /\ tcb cr' = cpu s /\
    stack_depth s <= buffer_size cr' /\
    forall g, g <> c -> heap s' !! g = heap s !! g.
Proof.
  intros Hok Hc Hl Hfob Hon Hi Hil Hstack c n Hne.
  destruct (schedule_normal_run s L cr Hok Hc Hl Hfob Hon Hi Hil Hstack) as [_ Hsw].
  destruct (Hsw Hne) as (s2 & cr2 & nr & Hv & Hl2 & Hnl & Hs).
  destruct (verify_stack_size_effect _ _ _ Hv)
    as (fr & cr2' & _ & _ & Hl2' & _ & Hfit & Hoth & Hcpu & [_ E2]).
  assert (cr2' = cr2) as -> by congruence.
  exists (switched c cr2 nr s2), (set_tcb (cpu s2) cr2), nr.
  split; [exact Hs|]. split; [unfold switched; simpl; by rewrite E2|].
  split; [done|]. split; [done|].
  split; [unfold switched; simpl; apply lookup_insert_eq|].
  split; [simpl; by rewrite Hcpu|]. split; [exact Hfit|].
  intros g Hg. unfold switched. simpl. rewrite lookup_insert_ne by done.
  by rewrite Hoth.
Qed.

(** X20.  The context switch.  When the round robin picks a fiber [n] other
    than the calling fiber [c], [schedule] saves the live registers in the
    record of [c], whose buffer is then large enough for the live stack, and
    loads the registers saved in the record of [n]; no other record
    changes. *)
Theorem schedule_switches_context s L cr :
  queues_ok s L ->
  currentFiber s <> 0 -> heap s !! currentFiber s = Some cr ->
  flag_set (flags cr) MICROBIT_FIBER_FLAG_FOB = false ->
  (queue cr = Some RunQueue -> currentFiber s ∈ L RunQueue) ->
  idle s <> 0 -> is_Some (heap s !! idle s) ->
  stack_depth s <= buffer_size cr \/ (0 < buffer_size cr /\ stack_depth s <= 2 ^ 31) ->
  let c := currentFiber s in
  let n := selection_rule s cr in
  n <> c ->
  exists s' cr' nr,
    schedule s = Ok Switched s' /\
    currentFiber s' = n /\
    heap s !! n = Some nr /\ cpu s' = tcb nr /\
    heap s' !! c = Some cr' /\ tcb cr' = cpu s /\
    stack_depth s <= buffer_size cr' /\
    forall g, g <> c -> heap s' !! g = heap s !! g.
Proof. apply schedule_switch_run. Qed.

(** X21.  Whatever path [schedule] takes, a call that ends leaves every
    fiber on the queue it was on, in the same place: the four queue heads,
    the queue pointer, the links and the context word of every record, the
    tick counter and the idle fiber are unchanged, and no flag of any record
    is cleared. *)
Theorem schedule_preserves_queues s k s' :
  schedule s = Ok k s' ->
  same_queues s s' /\ flags_grow s s' /\
  forall L, queues_ok s L -> queues_ok s' L.
Proof.
  intros Hs. pose proof (schedule_keeps _ _ _ Hs) as Hk.
  split; [done|]. split; [by apply (schedule_flags_grow s k s')|].
  intros L. by apply same_queues_ok.
Qed.

End ScheduleFurther.

Section ForkScheduleFurther.
Context `{hw : Platform}.

(** X22.  [schedule] in fork-on-block context, with a forked record [f]
    other than the current fiber: no fiber is picked.  The forked record
    receives the live registers, so that the blocked call goes on in it once
    it is woken, and the CHILD flag; its buffer is made large enough for the
    live stack; the current fiber gets the PARENT flag and the processor is
    set back to the registers saved in its record, the snapshot taken by
    [fork_on_block].  Every fiber stays on its queue. *)
Theorem schedule_forks s cr f fr :
  MICROBIT_FIBER_FLAG_PARENT <> 0 ->
  currentFiber s <> 0 -> heap s !! currentFiber s = Some cr ->
  flag_set (flags cr) MICROBIT_FIBER_FLAG_FOB = true ->
  forkedFiber s = f -> f <> 0 -> f <> currentFiber s -> heap s !! f = Some fr ->
  stack_depth s <= buffer_size fr \/ (0 < buffer_size fr /\ stack_depth s <= 2 ^ 31) ->
  exists s' cr' fr',
    schedule s = Ok Resumes_at_snapshot s' /\
    currentFiber s' = currentFiber s /\ cpu s' = tcb cr /\
    heap s' !! currentFiber s = Some cr' /\
    flags cr' = flag_or MICROBIT_FIBER_FLAG_PARENT (flags cr) /\ tcb cr' = tcb cr /\
    heap s' !! f = Some fr' /\
    flags fr' = flag_or MICROBIT_FIBER_FLAG_CHILD (flags fr) /\ tcb fr' = cpu s /\
    stack_depth s <= buffer_size fr' /\
    same_queues s s'.
Proof.
  intros HP Hc Hl Hfob Hff Hf Hne Hlf Hstack.
  destruct (verify_stack_size_total f s fr Hf Hlf (grow_buffer_32 fr s Hstack)) as (s1 & Hv).
  destruct (verify_stack_size_effect _ _ _ Hv)
    as (fr0 & fr1 & _ & Hlf0 & Hlf1 & Hfr1 & Hfit & Hoth & Hcpu & Hsf).
  assert (fr0 = fr) as -> by congruence.
  assert (heap s1 !! currentFiber s = Some cr) as Hl1 by (rewrite Hoth; done).
  assert (currentFiber s1 = currentFiber s) as Hc1 by (destruct Hsf as [_ ->]; done).
  assert (forkedFiber s1 = f) as Hff1 by (destruct Hsf as [_ ->]; done).
  set (cr2 := set_flags (flag_or MICROBIT_FIBER_FLAG_PARENT (flags cr)) cr).
  set (fr2 := set_tcb (cpu s1) (set_flags (flag_or MICROBIT_FIBER_FLAG_CHILD (flags fr1)) fr1)).
  assert (schedule s = Ok Resumes_at_snapshot
            (set_cpu (tcb cr2)
               (set_heap (<[f := fr2]> (<[currentFiber s := cr2]> (heap s1))) s1))) as Hs.
  { unfold schedule. do 2 mstep. rewrite Hfob. rewrite bind_assoc, bind_gets, Hff.
    erewrite bind_Ok by exact Hv. rewrite bind_assoc, bind_gets, Hc1.
    mstep. mnorm. rewrite bind_assoc, bind_gets. simpl forkedFiber. rewrite Hff1.
    mstep. mnorm. rewrite bind_assoc, bind_gets. simpl forkedFiber. rewrite Hff1.
    rewrite bind_assoc. mstep. unfold save_context. rewrite bind_assoc, bind_gets.
    mstep. mnorm. rewrite insert_insert_eq.
    unfold schedule_after_save. rewrite bind_gets. simpl currentFiber. rewrite Hc1.
    mstep. cbn [flags set_flags]. rewrite (flag_or_self _ _ HP).
    unfold restore_register_context. rewrite bind_assoc. mstep.
    reflexivity. }
  eexists _, cr2, fr2. split; [exact Hs|]. split; [simpl; done|].
  split; [reflexivity|].
  split; [simpl; by rewrite lookup_insert_ne, lookup_insert_eq|].
  split; [reflexivity|]. split; [reflexivity|].
  split; [simpl; by rewrite lookup_insert_eq|].
  split; [simpl; rewrite Hfr1; reflexivity|].
  split; [simpl; exact Hcpu|]. split; [exact Hfit|].
  by apply (schedule_keeps s Resumes_at_snapshot).
Qed.

End ForkScheduleFurther.

Lemma two_fibers_ok sp al : queues_ok (two_fibers sp al) two_fibers_queues.
Proof.
  intros q. destruct q; simpl;
    (split; [|by apply (bool_decide_unpack _); vm_compute]); try done.
  split; [done|]. split; [done|]. eexists. split; [reflexivity|]. simpl.
  do 2 (split; [done|]). split; [done|]. split; [done|].
  eexists. split; [reflexivity|]. done.
Qed.

(** Fiber 256 yields to fiber 768. *)
Lemma schedule_returns_witness :
  exists s',
    schedule (hw := microbit) (two_fibers 536887260 []) = Ok Switched s' /\
    currentFiber s' = 768 /\ queues_ok s' two_fibers_queues.
Proof.
  destruct (schedule_returns (hw := microbit) (two_fibers 536887260 []) two_fibers_queues
              (example_fiber 4096 0 (Some RunQueue) 768 0) (two_fibers_ok 536887260 []))
    as (k & s' & H1 & H2 & H3 & H4).
  - discriminate.
  - reflexivity.
  - reflexivity.
  - intros _. vm_compute. set_solver.
  - discriminate.
  - vm_compute. eauto.
  - left. vm_compute. discriminate.
  - exists s'. rewrite H3 in H1. split; [exact H1|]. split; [exact H2|exact H4].
Defined.

Lemma schedule_switches_context_witness :
  exists s' cr',
    schedule (hw := microbit) (two_fibers 536887260 []) = Ok Switched s' /\
    cpu s' = mkTCB [] 0 0 /\
    heap s' !! 256 = Some cr' /\ tcb cr' = mkTCB [] 536887260 0.
Proof.
  destruct (schedule_switches_context (hw := microbit) (two_fibers 536887260 [])
              two_fibers_queues (example_fiber 4096 0 (Some RunQueue) 768 0)
              (two_fibers_ok 536887260 []))
    as (s' & cr' & nr & H1 & _ & H3 & H4 & H5 & H6 & _).
  - discriminate.
  - reflexivity.
  - reflexivity.
  - intros _. vm_compute. set_solver.
  - discriminate.
  - vm_compute. eauto.
  - left. vm_compute. discriminate.
  - vm_compute. discriminate.
  - exists s', cr'. split; [exact H1|]. split; [|split; [exact H5|exact H6]].
    rewrite H4. vm_compute in H3. by injection H3 as <-.
Defined.

Lemma schedule_preserves_queues_witness :
  exists s',
    schedule (hw := microbit) (two_fibers 536887260 []) = Ok Switched s' /\
    queues_ok s' two_fibers_queues.
Proof.
  eexists. split; [vm_compute; reflexivity|].
  refine (proj2 (proj2 (schedule_preserves_queues (hw := microbit)
                          (two_fibers 536887260 []) Switched _ _)) _ (two_fibers_ok _ _)).
  vm_compute. reflexivity.
Defined.

(** Fiber 256 runs a handler in fork-on-block context; the record 1024 has
    just been parked for it. *)
Lemma schedule_forks_witness :
  let s := set_forkedFiber 1024
             (example_state
                (<[1024 := example_fiber 12288 0 (Some SleepQueue) 0 0]>
                   (<[256 := example_fiber 4096 1 (Some RunQueue) 0 0]> ∅))
                256 256 1024 0 0 536887260 []) in
  exists s' fr',
    schedule (hw := microbit) s = Ok Resumes_at_snapshot s' /\
    heap s' !! 1024 = Some fr' /\ flags fr' = 4 /\ tcb fr' = mkTCB [] 536887260 0.
Proof.
  intros s.
  destruct (schedule_forks (hw := microbit) s (example_fiber 4096 1 (Some RunQueue) 0 0)
              1024 (example_fiber 12288 0 (Some SleepQueue) 0 0))
    as (s' & cr' & fr' & H1 & _ & _ & _ & _ & _ & H7 & H8 & H9 & _).
  - discriminate.
  - discriminate.
  - reflexivity.
  - reflexivity.
  - reflexivity.
  - discriminate.
  - discriminate.
  - reflexivity.
  - left. vm_compute. discriminate.
  - exists s', fr'. split; [exact H1|]. split; [exact H7|]. split; [exact H8|exact H9].
Defined.

(** ** Nested fork on block *)

Section NestedFurther.
Context `{hw : Platform}.

(** X23.  [fork_on_block] called while the current fiber is already in
    fork-on-block context (its FOB flag is set) runs nothing directly: it
    creates a fiber for the handler and returns.  When a record can be had
    (with a stack buffer, should it come from the pool) and the cached
    context exists, the new fiber is the head of the run queue and the
    caller keeps its flags (FOB stays set) and its saved registers: no
    snapshot is taken.  When the pool is empty and memory is
    exhausted, the call returns all the same, with every record and every
    queue head as before: the handler is dropped. *)
Theorem fork_on_block_nested s L cr t entry_fn param :
  entry_fn <> 0 -> addr_release_fiber <> 0 -> addr_release_fiber_param <> 0 ->
  queues_ok s L ->
  currentFiber s <> 0 -> heap s !! currentFiber s = Some cr ->
  flag_set (flags cr) MICROBIT_FIBER_FLAG_FOB = true ->
  currentFiber s ∉ L FiberPool ->
  let c := currentFiber s in
  ((L FiberPool = [] ->
    hd_def (allocs s) <> 0 /\ hd_def (tail (allocs s)) <> 0 /\
    heap s !! hd_def (allocs s) = None) ->
   (forall p l pr, L FiberPool = p :: l -> heap s !! p = Some pr -> stack_bottom pr <> 0) ->
   emptyContext s = Some t ->
   let f := if decide (L FiberPool = []) then hd_def (allocs s) else fiberPool s in
   let L' := upd (upd L FiberPool (tail (L FiberPool))) RunQueue (f :: L RunQueue) in
   f <> 0 /\ f <> c /\
   (exists s1 cr1,
      fork_on_block entry_fn s = Ok Exits s1 /\
      currentFiber s1 = c /\ queues_ok s1 L' /\
      heap s1 !! c = Some cr1 /\ flags cr1 = flags cr /\ tcb cr1 = tcb cr) /\
   (exists s1 cr1,
      fork_on_block_param entry_fn param s = Ok Exits s1 /\
      currentFiber s1 = c /\ queues_ok s1 L' /\
      heap s1 !! c = Some cr1 /\ flags cr1 = flags cr /\ tcb cr1 = tcb cr)) /\
  (fiberPool s = 0 ->
   (hd_def (allocs s) = 0 \/ hd_def (tail (allocs s)) = 0) ->
   (hd_def (allocs s) <> 0 -> heap s !! hd_def (allocs s) = None) ->
   exists s',
     fork_on_block entry_fn s = Ok Exits s' /\
     fork_on_block_param entry_fn param s = Ok Exits s' /\
     heap s' = heap s /\ forall q, queue_head q s' = queue_head q s).
Proof.
  intros He Hrel Hrelp Hok Hc Hl Hfob Hpool c.
  assert (fork_on_block entry_fn s =
            (create_fiber entry_fn addr_release_fiber ;; ret Exits) s) as Hfb.
  { unfold fork_on_block. rewrite decide_False by done. do 2 mstep. by rewrite Hfob. }
  assert (fork_on_block_param entry_fn param s =
            (create_fiber_param entry_fn param addr_release_fiber_param ;; ret Exits) s)
    as Hfbp.
  { unfold fork_on_block_param. rewrite decide_False by done. do 2 mstep. by rewrite Hfob. }
  split.
  - intros Halloc Hstk Hec f L'.
    destruct (getFiberContext_record s L Hok Halloc)
      as (f0 & s0 & fr & Hg & Hf0 & Hf & Hl0 & Hq0 & _ & Hok0 & Hoth & Hwhere & _ & Hfr).
    assert (stack_bottom fr <> 0) as Hsb0.
    { apply (getFiberContext_stack s L f0 s0 fr Hok Hg Hf0 Hl0); [|exact Hstk].
      intros HL. by destruct (Halloc HL) as (? & ? & _). }
    fold f in Hf. subst f0.
    assert (f <> c) as Hne.
    { intros ->. destruct Hwhere as [Hin|Hnone]; [done|]. unfold c in Hnone. congruence. }
    assert (emptyContext s0 = Some t) as Hec0 by (by rewrite Hfr).
    assert (currentFiber s0 = c) as Hc0 by (by rewrite Hfr).
    assert (upd (upd L FiberPool (tail (L FiberPool))) RunQueue
              (f :: upd L FiberPool (tail (L FiberPool)) RunQueue) = L') as HL'.
    { unfold L'. by rewrite upd_ne. }
    assert (forall X h', links_only (<[f := X]> (heap s0)) h' ->
              exists cr1, h' !! c = Some cr1 /\ flags cr1 = flags cr /\ tcb cr1 = tcb cr)
      as Hkeep.
    { intros X h' Hlo.
      specialize (Hoth c ltac:(congruence)). unfold c in Hoth. rewrite Hl in Hoth.
      destruct (heap s0 !! currentFiber s) as [cr0|] eqn:Hl0c; simpl in Hoth; [|done].
      assert (strip cr0 = strip cr) as Hs0 by congruence.
      assert ((<[f := X]> (heap s0)) !! c = Some cr0) as Hl0c'.
      { rewrite lookup_insert_ne by done. exact Hl0c. }
      destruct (links_only_lookup_rev _ _ _ _ Hlo Hl0c') as (cr1 & Hl1 & Hs1).
      exists cr1. split; [done|].
      apply strip_fields in Hs1 as (_ & Hf1 & Ht1 & _).
      apply strip_fields in Hs0 as (_ & Hf0' & Ht0 & _). split; congruence. }
    split; [done|]. split; [done|]. split.
    + destruct (create_fiber_cached_state s s0 _ f fr t entry_fn addr_release_fiber
                  He Hrel Hg Hf0 Hl0 Hq0 Hsb0 Hok0 Hec0)
        as (s1 & fr1 & Hrun & Hok1 & _ & _ & _ & _ & _ & _ & _ & Hlo & Hc1).
      destruct (Hkeep _ _ Hlo) as (cr1 & Hl1 & Hfl & Htcb).
      exists s1, cr1. split.
      { rewrite Hfb. by erewrite bind_Ok by exact Hrun. }
      split; [congruence|]. split; [by rewrite <- HL'|]. done.
    + destruct (create_fiber_param_cached_state s s0 _ f fr t entry_fn param
                  addr_release_fiber_param He Hrelp Hg Hf0 Hl0 Hq0 Hsb0 Hok0 Hec0)
        as (s1 & fr1 & Hrun & Hok1 & _ & _ & _ & _ & _ & _ & _ & Hlo & Hc1).
      destruct (Hkeep _ _ Hlo) as (cr1 & Hl1 & Hfl & Htcb).
      exists s1, cr1. split.
      { rewrite Hfbp. by erewrite bind_Ok by exact Hrun. }
      split; [congruence|]. split; [by rewrite <- HL'|]. done.
  - intros Hp0 Hoom Hfresh.
    destruct (getFiberContext_out_of_memory s Hp0 Hoom Hfresh)
      as (s1 & Hg & Hheap & Hp1 & Hfr).
    exists s1. rewrite Hfb, Hfbp. unfold create_fiber, create_fiber_param.
    rewrite !decide_False by tauto.
    rewrite !bind_assoc. rewrite !(bind_Ok _ _ _ _ _ Hg).
    rewrite !decide_True by done. do 3 (split; [done|]).
    intros q. destruct q; simpl; [by rewrite Hfr..|congruence].
Qed.

End NestedFurther.

(** Fiber 256 is inside a handler run by [fork_on_block] and calls
    [fork_on_block] again. *)
Lemma fork_on_block_nested_witness :
  (exists s1 cr1,
     fork_on_block (hw := microbit) 4200 (one_fiber 1 536887192 [1024; 12288])
       = Ok Exits s1 /\
     heap s1 !! 256 = Some cr1 /\ flags cr1 = 1) /\
  (exists s',
     fork_on_block (hw := microbit) 4200 (one_fiber 1 536887192 []) = Ok Exits s' /\
     heap s' = heap (one_fiber 1 536887192 [])).
Proof.
  split.
  - destruct (proj1 (fork_on_block_nested (hw := microbit)
                       (one_fiber 1 536887192 [1024; 12288]) one_fiber_queues
                       (example_fiber 4096 1 (Some RunQueue) 0 0)
                       (mkTCB [] 536887292 4097) 4200 0
                       ltac:(discriminate) ltac:(discriminate) ltac:(discriminate)
                       (one_fiber_ok 1 536887192 [1024; 12288])
                       ltac:(discriminate) eq_refl eq_refl ltac:(vm_compute; set_solver)))
      as (_ & _ & (s1 & cr1 & H1 & _ & _ & H4 & H5 & _) & _).
    + intros _. vm_compute. repeat split; discriminate.
    + intros p l pr HL. discriminate HL.
    + reflexivity.
    + exists s1, cr1. split; [exact H1|]. split; [exact H4|exact H5].
  - destruct (proj2 (fork_on_block_nested (hw := microbit)
                       (one_fiber 1 536887192 []) one_fiber_queues
                       (example_fiber 4096 1 (Some RunQueue) 0 0)
                       (mkTCB [] 536887292 4097) 4200 0
                       ltac:(discriminate) ltac:(discriminate) ltac:(discriminate)
                       (one_fiber_ok 1 536887192 [])
                       ltac:(discriminate) eq_refl eq_refl ltac:(vm_compute; set_solver)))
      as (s' & H1 & _ & H3 & _).
    + reflexivity.
    + by left.
    + intros H. by vm_compute in H.
    + exists s'. split; [exact H1|exact H3].
Defined.

(** ** Calls that give up the processor *)

Section SwitchAwayFurther.
Context `{hw : Platform}.

(** [schedule] called by a fiber [c] that has just left the run queue:
    another fiber gets the processor. *)
Lemma schedule_parked s L cr :
  queues_ok s L ->
  currentFiber s <> 0 -> heap s !! currentFiber s = Some cr ->
  flag_set (flags cr) MICROBIT_FIBER_FLAG_FOB = false ->
  queue cr <> Some RunQueue -> currentFiber s ∉ L RunQueue ->
  idle s <> 0 -> idle s <> currentFiber s -> is_Some (heap s !! idle s) ->
  stack_depth s <= buffer_size cr \/ (0 < buffer_size cr /\ stack_depth s <= 2 ^ 31) ->
  exists s' cr' nr,
    schedule s = Ok Switched s' /\
    currentFiber s' <> currentFiber s /\
    currentFiber s' =
      (if bool_decide (runQueue s = 0) || flag_set (fiber_flags s) MICROBIT_FLAG_DATA_READ
       then idle s else runQueue s) /\
    same_queues s s' /\
    heap s !! currentFiber s' = Some nr /\ cpu s' = tcb nr /\
    heap s' !! currentFiber s = Some cr' /\ tcb cr' = cpu s /\
    (forall g, g <> currentFiber s -> heap s' !! g = heap s !! g) /\
    idle s' = idle s /\ fiber_flags s' = fiber_flags s.
Proof.
  intros Hok Hc Hl Hfob Hq Hnin Hi Hic Hil Hstack.
  assert (selection_rule s cr =
          (if bool_decide (runQueue s = 0) || flag_set (fiber_flags s) MICROBIT_FLAG_DATA_READ
           then idle s else runQueue s)) as Hsel.
  { unfold selection_rule. by rewrite (bool_decide_eq_false_2 _ Hq). }
  assert (selection_rule s cr <> currentFiber s) as Hne.
  { rewrite Hsel.
    destruct (bool_decide (runQueue s = 0)) eqn:Erq; simpl; [done|].
    destruct (flag_set (fiber_flags s) MICROBIT_FLAG_DATA_READ); [done|].
    apply bool_decide_eq_false in Erq. intros E. apply Hnin. rewrite <- E.
    destruct (Hok RunQueue) as [Hd _]. simpl in Hd.
    rewrite (dll_head _ _ _ _ _ Hd) in *. by apply hd_def_elem. }
  destruct (schedule_switch_run s L cr Hok Hc Hl Hfob) as
    (s' & cr' & nr & Hs & Hcur & Hnl & Hcpu & Hl' & Htcb & _ & Hoth); try done.
  pose proof (schedule_keeps _ _ _ Hs) as Hk.
  destruct (schedule_normal_frame s cr Switched s' Hc Hl Hfob Hs) as [_ Hrest].
  exists s', cr', nr. split; [exact Hs|].
  split; [by rewrite Hcur|]. split; [by rewrite Hcur|]. split; [done|].
  split; [by rewrite Hcur|]. do 4 (split; [done|]).
  split; by rewrite Hrest.
Qed.

(** [release_fiber] outside fork-on-block context, to its end. *)
Lemma release_run s L cr :
  queues_ok s L ->
  currentFiber s <> 0 -> heap s !! currentFiber s = Some cr ->
  flag_set (flags cr) MICROBIT_FIBER_FLAG_FOB = false ->
  (forall q, queue cr = Some q -> currentFiber s ∈ L q) ->
  idle s <> 0 -> idle s <> currentFiber s -> is_Some (heap s !! idle s) ->
  stack_depth s <= buffer_size cr \/ (0 < buffer_size cr /\ stack_depth s <= 2 ^ 31) ->
  let c := currentFiber s in
  let L1 := upd (fun q => without c (L q)) FiberPool (c :: without c (L FiberPool)) in
  exists s',
    release_fiber s = Ok Switched s' /\
    currentFiber s' <> c /\ currentFiber s' = next_up s (L1 RunQueue) /\
    fiberPool s' = c /\ queues_ok s' L1.
Proof.
  intros Hok Hc Hl Hfob Hon Hi Hic Hil Hstack c L1.
  destruct (move_fiber s L c cr FiberPool Hok Hc Hl Hon)
    as (s1 & cr1 & Hmv & Hok1 & Hl1 & Hq1 & Hs1 & Hlo & Hfr).
  fold L1 in Hok1.
  assert (release_fiber s = schedule s1) as Hrel.
  { destruct (dequeue_fiber_any s L c cr Hok Hc Hl Hon)
      as (s0 & _ & Hd & _ & _ & _ & _ & _ & Hf0).
    assert (queue_fiber c FiberPool s0 = Ok tt s1) as Hq.
    { unfold bind in Hmv. by rewrite Hd in Hmv. }
    assert (currentFiber s0 = c) as Hc0 by (by rewrite Hf0).
    unfold release_fiber. rewrite bind_assoc, bind_gets. fold c.
    erewrite bind_Ok by exact Hd. rewrite bind_assoc, bind_gets, Hc0.
    by erewrite bind_Ok by exact Hq. }
  assert (currentFiber s1 = c) as Hc1 by (by rewrite Hfr).
  assert (idle s1 = idle s) as Hi1 by (by rewrite Hfr).
  assert (cpu s1 = cpu s) as Hcpu by (by rewrite Hfr).
  assert (fiber_flags s1 = fiber_flags s) as Hff by (by rewrite Hfr).
  apply strip_fields in Hs1 as (_ & Hfl & _ & Htop & Hbot).
  assert (runQueue s1 = hd_def (L1 RunQueue)) as Hrq.
  { destruct (Hok1 RunQueue) as [Hd _]. by apply dll_head in Hd. }
  assert (c ∉ L1 RunQueue) as Hnin.
  { unfold L1. rewrite upd_ne by done. unfold without. intros Hin.
    apply list_elem_of_In, List.filter_In in Hin as [_ Hin].
    by rewrite Z.eqb_refl in Hin. }
  destruct (schedule_parked s1 L1 cr1) as (s' & _ & _ & Hs & Hne & Hcur & Hk & _); try done.
  - by rewrite Hc1.
  - by rewrite Hc1.
  - by rewrite Hfl.
  - by rewrite Hq1.
  - by rewrite Hc1.
  - by rewrite Hi1.
  - by rewrite Hi1, Hc1.
  - destruct Hil as [ir Hir]. rewrite Hi1.
    destruct (links_only_lookup_rev _ _ _ _ Hlo Hir) as (ir' & -> & _). eauto.
  - unfold stack_depth, buffer_size in *. by rewrite Hcpu, Htop, Hbot.
  - exists s'. split; [by rewrite Hrel|]. split; [by rewrite <- Hc1|].
    split; [unfold next_up; by rewrite Hcur, Hrq, Hff, Hi1|].
    split; [|by eapply same_queues_ok].
    destruct Hk as (_ & Hh & _). specialize (Hh FiberPool). simpl in Hh. rewrite Hh.
    destruct (Hok1 FiberPool) as [Hd _]. unfold L1 in Hd. rewrite upd_eq in Hd.
    destruct Hd as (Hd & _). exact Hd.
Qed.

(** A blocking primitive [blk] outside fork-on-block context, to its end:
    the caller is parked on [Q] with the wake condition [v]. *)
Lemma blocking_run (blk : M control) s L cr v Q :
  Q <> RunQueue ->
  blk s = ((store (currentFiber s) (set_context v) ;;
            dequeue_fiber (currentFiber s) ;; queue_fiber (currentFiber s) Q) ;;
           schedule) s ->
  queues_ok s L ->
  currentFiber s <> 0 -> heap s !! currentFiber s = Some cr ->
  flag_set (flags cr) MICROBIT_FIBER_FLAG_FOB = false ->
  (forall q, queue cr = Some q -> currentFiber s ∈ L q) ->
  idle s <> 0 -> idle s <> currentFiber s -> is_Some (heap s !! idle s) ->
  stack_depth s <= buffer_size cr \/ (0 < buffer_size cr /\ stack_depth s <= 2 ^ 31) ->
  let c := currentFiber s in
  let L1 := upd (fun q => without c (L q)) Q (c :: without c (L Q)) in
  exists s' cr',
    blk s = Ok Switched s' /\
    currentFiber s' <> c /\ currentFiber s' = next_up s (L1 RunQueue) /\
    queue_head Q s' = c /\ queues_ok s' L1 /\
    heap s' !! c = Some cr' /\ context cr' = v /\ queue cr' = Some Q /\
    ticks s' = ticks s /\
    tcb cr' = cpu s /\
    (forall g, g <> c -> strip <$> heap s' !! g = strip <$> heap s !! g) /\
    (exists nr, heap s !! currentFiber s' = Some nr /\ cpu s' = tcb nr) /\
    idle s' = idle s /\ fiber_flags s' = fiber_flags s.
Proof.
  intros HQ Hblk Hok Hc Hl Hfob Hon Hi Hic Hil Hstack c L1.
  destruct (block_on s L c cr v Q Hok Hc Hl Hon)
    as (s1 & cr1 & Hrun & Hok1 & Hhd & Hl1 & Hq1 & Hs1 & Hoth & Hfr).
  fold L1 in Hok1.
  assert (currentFiber s1 = c) as Hc1 by (by rewrite Hfr).
  assert (idle s1 = idle s) as Hi1 by (by rewrite Hfr).
  assert (cpu s1 = cpu s) as Hcpu by (by rewrite Hfr).
  assert (fiber_flags s1 = fiber_flags s) as Hff by (by rewrite Hfr).
  assert (ticks s1 = ticks s) as Ht1 by (by rewrite Hfr).
  apply strip_fields in Hs1 as (Hctx & Hfl & _ & Htop & Hbot). simpl in *.
  assert (runQueue s1 = hd_def (L1 RunQueue)) as Hrq.
  { destruct (Hok1 RunQueue) as [Hd _]. by apply dll_head in Hd. }
  assert (c ∉ L1 RunQueue) as Hnin.
  { unfold L1. rewrite upd_ne by done. unfold without. intros Hin.
    apply list_elem_of_In, List.filter_In in Hin as [_ Hin].
    by rewrite Z.eqb_refl in Hin. }
  assert (is_Some (heap s1 !! idle s1)) as Hil1.
  { rewrite Hi1. specialize (Hoth (idle s) Hic).
    destruct Hil as [ir Hir]. rewrite Hir in Hoth.
    destruct (heap s1 !! idle s); [eauto|done]. }
  destruct (schedule_parked s1 L1 cr1)
    as (s' & cr' & nr & Hs & Hne & Hcur & Hk & Hnl & Hcpu' & Hl' & Htcb & Hoth'
        & Hi' & Hff');
    try done.
  - by rewrite Hc1.
  - by rewrite Hc1.
  - by rewrite Hfl.
  - rewrite Hq1. congruence.
  - by rewrite Hc1.
  - by rewrite Hi1.
  - by rewrite Hi1, Hc1.
  - unfold stack_depth, buffer_size in *. by rewrite Hcpu, Htop, Hbot.
  - rewrite Hc1 in Hl', Hne, Hoth'.
    destruct (same_queues_lookup _ _ _ _ Hk Hl1) as (cr'' & Hl'' & Hv').
    assert (cr'' = cr') as -> by congruence.
    unfold wake_view in Hv'. injection Hv' as Hq' _ _ Hc'.
    pose proof (same_queues_ok _ _ _ Hk Hok1) as Hok'.
    destruct Hk as (_ & Hh & _ & Htk).
    exists s', cr'. split; [rewrite Hblk; by erewrite bind_Ok by exact Hrun|].
    split; [done|].
    split; [unfold next_up; by rewrite Hcur, Hrq, Hff, Hi1|].
    split; [by rewrite Hh|]. split; [done|].
    split; [done|]. split; [congruence|]. split; [congruence|].
    split; [congruence|]. split; [congruence|].
    split.
    { intros g Hg. rewrite Hoth' by done. by apply Hoth. }
    split; [|split; congruence].
    specialize (Hoth (currentFiber s') Hne). rewrite Hnl in Hoth.
    destruct (heap s !! currentFiber s') as [nr0|]; simpl in Hoth; [|done].
    exists nr0. split; [done|].
    assert (strip nr = strip nr0) as Hsn by congruence.
    apply strip_fields in Hsn as (_ & _ & Htn & _). congruence.
Qed.

(** X24.  [release_fiber] does not return to the fiber that calls it.  From
    a well-formed state, outside fork-on-block context, with an idle fiber
    other than the caller and a stack that fits its buffer or can be made
    to: the caller's record goes to the head of the pool and the call ends
    in a switch to another fiber, the head of what is left of the run queue,
    or the idle fiber when that is empty or a data read is pending. *)
Theorem release_fiber_switches_away s L cr :
  queues_ok s L ->
  currentFiber s <> 0 -> heap s !! currentFiber s = Some cr ->
  flag_set (flags cr) MICROBIT_FIBER_FLAG_FOB = false ->
  (forall q, queue cr = Some q -> currentFiber s ∈ L q) ->
  idle s <> 0 -> idle s <> currentFiber s -> is_Some (heap s !! idle s) ->
  stack_depth s <= buffer_size cr \/ (0 < buffer_size cr /\ stack_depth s <= 2 ^ 31) ->
  let c := currentFiber s in
  let L1 := upd (fun q => without c (L q)) FiberPool (c :: without c (L FiberPool)) in
  exists s',
    release_fiber s = Ok Switched s' /\
    currentFiber s' <> c /\ currentFiber s' = next_up s (L1 RunQueue) /\
    fiberPool s' = c /\ queues_ok s' L1.
Proof. apply release_run. Qed.

(** X10.  A released record is the next one handed out.  Under the same
    conditions, once [release_fiber] has switched away, [getFiberContext]
    returns the very record that was released, with flags 0 and off every
    queue, and the pool is what it was before the release. *)
Theorem release_then_getFiberContext s L cr :
  queues_ok s L ->
  currentFiber s <> 0 -> heap s !! currentFiber s = Some cr ->
  flag_set (flags cr) MICROBIT_FIBER_FLAG_FOB = false ->
  (forall q, queue cr = Some q -> currentFiber s ∈ L q) ->
  idle s <> 0 -> idle s <> currentFiber s -> is_Some (heap s !! idle s) ->
  stack_depth s <= buffer_size cr \/ (0 < buffer_size cr /\ stack_depth s <= 2 ^ 31) ->
  let c := currentFiber s in
  exists s2 s3 cr3,
    release_fiber s = Ok Switched s2 /\
    getFiberContext s2 = Ok c s3 /\
    heap s3 !! c = Some cr3 /\ flags cr3 = 0 /\ queue cr3 = None /\
    queues_ok s3 (fun q => without c (L q)).
Proof.
  intros Hok Hc Hl Hfob Hon Hi Hic Hil Hstack c.
  destruct (release_run s L cr Hok Hc Hl Hfob Hon Hi Hic Hil Hstack)
    as (s2 & Hrel & _ & _ & _ & Hok2).
  destruct (getFiberContext_pool s2 _ c _ Hok2 (upd_eq _ _ _))
    as (pr & Hlp & _ & _ & Hg & Hok3 & Hl3 & _).
  exists s2, (recycled c pr s2), (set_flags 0 (strip pr)).
  do 5 (split; [done|]).
  eapply queues_ok_ext; [|exact Hok3]. intros q. unfold upd.
  repeat case_decide; subst; done.
Qed.

(** X15.  [fiber_wait_for_event id val] outside fork-on-block context, from
    a well-formed state with an idle fiber other than the caller and a stack
    that fits its buffer or can be made to: the call stores [val << 16 | id]
    in the context word of the calling fiber, moves it from its queue to the
    head of the wait queue and ends in a switch to another fiber: the head
    of what is left of the run queue, or the idle fiber when that is empty
    or a data read is pending. *)
Theorem fiber_wait_for_event_parks s L cr id val :
  queues_ok s L ->
  currentFiber s <> 0 -> heap s !! currentFiber s = Some cr ->
  flag_set (flags cr) MICROBIT_FIBER_FLAG_FOB = false ->
  (forall q, queue cr = Some q -> currentFiber s ∈ L q) ->
  idle s <> 0 -> idle s <> currentFiber s -> is_Some (heap s !! idle s) ->
  stack_depth s <= buffer_size cr \/ (0 < buffer_size cr /\ stack_depth s <= 2 ^ 31) ->
  let c := currentFiber s in
  let L1 := upd (fun q => without c (L q)) WaitQueue (c :: without c (L WaitQueue)) in
  exists s' cr',
    fiber_wait_for_event id val s = Ok Switched s' /\
    currentFiber s' <> c /\ currentFiber s' = next_up s (L1 RunQueue) /\
    waitQueue s' = c /\ queues_ok s' L1 /\
    heap s' !! c = Some cr' /\
    context cr' = wrap32 (Z.lor (Z.shiftl val 16) id) /\
    queue cr' = Some WaitQueue.
Proof.
  intros Hok Hc Hl Hfob Hon Hi Hic Hil Hstack c L1.
  destruct (blocking_run (fiber_wait_for_event id val) s L cr
              (wrap32 (Z.lor (Z.shiftl val 16) id)) WaitQueue)
    as (s' & cr' & H1 & H2 & H3 & H4 & H5 & H6 & H7 & H8 & _); try done.
  { apply fiber_wait_for_event_unfold. by eapply blocking_fiber_normal. }
  exists s', cr'. done.
Qed.

(** X25.  [fiber_sleep t] under the same conditions: the call stores
    [ticks + t], on 32 bits, in the context word of the calling fiber, moves
    it from its queue to the head of the sleep queue and ends in a switch to
    another fiber: the head of what is left of the run queue, or the idle
    fiber when that is empty or a data read is pending. *)
Theorem fiber_sleep_switches_away s L cr t :
  queues_ok s L ->
  currentFiber s <> 0 -> heap s !! currentFiber s = Some cr ->
  flag_set (flags cr) MICROBIT_FIBER_FLAG_FOB = false ->
  (forall q, queue cr = Some q -> currentFiber s ∈ L q) ->
  idle s <> 0 -> idle s <> currentFiber s -> is_Some (heap s !! idle s) ->
  stack_depth s <= buffer_size cr \/ (0 < buffer_size cr /\ stack_depth s <= 2 ^ 31) ->
  let c := currentFiber s in
  let L1 := upd (fun q => without c (L q)) SleepQueue (c :: without c (L SleepQueue)) in
  exists s' cr',
    fiber_sleep t s = Ok Switched s' /\
    currentFiber s' <> c /\ currentFiber s' = next_up s (L1 RunQueue) /\
    sleepQueue s' = c /\ queues_ok s' L1 /\
    heap s' !! c = Some cr' /\ context cr' = wrap32 (ticks s + t) /\
    queue cr' = Some SleepQueue /\ ticks s' = ticks s.
Proof.
  intros Hok Hc Hl Hfob Hon Hi Hic Hil Hstack c L1.
  destruct (blocking_run (fiber_sleep t) s L cr (wrap32 (ticks s + t)) SleepQueue)
    as (s' & cr' & H1 & H2 & H3 & H4 & H5 & H6 & H7 & H8 & H9 & _); try done.
  { apply fiber_sleep_unfold. by eapply blocking_fiber_normal. }
  exists s', cr'. done.
Qed.

(** X16.  The deadline of [fiber_sleep] is computed modulo 2^32 and compared
    as a plain number.  When [ticks + t] passes 2^32, the word stored is
    [ticks + t - 2^32], which lies in the past: the first timer tick after
    the call moves the fiber back to the run queue, however long [t] is. *)
Theorem sleep_across_rollover s L cr t fuel :
  queues_ok s L ->
  currentFiber s <> 0 -> heap s !! currentFiber s = Some cr ->
  flag_set (flags cr) MICROBIT_FIBER_FLAG_FOB = false ->
  (forall q, queue cr = Some q -> currentFiber s ∈ L q) ->
  idle s <> 0 -> idle s <> currentFiber s -> is_Some (heap s !! idle s) ->
  stack_depth s <= buffer_size cr \/ (0 < buffer_size cr /\ stack_depth s <= 2 ^ 31) ->
  0 <= ticks s < 2 ^ 32 -> 0 <= t < 2 ^ 32 -> 2 ^ 32 <= ticks s + t ->
  0 <= FIBER_TICK_PERIOD_MS -> ticks s + FIBER_TICK_PERIOD_MS < 2 ^ 32 ->
  (S (length (L SleepQueue)) <= fuel)%nat ->
  let c := currentFiber s in
  exists s2 cr2 s3 L3,
    fiber_sleep t s = Ok Switched s2 /\
    heap s2 !! c = Some cr2 /\ context cr2 = ticks s + t - 2 ^ 32 /\
    scheduler_tick fuel s2 = Ok tt s3 /\ queues_ok s3 L3 /\
    c ∈ L3 RunQueue /\ c ∉ L3 SleepQueue.
Proof.
  intros Hok Hc Hl Hfob Hon Hi Hic Hil Hstack Ht Htt Hwrap HP Hnow Hfuel c.
  assert (wrap32 (ticks s + t) = ticks s + t - 2 ^ 32) as Hw.
  { unfold wrap32. symmetry. apply (Z.mod_unique _ _ 1); lia. }
  destruct (blocking_run (fiber_sleep t) s L cr (wrap32 (ticks s + t)) SleepQueue)
    as (s2 & cr2 & Hrun & _ & _ & _ & Hok2 & Hl2 & Hctx2 & _ & Ht2 & _); try done.
  { apply fiber_sleep_unfold. by eapply blocking_fiber_normal. }
  fold c in Hok2, Hl2.
  set (L1 := upd (fun q => without c (L q)) SleepQueue (c :: without c (L SleepQueue))) in *.
  destruct (scheduler_tick_ok s2 L1 fuel Hok2) as (s3 & Htick & _ & Hok3 & _).
  { unfold L1. rewrite upd_eq. simpl.
    assert (length (without c (L SleepQueue)) <= length (L SleepQueue))%nat
      by apply List.filter_length_le.
    lia. }
  assert (expired (heap s2) (wrap32 (ticks s2 + FIBER_TICK_PERIOD_MS)) c = true) as Hexp.
  { rewrite (expired_spec _ _ _ _ Hl2), Hctx2, Hw, Ht2.
    rewrite wrap32_small by lia. apply Z.geb_le. lia. }
  eexists s2, cr2, s3, _. split; [exact Hrun|]. split; [exact Hl2|].
  split; [congruence|]. split; [exact Htick|]. split; [exact Hok3|]. split.
  - rewrite upd_eq. apply elem_of_app. left.
    apply list_elem_of_In. apply -> List.in_rev. apply List.filter_In.
    split; [|done]. apply list_elem_of_In. unfold L1. rewrite upd_eq.
    apply elem_of_cons. by left.
  - rewrite upd_ne, upd_eq by done. intros Hin.
    apply list_elem_of_In, List.filter_In in Hin as [_ Hin]. by rewrite Hexp in Hin.
Qed.

End SwitchAwayFurther.

(** Fiber 256 ends while fiber 768 is runnable: 768 runs next. *)
Lemma release_fiber_switches_away_witness :
  exists s',
    release_fiber (hw := microbit) (two_fibers 536887260 []) = Ok Switched s' /\
    currentFiber s' = 768 /\ fiberPool s' = 256.
Proof.
  destruct (release_fiber_switches_away (hw := microbit) (two_fibers 536887260 [])
              two_fibers_queues (example_fiber 4096 0 (Some RunQueue) 768 0)
              (two_fibers_ok 536887260 []))
    as (s' & H1 & _ & H3 & H4 & _).
  - discriminate.
  - reflexivity.
  - reflexivity.
  - intros q [= <-]. vm_compute. set_solver.
  - discriminate.
  - discriminate.
  - vm_compute. eauto.
  - left. vm_compute. discriminate.
  - exists s'. split; [exact H1|]. split; [exact H3|exact H4].
Defined.

(** Fiber 256 ends; its record is handed out again at once. *)
Lemma release_then_getFiberContext_witness :
  exists s2 s3,
    release_fiber (hw := microbit) (two_fibers 536887260 []) = Ok Switched s2 /\
    getFiberContext (hw := microbit) s2 = Ok 256 s3.
Proof.
  destruct (release_then_getFiberContext (hw := microbit) (two_fibers 536887260 [])
              two_fibers_queues (example_fiber 4096 0 (Some RunQueue) 768 0)
              (two_fibers_ok 536887260 []))
    as (s2 & s3 & cr3 & H1 & H2 & _).
  - discriminate.
  - reflexivity.
  - reflexivity.
  - intros q [= <-]. vm_compute. set_solver.
  - discriminate.
  - discriminate.
  - vm_compute. eauto.
  - left. vm_compute. discriminate.
  - exists s2, s3. split; [exact H1|exact H2].
Defined.

(** Fiber 256, alone on the run queue, waits for the event (5, 7): the idle
    fiber (512) runs. *)
Lemma fiber_wait_for_event_parks_witness :
  exists s' cr',
    fiber_wait_for_event (hw := microbit) 5 7 (one_fiber 0 536887260 []) = Ok Switched s' /\
    currentFiber s' = 512 /\ waitQueue s' = 256 /\
    heap s' !! 256 = Some cr' /\ context cr' = 458757.
Proof.
  destruct (fiber_wait_for_event_parks (hw := microbit) (one_fiber 0 536887260 [])
              one_fiber_queues (example_fiber 4096 0 (Some RunQueue) 0 0) 5 7
              (one_fiber_ok 0 536887260 []))
    as (s' & cr' & H1 & _ & H3 & H4 & _ & H6 & H7 & _).
  - discriminate.
  - reflexivity.
  - reflexivity.
  - intros q [= <-]. vm_compute. set_solver.
  - discriminate.
  - discriminate.
  - vm_compute. eauto.
  - left. vm_compute. discriminate.
  - exists s', cr'. split; [exact H1|]. split; [exact H3|]. split; [exact H4|].
    split; [exact H6|exact H7].
Defined.

(** Fiber 256 sleeps while fiber 768 is runnable: 768 runs next. *)
Lemma fiber_sleep_switches_away_witness :
  exists s' cr',
    fiber_sleep (hw := microbit) 10 (two_fibers 536887260 []) = Ok Switched s' /\
    currentFiber s' = 768 /\ sleepQueue s' = 256 /\
    heap s' !! 256 = Some cr' /\ context cr' = 10.
Proof.
  destruct (fiber_sleep_switches_away (hw := microbit) (two_fibers 536887260 [])
              two_fibers_queues (example_fiber 4096 0 (Some RunQueue) 768 0) 10
              (two_fibers_ok 536887260 []))
    as (s' & cr' & H1 & _ & H3 & H4 & _ & H6 & H7 & _).
  - discriminate.
  - reflexivity.
  - reflexivity.
  - intros q [= <-]. vm_compute. set_solver.
  - discriminate.
  - discriminate.
  - vm_compute. eauto.
  - left. vm_compute. discriminate.
  - exists s', cr'. split; [exact H1|]. split; [exact H3|]. split; [exact H4|].
    split; [exact H6|exact H7].
Defined.

(** One millisecond before the counter rolls over, fiber 256 asks to sleep
    for ten: it is runnable again after the next tick. *)
Lemma sleep_across_rollover_witness :
  exists s2 cr2 s3 L3,
    fiber_sleep (hw := microbit) 10 (set_ticks 4294967294 (one_fiber 0 536887260 []))
      = Ok Switched s2 /\
    heap s2 !! 256 = Some cr2 /\ context cr2 = 8 /\
    scheduler_tick (hw := microbit) 1 s2 = Ok tt s3 /\
    queues_ok s3 L3 /\ 256 ∈ L3 RunQueue.
Proof.
  destruct (sleep_across_rollover (hw := microbit)
              (set_ticks 4294967294 (one_fiber 0 536887260 [])) one_fiber_queues
              (example_fiber 4096 0 (Some RunQueue) 0 0) 10 1)
    as (s2 & cr2 & s3 & L3 & H1 & H2 & H3 & H4 & H5 & H6 & _).
  - apply (one_fiber_ok 0 536887260 []).
  - discriminate.
  - reflexivity.
  - reflexivity.
  - intros q [= <-]. vm_compute. set_solver.
  - discriminate.
  - discriminate.
  - vm_compute. eauto.
  - left. vm_compute. discriminate.
  - simpl. lia.
  - lia.
  - simpl. lia.
  - simpl. lia.
  - simpl. lia.
  - simpl. lia.
  - exists s2, cr2, s3, L3. split; [exact H1|]. split; [exact H2|]. split; [exact H3|].
    split; [exact H4|]. split; [exact H5|exact H6].
Defined.

(** ** From sleep to wake-up *)

(** Moving [f] between queues leaves alone every record that is on no
    queue. *)
Lemma move_untouched s L f fr Q s' g :
  queues_ok s L -> f <> 0 -> heap s !! f = Some fr ->
  (forall q, queue fr = Some q -> f ∈ L q) ->
  (dequeue_fiber f ;; queue_fiber f Q) s = Ok tt s' ->
  g <> 0 -> g <> f -> (forall q, g ∉ L q) ->
  heap s' !! g = heap s !! g.
Proof.
  intros Hok Hf Hl Hon Hmv Hg0 Hgf Hg.
  assert (forall s1 L1 fr1,
            queues_ok s1 L1 -> heap s1 !! f = Some fr1 -> queue fr1 = None ->
            (forall q, g ∉ L1 q) ->
            queue_fiber f Q s1 = Ok tt s' -> heap s' !! g = heap s1 !! g) as Hpush.
  { intros s1 L1 fr1 Hok1 Hl1 Hq1 Hg1 Hq.
    destruct (queues_ok_queue s1 L1 Q f fr1 Hok1 Hf Hl1 Hq1) as [Hrun _].
    rewrite Hrun in Hq. injection Hq as <-. unfold queued. mnorm.
    apply push_heap_other; [done|]. intros E.
    destruct (Hok1 Q) as [Hd _]. apply (Hg1 Q). rewrite E.
    rewrite (dll_head _ _ _ _ _ Hd). apply hd_def_elem.
    rewrite <- (dll_head _ _ _ _ _ Hd). congruence. }
  destruct (queue fr) as [q|] eqn:Hq.
  - destruct (list_elem_of_split _ _ (Hon q eq_refl)) as (l1 & l2 & HL).
    destruct (queues_ok_dequeue _ _ _ _ _ _ Hok HL)
      as (fr0 & Hl0 & _ & Hp & Hn & Hdeq & Hok1).
    assert (fr0 = fr) as -> by congruence.
    unfold bind in Hmv. rewrite Hdeq in Hmv.
    rewrite (Hpush _ _ (strip fr) Hok1 (unlink_heap_self _ _ _) eq_refl); [| |exact Hmv].
    + unfold dequeued. mnorm. apply unlink_heap_other; [done| |].
      * destruct (decide (next fr = 0)) as [|Hnz]; [by left|right].
        intros E. apply (Hg q). rewrite HL, E, Hn. apply elem_of_app. right.
        apply elem_of_cons. right. apply hd_def_elem. congruence.
      * destruct (decide (prev fr = 0)) as [|Hnz]; [by left|right].
        intros E. apply (Hg q). rewrite HL, E, Hp. apply elem_of_app. left.
        apply last_def_elem. congruence.
    + intros q'. unfold upd. case_decide; [|done]. subst q'.
      intros Hin. apply (Hg q). rewrite HL.
      apply elem_of_app in Hin as [Hin|Hin]; apply elem_of_app; [by left|right].
      apply elem_of_cons. by right.
  - unfold bind in Hmv. rewrite (dequeue_fiber_off f s fr Hf Hl Hq) in Hmv.
    by apply (Hpush s L fr Hok Hl Hq Hg).
Qed.

Section RoundTripFurther.
Context `{hw : Platform}.

(** X26.  From sleep to wake-up.  The only runnable fiber [c] calls
    [fiber_sleep t], with [t] no longer than a tick period, while no other
    fiber sleeps, no data read is pending and the idle fiber is a record on
    no queue: the call switches to the idle fiber, with the registers saved
    in the idle record; the next timer tick moves [c] back to the run queue;
    and the [schedule] that the idle fiber then calls switches back to [c]
    with exactly the registers [c] had when it called [fiber_sleep], the
    four queues holding what they held before the call. *)
Theorem sleep_round_trip s L cr ir t fuel :
  queues_ok s L -> L RunQueue = [currentFiber s] -> L SleepQueue = [] ->
  currentFiber s <> 0 -> heap s !! currentFiber s = Some cr ->
  flag_set (flags cr) MICROBIT_FIBER_FLAG_FOB = false ->
  idle s <> 0 -> idle s <> currentFiber s -> heap s !! idle s = Some ir ->
  queue ir = None -> flag_set (flags ir) MICROBIT_FIBER_FLAG_FOB = false ->
  flag_set (fiber_flags s) MICROBIT_FLAG_DATA_READ = false ->
  stack_depth s <= buffer_size cr \/ (0 < buffer_size cr /\ stack_depth s <= 2 ^ 31) ->
  (let d := wrap32 (CORTEX_M0_STACK_BASE - SP (tcb ir)) in
   d <= buffer_size ir \/ (0 < buffer_size ir /\ d <= 2 ^ 31)) ->
  0 <= ticks s -> 0 <= t <= FIBER_TICK_PERIOD_MS ->
  ticks s + FIBER_TICK_PERIOD_MS < 2 ^ 32 ->
  (1 <= fuel)%nat ->
  let c := currentFiber s in
  exists s1 s2 s3,
    fiber_sleep t s = Ok Switched s1 /\
    currentFiber s1 = idle s /\ cpu s1 = tcb ir /\ sleepQueue s1 = c /\
    scheduler_tick fuel s1 = Ok tt s2 /\
    runQueue s2 = c /\ sleepQueue s2 = 0 /\
    schedule s2 = Ok Switched s3 /\
    currentFiber s3 = c /\ cpu s3 = cpu s /\
    queues_ok s3 L /\ ticks s3 = ticks s + FIBER_TICK_PERIOD_MS.
Proof.
  intros Hok HLr HLs Hc Hl Hfob Hi Hic Hil Hiq Hifob Hdr Hstack Histack Ht Htt Hnow Hfuel c.
  assert (forall q, idle s ∉ L q) as Hioff.
  { intros q. by eapply off_queue_not_elem. }
  assert (forall q, queue cr = Some q -> c ∈ L q) as Hon.
  { intros q Hq. destruct (Hok RunQueue) as [Hd _]. rewrite HLr in Hd.
    destruct Hd as (_ & _ & fr & Hlf & Hqf & _).
    assert (fr = cr) as -> by (unfold c in *; congruence).
    assert (q = RunQueue) as -> by congruence. rewrite HLr. apply elem_of_cons. by left. }
  assert (forall q, q <> RunQueue -> c ∉ L q) as Hcoff.
  { intros q Hq. apply (other_queue_not_elem s L RunQueue q); [done|done|].
    rewrite HLr. apply elem_of_cons. by left. }
  (* the call to fiber_sleep *)
  set (v := wrap32 (ticks s + t)).
  assert (v = ticks s + t) as Hv by (apply wrap32_small; lia).
  set (s0 := set_heap (<[c := set_context v cr]> (heap s)) s).
  assert (queues_ok s0 L) as Hok0.
  { eapply queues_ok_same_links; [| |exact Hok].
    - unfold s0. simpl. by eapply same_links_insert.
    - intros q. by destruct q. }
  assert (heap s0 !! c = Some (set_context v cr)) as Hl0 by apply lookup_insert_eq.
  destruct (move_fiber s0 L c (set_context v cr) SleepQueue Hok0 Hc Hl0 Hon)
    as (sp & crp & Hmv & Hokp & Hlp & Hqp & Hsp & Hlop & Hfrp).
  set (L1 := upd (fun q => without c (L q)) SleepQueue (c :: without c (L SleepQueue))) in *.
  assert (heap sp !! idle s = Some ir) as Hilp.
  { rewrite (move_untouched s0 L c (set_context v cr) SleepQueue sp (idle s)); try done.
    unfold s0. simpl. by rewrite lookup_insert_ne. }
  assert (L1 RunQueue = []) as HL1r.
  { unfold L1. rewrite upd_ne by done. rewrite HLr. unfold without. simpl.
    by rewrite Z.eqb_refl. }
  assert (L1 SleepQueue = [c]) as HL1s.
  { unfold L1. by rewrite upd_eq, HLs. }
  assert (sp = set_irq_enabled (irq_enabled sp)
                 (set_fiberPool (fiberPool sp) (set_waitQueue (waitQueue sp)
                    (set_sleepQueue (sleepQueue sp) (set_runQueue (runQueue sp)
                       (set_heap (heap sp) s)))))) as Hfrs.
  { unfold frame_queues in Hfrp. rewrite Hfrp at 1. clear. by destruct s. }
  assert (currentFiber sp = c) as Hcp by (by rewrite Hfrs).
  assert (idle sp = idle s) as Hip by (by rewrite Hfrs).
  assert (cpu sp = cpu s) as Hcpup by (by rewrite Hfrs).
  assert (fiber_flags sp = fiber_flags s) as Hffp by (by rewrite Hfrs).
  assert (ticks sp = ticks s) as Htp by (by rewrite Hfrs).
  assert (runQueue sp = 0) as Hrqp.
  { destruct (Hokp RunQueue) as [Hd _]. rewrite HL1r in Hd. exact Hd. }
  apply strip_fields in Hsp as (Hctxp & Hflp & _ & Htopp & Hbotp). simpl in *.
  destruct (schedule_parked sp L1 crp)
    as (s1 & cr1 & nr & Hs1 & _ & Hcur1 & Hk1 & Hnl1 & Hcpu1 & Hl1 & Htcb1 & Hoth1
        & Hi1 & Hff1).
  { done. } { by rewrite Hcp. } { by rewrite Hcp. } { by rewrite Hflp. }
  { rewrite Hqp. congruence. }
  { rewrite Hcp, HL1r. apply not_elem_of_nil. }
  { by rewrite Hip. } { by rewrite Hip, Hcp. } { rewrite Hip. eauto. }
  { unfold stack_depth, buffer_size in *. by rewrite Htopp, Hbotp, Hcpup. }
  rewrite Hcp in Hl1, Hoth1.
  assert (currentFiber s1 = idle s) as Hc1.
  { rewrite Hcur1, Hrqp. rewrite bool_decide_eq_true_2 by done. simpl. exact Hip. }
  assert (nr = ir) as ->.
  { rewrite Hc1 in Hnl1. congruence. }
  assert (fiber_sleep t s = Ok Switched s1) as Hsleep.
  { rewrite (fiber_sleep_unfold t s c s) by (by eapply blocking_fiber_normal).
    fold v. rewrite bind_assoc.
    erewrite bind_Ok by (apply store_Ok; [exact Hc | exact Hl]). fold s0.
    unfold bind in Hmv |- *. destruct (dequeue_fiber c s0) as [[] sd| | |]; try done.
    by rewrite Hmv. }
  pose proof (same_queues_ok _ _ _ Hk1 Hokp) as Hok1.
  destruct (same_queues_lookup _ _ _ _ Hk1 Hlp) as (cr1' & Hl1' & Hv1).
  assert (cr1' = cr1) as -> by congruence.
  unfold wake_view in Hv1. injection Hv1 as Hq1 Hn1 _ Hctx1.
  assert (next crp = 0) as Hnp.
  { destruct (Hokp SleepQueue) as [Hd _]. rewrite HL1s in Hd.
    destruct Hd as (_ & _ & fr & Hlf & _ & _ & Hd). simpl in Hd.
    assert (fr = crp) as -> by congruence. done. }
  assert (heap s1 !! idle s = Some ir) as Hil1 by (rewrite Hoth1; done).
  destruct Hk1 as (_ & Hh1 & _ & Htk1).
  assert (sleepQueue s1 = c) as Hsq1.
  { specialize (Hh1 SleepQueue). simpl in Hh1. rewrite Hh1.
    destruct (Hokp SleepQueue) as [Hd _]. rewrite HL1s in Hd.
    destruct Hd as (Hd & _). exact Hd. }
  assert (ticks s1 = ticks s) as Ht1 by congruence.
  (* the timer tick *)
  set (now := wrap32 (ticks s1 + FIBER_TICK_PERIOD_MS)).
  assert (now = ticks s + FIBER_TICK_PERIOD_MS) as Hnw.
  { unfold now. rewrite Ht1. apply wrap32_small. lia. }
  set (st := set_ticks now s1).
  assert (queues_ok st L1) as Hokt.
  { eapply queues_ok_same_links; [apply same_links_refl| |exact Hok1].
    intros q. by destruct q. }
  assert (heap st !! c = Some cr1) as Hlt by done.
  destruct (move_fiber st L1 c cr1 RunQueue Hokt Hc Hlt)
    as (s2 & cr2 & Hmv2 & Hok2 & Hl2 & Hq2 & Hs2 & Hlo2 & Hfr2).
  { intros q Hq. assert (q = SleepQueue) as -> by congruence.
    rewrite HL1s. apply elem_of_cons. by left. }
  assert (heap s2 !! idle s = Some ir) as Hil2.
  { rewrite (move_untouched st L1 c cr1 RunQueue s2 (idle s)); try done.
    - intros q Hq. assert (q = SleepQueue) as -> by congruence.
      rewrite HL1s. apply elem_of_cons. by left.
    - intros q. destruct (decide (q = SleepQueue)) as [->|Hqs].
      + rewrite HL1s. intros Hin. apply list_elem_of_singleton in Hin. by apply Hic.
      + unfold L1. rewrite upd_ne by done. unfold without. intros Hin.
        apply list_elem_of_In, List.filter_In in Hin as [Hin _].
        by apply (Hioff q), list_elem_of_In. }
  assert (scheduler_tick fuel s1 = Ok tt s2) as Htick.
  { unfold scheduler_tick. do 2 mstep. fold now. fold st. rewrite Hsq1.
    destruct fuel as [|fuel]; [lia|].
    rewrite (scheduler_tick_walk_step fuel c st cr1 Hc Hlt).
    replace (ticks st >=? context cr1) with true.
    2:{ symmetry. apply Z.geb_le. simpl. rewrite Hctx1, Hctxp, Hv, Hnw. lia. }
    erewrite bind_Ok by exact Hmv2. rewrite Hn1, Hnp.
    by destruct fuel. }
  assert (queues_ok s2 L) as Hok2'.
  { eapply queues_ok_ext; [|exact Hok2]. intros q.
    destruct (decide (q = RunQueue)) as [->|Hqr].
    - rewrite upd_eq, HL1r, HLr. reflexivity.
    - rewrite upd_ne by done. destruct (decide (q = SleepQueue)) as [->|Hqs].
      + rewrite HL1s, HLs. unfold without. simpl. by rewrite Z.eqb_refl.
      + unfold L1. rewrite upd_ne by done.
        rewrite (without_notin c (L q)) by (by apply Hcoff).
        apply without_notin. by apply Hcoff. }
  assert (s2 = set_irq_enabled (irq_enabled s2)
                 (set_fiberPool (fiberPool s2) (set_waitQueue (waitQueue s2)
                    (set_sleepQueue (sleepQueue s2) (set_runQueue (runQueue s2)
                       (set_heap (heap s2) st)))))) as Hfr2' by exact Hfr2.
  assert (runQueue s2 = c) as Hrq2.
  { destruct (Hok2' RunQueue) as [Hd _]. rewrite HLr in Hd. by destruct Hd as (Hd & _). }
  assert (sleepQueue s2 = 0) as Hsq2.
  { destruct (Hok2' SleepQueue) as [Hd _]. rewrite HLs in Hd. exact Hd. }
  apply strip_fields in Hs2 as (_ & _ & Htcb2 & _).
  (* the idle fiber yields *)
  assert (currentFiber s2 = idle s) as Hc2 by (rewrite Hfr2'; simpl; exact Hc1).
  assert (idle s2 = idle s) as Hi2 by (rewrite Hfr2'; simpl; congruence).
  assert (cpu s2 = tcb ir) as Hcpu2 by (rewrite Hfr2'; simpl; exact Hcpu1).
  assert (fiber_flags s2 = fiber_flags s) as Hff2.
  { rewrite Hfr2'. simpl. congruence. }
  assert (selection_rule s2 ir = c) as Hsel.
  { unfold selection_rule. rewrite Hrq2, Hff2, Hdr.
    rewrite (bool_decide_eq_false_2 (c = 0)) by done. simpl.
    rewrite (bool_decide_eq_false_2 (queue ir = Some RunQueue)) by (rewrite Hiq; done).
    done. }
  destruct (schedule_switch_run s2 L ir)
    as (s3 & ir3 & nr3 & Hs3 & Hcur3 & Hnl3 & Hcpu3 & _); try done.
  { by rewrite Hc2. } { by rewrite Hc2. } { rewrite Hiq. done. }
  { by rewrite Hi2. } { rewrite Hi2. eauto. }
  { unfold stack_depth. rewrite Hcpu2. exact Histack. }
  { rewrite Hsel, Hc2. auto. }
  rewrite Hsel in Hcur3, Hnl3.
  assert (nr3 = cr2) as -> by congruence.
  pose proof (schedule_keeps _ _ _ Hs3) as Hk3.
  exists s1, s2, s3. do 7 (split; [done|]). split; [done|]. split; [done|].
  split; [rewrite Hcpu3; congruence|].
  split; [by eapply same_queues_ok|].
  destruct Hk3 as (_ & _ & _ & ->). rewrite Hfr2'. simpl. exact Hnw.
Qed.

End RoundTripFurther.

(** Fiber 256 sleeps for one millisecond on a board that ticks every
    millisecond. *)
Lemma sleep_round_trip_witness :
  let s := one_fiber 0 536887260 [] in
  exists s1 s2 s3,
    fiber_sleep (hw := microbit) 1 s = Ok Switched s1 /\ currentFiber s1 = 512 /\
    scheduler_tick (hw := microbit) 1 s1 = Ok tt s2 /\ runQueue s2 = 256 /\
    schedule (hw := microbit) s2 = Ok Switched s3 /\
    currentFiber s3 = 256 /\ cpu s3 = cpu s /\ queues_ok s3 one_fiber_queues.
Proof.
  intros s.
  destruct (sleep_round_trip (hw := microbit) s one_fiber_queues
              (example_fiber 4096 0 (Some RunQueue) 0 0)
              (example_fiber 8192 0 None 0 0) 1 1 (one_fiber_ok 0 536887260 []))
    as (s1 & s2 & s3 & H1 & H2 & _ & _ & H5 & H6 & _ & H8 & H9 & H10 & H11 & _).
  - reflexivity.
  - reflexivity.
  - discriminate.
  - reflexivity.
  - reflexivity.
  - discriminate.
  - discriminate.
  - reflexivity.
  - reflexivity.
  - reflexivity.
  - reflexivity.
  - left. vm_compute. discriminate.
  - right. vm_compute. split; [reflexivity|discriminate].
  - simpl. lia.
  - simpl. lia.
  - simpl. lia.
  - lia.
  - exists s1, s2, s3. split; [exact H1|]. split; [exact H2|]. split; [exact H5|].
    split; [exact H6|]. split; [exact H8|]. split; [exact H9|]. split; [exact H10|exact H11].
Defined.

(** ** Sleeping until the deadline *)

Section SleepClaim.
Context `{hw : Platform}.

(** C3.  In a state [s] whose queues are the well-formed lists [L], with
    all arithmetic on the tick counter done on unsigned 32-bit words:

    - [fiber_sleep t] called when the counter reads [ticks s] runs to its
      end, and at that point the fiber that blocks has [ticks s + t] in its
      context word and is at the head of the sleep queue, the counter being
      unchanged.  Outside fork-on-block context the fiber that blocks is the
      current fiber, and the call ends in a switch to another fiber; inside,
      it is the record obtained from [getFiberContext], and the call resumes
      the current fiber at its snapshot.  The conditions are those under
      which [schedule] can run: an idle fiber other than the caller, and a
      stack that fits the buffer it is saved in or can be made to;
    - [scheduler_tick] first advances [ticks] by FIBER_TICK_PERIOD_MS and
      then moves to the run queue exactly the sleepers whose context word is
      less than or equal to the new [ticks]; the others stay on the sleep
      queue, in their order;
    - hence, after [n] ticks, a sleeper is still on the sleep queue if its
      deadline is beyond the [ticks] reached, and on the run queue
      otherwise (as long as the counter has not wrapped around). *)
Theorem sleep_until_deadline s L cr t fuel b br (n : nat) :
  queues_ok s L ->
  (currentFiber s <> 0 -> heap s !! currentFiber s = Some cr ->
   flag_set (flags cr) MICROBIT_FIBER_FLAG_FOB = false ->
   (forall q, queue cr = Some q -> currentFiber s ∈ L q) ->
   idle s <> 0 -> idle s <> currentFiber s -> is_Some (heap s !! idle s) ->
   stack_depth s <= buffer_size cr \/ (0 < buffer_size cr /\ stack_depth s <= 2 ^ 31) ->
   let c := currentFiber s in
   let L1 := upd (fun q => without c (L q)) SleepQueue (c :: without c (L SleepQueue)) in
   exists s2 cr2,
     fiber_sleep t s = Ok Switched s2 /\
     heap s2 !! c = Some cr2 /\ context cr2 = wrap32 (ticks s + t) /\
     queue cr2 = Some SleepQueue /\ sleepQueue s2 = c /\ queues_ok s2 L1 /\
     ticks s2 = ticks s /\ currentFiber s2 <> c) /\
  (currentFiber s <> 0 -> heap s !! currentFiber s = Some cr ->
   flag_set (flags cr) MICROBIT_FIBER_FLAG_FOB = true ->
   MICROBIT_FIBER_FLAG_PARENT <> 0 ->
   currentFiber s ∈ L RunQueue ->
   (L FiberPool = [] ->
    hd_def (allocs s) <> 0 /\ hd_def (tail (allocs s)) <> 0 /\
    heap s !! hd_def (allocs s) = None) ->
   is_Some (grow_buffer 32 (forked_buffer_size s)
              (wrap32 (CORTEX_M0_STACK_BASE - SP (cpu s)))) ->
   let f := if decide (L FiberPool = []) then hd_def (allocs s) else fiberPool s in
   let L1 := upd (upd L FiberPool (tail (L FiberPool))) SleepQueue (f :: L SleepQueue) in
   exists s2 fr2,
     fiber_sleep t s = Ok Resumes_at_snapshot s2 /\ f <> 0 /\
     heap s2 !! f = Some fr2 /\ context fr2 = wrap32 (ticks s + t) /\
     queue fr2 = Some SleepQueue /\ sleepQueue s2 = f /\ queues_ok s2 L1 /\
     ticks s2 = ticks s /\ currentFiber s2 = currentFiber s) /\
  ((length (L SleepQueue) <= fuel)%nat ->
   let now := wrap32 (ticks s + FIBER_TICK_PERIOD_MS) in
   exists s',
     scheduler_tick fuel s = Ok tt s' /\
     ticks s' = now /\
     queues_ok s'
       (upd (upd L SleepQueue
               (List.filter (fun g => negb (expired (heap s) now g)) (L SleepQueue)))
          RunQueue
          (rev (List.filter (expired (heap s) now) (L SleepQueue)) ++ L RunQueue)) /\
     links_only (heap s) (heap s')) /\
  ((length (L SleepQueue) <= fuel)%nat ->
   heap s !! b = Some br -> b ∈ L SleepQueue ->
   0 <= FIBER_TICK_PERIOD_MS -> 0 <= ticks s ->
   ticks s + Z.of_nat n * FIBER_TICK_PERIOD_MS < 2 ^ 32 ->
   exists s' L',
     timer_ticks n fuel s = Ok tt s' /\ queues_ok s' L' /\
     ticks s' = ticks s + Z.of_nat n * FIBER_TICK_PERIOD_MS /\
     if (0 <? Z.of_nat n) &&
        (context br <=? ticks s + Z.of_nat n * FIBER_TICK_PERIOD_MS)
     then b ∈ L' RunQueue else b ∈ L' SleepQueue).
Proof.
  intros Hok. split; [|split; [|split]].
  - intros Hc Hl Hfob Hon Hi Hic Hil Hstack c L1.
    destruct (blocking_run (fiber_sleep t) s L cr (wrap32 (ticks s + t)) SleepQueue)
      as (s2 & cr2 & H1 & H2 & _ & H4 & H5 & H6 & H7 & H8 & H9 & _); try done.
    { apply fiber_sleep_unfold. by eapply blocking_fiber_normal. }
    exists s2, cr2. done.
  - intros Hc Hl Hfob HP Hrun Halloc Hgrow f L1.
    destruct (fiber_sleep_forked s L cr t Hok Hc Hl Hfob Halloc)
      as (s1 & fr1 & Hsl & Hf0 & _ & _ & _ & _ & _ & _ & Hkeep).
    destruct (blocking_exit (fiber_sleep t) s L cr (fun now => wrap32 (now + t)) SleepQueue)
      as (s2 & _ & _ & Hs2 & Hc2 & _); try done.
    { intros g s0 Hb. by apply fiber_sleep_unfold. }
    rewrite Hsl in Hs2.
    destruct (Hkeep _ _ Hs2) as (Hok2 & Hhd2 & Ht2 & fr2 & Hl2 & Hctx2 & Hq2).
    exists s2, fr2. split; [by rewrite Hsl|]. done.
  - intros. by apply scheduler_tick_ok.
  - intros Hfuel Hl Hin HP Ht Hno.
    destruct (timer_ticks_ok fuel b n s L br Hok Hfuel Hl HP Ht Hno)
      as (s' & L' & H1 & H2 & H3 & _ & H5).
    exists s', L'. do 3 (split; [done|]). by apply H5.
Qed.

End SleepClaim.

(** Fiber 256 sleeps 100 ms at tick 0 on a board that ticks every
    millisecond: the call switches to the idle fiber with the context word
    of 256 at 100; after 99 ticks 256 is still on the sleep queue; after 100
    it is on the run queue, and the next [schedule] runs it.  The same call
    made inside a handler run by [fork_on_block] parks the new record 1024
    instead and resumes 256. *)
Lemma sleep_until_deadline_witness :
  let s := one_fiber 0 536887260 [] in
  (exists s2 cr2,
     fiber_sleep (hw := microbit) 100 s = Ok Switched s2 /\
     heap s2 !! 256 = Some cr2 /\ context cr2 = 100 /\ sleepQueue s2 = 256 /\
     currentFiber s2 <> 256) /\
  (exists s2 fr2,
     fiber_sleep (hw := microbit) 100 (one_fiber 1 536887260 [1024; 12288])
       = Ok Resumes_at_snapshot s2 /\
     heap s2 !! 1024 = Some fr2 /\ context fr2 = 100 /\ sleepQueue s2 = 1024) /\
  match (fiber_sleep (hw := microbit) 100 ;; timer_ticks (hw := microbit) 99 4) s with
  | Ok _ s' => sleepQueue s' = 256 /\ runQueue s' = 0 /\ ticks s' = 99
  | _ => False
  end /\
  match (fiber_sleep (hw := microbit) 100 ;; timer_ticks (hw := microbit) 100 4 ;;
         schedule (hw := microbit)) s with
  | Ok _ s' =>
      sleepQueue s' = 0 /\ runQueue s' = 256 /\ ticks s' = 100 /\ currentFiber s' = 256
  | _ => False
  end.
Proof.
  intros s. split; [|split].
  - destruct (proj1 (sleep_until_deadline (hw := microbit) s one_fiber_queues
                (example_fiber 4096 0 (Some RunQueue) 0 0) 100 0 0
                (example_fiber 4096 0 (Some RunQueue) 0 0) 0
                (one_fiber_ok 0 536887260 [])))
      as (s2 & cr2 & H1 & H2 & H3 & _ & H5 & _ & _ & H8).
    + discriminate.
    + reflexivity.
    + reflexivity.
    + intros q Hq. injection Hq as <-. by apply (bool_decide_unpack _); vm_compute.
    + discriminate.
    + discriminate.
    + by eexists.
    + left. vm_compute. discriminate.
    + exists s2, cr2. split; [exact H1|]. split; [exact H2|]. split; [exact H3|].
      split; [exact H5|exact H8].
  - destruct (proj1 (proj2 (sleep_until_deadline (hw := microbit)
                (one_fiber 1 536887260 [1024; 12288]) one_fiber_queues
                (example_fiber 4096 1 (Some RunQueue) 0 0) 100 0 0
                (example_fiber 4096 1 (Some RunQueue) 0 0) 0
                (one_fiber_ok 1 536887260 [1024; 12288]))))
      as (s2 & fr2 & H1 & _ & H3 & H4 & _ & H6 & _).
    + discriminate.
    + reflexivity.
    + reflexivity.
    + discriminate.
    + by apply (bool_decide_unpack _); vm_compute.
    + intros _. vm_compute. repeat split; discriminate.
    + vm_compute. eauto.
    + exists s2, fr2. split; [exact H1|]. split; [exact H3|]. split; [exact H4|exact H6].
  - vm_compute. repeat split; reflexivity.
Defined.

(** ** The flags of fork-on-block *)

Section ForkClaim.
Context `{hw : Platform}.

(** C8.  The flags of the fiber [c] that calls [fork_on_block], in a state
    whose queues are the well-formed lists [L]:
    - entered with FOB and PARENT clear (no episode is active), a call with
      a null handler returns at once and changes nothing; with a handler it
      snapshots the registers, sets FOB and calls the handler, and both
      overloads do the same;
    - when the handler returns in a fiber that is not a CHILD,
      [fork_on_block] clears FOB and returns with FOB and PARENT clear;
    - when the handler blocks, in [fiber_sleep] or [fiber_wait_for_event],
      with FOB set, and a record for the forked fiber can be had, the
      blocking call resumes [c] at its snapshot with PARENT set, and from
      there [fork_on_block] clears FOB and PARENT and returns;
    - when the handler returns in a fiber that carries CHILD,
      [fork_on_block] clears FOB and calls [release_fiber], and that call
      runs to its end: the record is at the head of the pool, with CHILD
      still set and FOB clear, and another fiber has the processor.  The
      conditions are those under which [schedule] can run: an idle fiber
      other than [c], and a stack that fits its buffer or can be made
      to. *)
Theorem fork_on_block_flags s L cr entry_fn param t id val :
  queues_ok s L ->
  currentFiber s <> 0 -> heap s !! currentFiber s = Some cr ->
  let c := currentFiber s in
  (flag_set (flags cr) MICROBIT_FIBER_FLAG_FOB = false ->
   flag_set (flags cr) MICROBIT_FIBER_FLAG_PARENT = false ->
   (entry_fn = 0 ->
    fork_on_block entry_fn s = Ok Exits s /\
    fork_on_block_param entry_fn param s = Ok Exits s) /\
   (entry_fn <> 0 ->
    exists s1 cr1,
      fork_on_block entry_fn s = Ok Calls_handler s1 /\
      fork_on_block_param entry_fn param s = Ok Calls_handler s1 /\
      currentFiber s1 = c /\ heap s1 !! c = Some cr1 /\
      flags cr1 = flag_or MICROBIT_FIBER_FLAG_FOB (flags cr))) /\
  (flag_set (flags cr) MICROBIT_FIBER_FLAG_PARENT = false ->
   flag_set (flags cr) MICROBIT_FIBER_FLAG_CHILD = false ->
   Z.land MICROBIT_FIBER_FLAG_CHILD MICROBIT_FIBER_FLAG_FOB = 0 ->
   exists s' cr',
     fork_on_block_return s = Ok Returns s' /\
     currentFiber s' = c /\ heap s' !! c = Some cr' /\
     flag_set (flags cr') MICROBIT_FIBER_FLAG_FOB = false /\
     flag_set (flags cr') MICROBIT_FIBER_FLAG_PARENT = false) /\
  (MICROBIT_FIBER_FLAG_PARENT <> 0 ->
   flag_set (flags cr) MICROBIT_FIBER_FLAG_FOB = true ->
   c ∈ L RunQueue ->
   (L FiberPool = [] ->
    hd_def (allocs s) <> 0 /\ hd_def (tail (allocs s)) <> 0 /\
    heap s !! hd_def (allocs s) = None) ->
   is_Some (grow_buffer 32 (forked_buffer_size s)
              (wrap32 (CORTEX_M0_STACK_BASE - SP (cpu s)))) ->
   (exists s3 s4 cr4,
      fiber_sleep t s = Ok Resumes_at_snapshot s3 /\
      currentFiber s3 = c /\
      fork_on_block_snapshot s3 = Ok Exits s4 /\
      currentFiber s4 = c /\ heap s4 !! c = Some cr4 /\
      flag_set (flags cr4) MICROBIT_FIBER_FLAG_FOB = false /\
      flag_set (flags cr4) MICROBIT_FIBER_FLAG_PARENT = false) /\
   (exists s3 s4 cr4,
      fiber_wait_for_event id val s = Ok Resumes_at_snapshot s3 /\
      currentFiber s3 = c /\
      fork_on_block_snapshot s3 = Ok Exits s4 /\
      currentFiber s4 = c /\ heap s4 !! c = Some cr4 /\
      flag_set (flags cr4) MICROBIT_FIBER_FLAG_FOB = false /\
      flag_set (flags cr4) MICROBIT_FIBER_FLAG_PARENT = false)) /\
  (flag_set (flags cr) MICROBIT_FIBER_FLAG_CHILD = true ->
   Z.land MICROBIT_FIBER_FLAG_CHILD MICROBIT_FIBER_FLAG_FOB = 0 ->
   (forall q, queue cr = Some q -> c ∈ L q) ->
   idle s <> 0 -> idle s <> c -> is_Some (heap s !! idle s) ->
   stack_depth s <= buffer_size cr \/ (0 < buffer_size cr /\ stack_depth s <= 2 ^ 31) ->
   let L1 := upd (fun q => without c (L q)) FiberPool (c :: without c (L FiberPool)) in
   let s0 := set_heap (<[c := set_flags (flag_clear MICROBIT_FIBER_FLAG_FOB (flags cr)) cr]>
                         (heap s)) s in
   exists s' cr',
     fork_on_block_return s = release_fiber s0 /\
     release_fiber s0 = Ok Switched s' /\
     currentFiber s' <> c /\
     fiberPool s' = c /\ heap s' !! c = Some cr' /\ queue cr' = Some FiberPool /\
     flags cr' = flag_clear MICROBIT_FIBER_FLAG_FOB (flags cr) /\
     flag_set (flags cr') MICROBIT_FIBER_FLAG_CHILD = true /\
     flag_set (flags cr') MICROBIT_FIBER_FLAG_FOB = false /\
     queues_ok s' L1).
Proof.
  intros Hok Hc Hl c. split; [|split; [|split]].
  - intros Hfob Hpar. split.
    + intros ->. unfold fork_on_block, fork_on_block_param. by rewrite !decide_True.
    + intros He.
      set (s0 := set_heap (<[c := set_tcb (cpu s) cr]> (heap s)) s).
      assert (heap s0 !! currentFiber s0 = Some (set_tcb (cpu s) cr)) as Hl0
        by apply lookup_insert_eq.
      pose proof (fork_on_block_snapshot_first s0 _ Hc Hl0 Hpar) as Hsnap.
      eexists _, _. split; [|split; [|split; [|split]]].
      * unfold fork_on_block. rewrite decide_False by done. do 2 mstep.
        rewrite Hfob. unfold save_register_context. rewrite bind_assoc. mstep.
        mstep. fold c. fold s0. exact Hsnap.
      * unfold fork_on_block_param. rewrite decide_False by done. do 2 mstep.
        rewrite Hfob. unfold save_register_context. rewrite bind_assoc. mstep.
        mstep. fold c. fold s0. exact Hsnap.
      * reflexivity.
      * simpl. apply lookup_insert_eq.
      * reflexivity.
  - intros Hpar Hchild Hdis.
    rewrite (fork_on_block_return_unfold s cr Hc Hl).
    rewrite (flag_clear_disjoint _ _ _ Hdis), Hchild.
    eexists _, _. split; [reflexivity|]. split; [reflexivity|].
    split; [simpl; apply lookup_insert_eq|]. simpl. split.
    + apply flag_clear_self.
    + by apply flag_clear_keeps_clear.
  - intros HP Hfob Hrun Halloc Hgrow. split.
    + eapply (blocking_exit (fiber_sleep t) s L cr (fun now => wrap32 (now + t)) SleepQueue);
        try done.
      intros f s0 Hb. by apply fiber_sleep_unfold.
    + eapply (blocking_exit (fiber_wait_for_event id val) s L cr
                (fun _ => wrap32 (Z.lor (Z.shiftl val 16) id)) WaitQueue); try done.
      intros f s0 Hb. by apply fiber_wait_for_event_unfold.
  - intros Hchild Hdis Hon Hi Hic Hil Hstack L1 s0.
    set (cr0 := set_flags (flag_clear MICROBIT_FIBER_FLAG_FOB (flags cr)) cr).
    assert (queues_ok s0 L) as Hok0.
    { eapply queues_ok_same_links; [| |exact Hok].
      - unfold s0. simpl. by eapply same_links_insert.
      - intros q. by destruct q. }
    assert (heap s0 !! currentFiber s0 = Some cr0) as Hl0 by apply lookup_insert_eq.
    assert (flag_set (flags cr0) MICROBIT_FIBER_FLAG_FOB = false) as Hfob0
      by apply flag_clear_self.
    assert (is_Some (heap s0 !! idle s0)) as Hil0.
    { unfold s0. simpl. by rewrite lookup_insert_ne. }
    destruct (release_fiber_moves s0 L cr0 Hok0 Hc Hl0 Hon)
      as (s1 & cr1 & Hrel & _ & _ & _ & _ & _ & _ & _ & Hkeep).
    destruct (release_run s0 L cr0 Hok0 Hc Hl0 Hfob0 Hon Hi Hic Hil0 Hstack)
      as (s' & Hrun & Hne & _ & Hp & Hok').
    rewrite Hrel in Hrun.
    destruct (Hkeep _ _ Hrun) as (_ & _ & cr' & Hl' & Hq' & _ & Hfl').
    specialize (Hfl' Hfob0).
    exists s', cr'. split.
    { rewrite (fork_on_block_return_unfold s cr Hc Hl).
      by rewrite (flag_clear_disjoint _ _ _ Hdis), Hchild. }
    split; [by rewrite Hrel|]. do 4 (split; [done|]). split; [done|].
    split.
    { rewrite Hfl'. unfold cr0. cbn [flags set_flags].
      by rewrite (flag_clear_disjoint _ _ _ Hdis). }
    split; [by rewrite Hfl'|done].
Qed.

End ForkClaim.

(** Fiber 256 calls [fork_on_block]; the handler sleeps; a record is
    allocated at 1024 for the forked fiber.  The blocking call comes back at
    the snapshot and [fork_on_block] returns with the flags of 256 all
    clear, while the forked fiber waits on the sleep queue with CHILD (4)
    set.  When a fiber that carries CHILD and FOB (flags 5) comes to the
    end of the handler, it is released: its record is the head of the pool
    with the flags 4, and the idle fiber 512 runs. *)
Lemma fork_on_block_flags_witness :
  (exists s3 s4 cr4,
     fiber_sleep (hw := microbit) 10 (one_fiber 1 536887260 [1024; 12288])
       = Ok Resumes_at_snapshot s3 /\
     fork_on_block_snapshot (hw := microbit) s3 = Ok Exits s4 /\
     heap s4 !! 256 = Some cr4 /\
     flag_set (flags cr4) 1 = false /\ flag_set (flags cr4) 2 = false) /\
  (exists s' cr',
     fork_on_block_return (hw := microbit) (one_fiber 5 536887260 []) = Ok Switched s' /\
     currentFiber s' <> 256 /\ fiberPool s' = 256 /\
     heap s' !! 256 = Some cr' /\ flags cr' = 4) /\
  match fork_on_block (hw := microbit) 4200 (one_fiber 0 536887260 [1024; 12288]) with
  | Ok Calls_handler s1 =>
      match fiber_sleep (hw := microbit) 10 s1 with
      | Ok Resumes_at_snapshot s3 =>
          match fork_on_block_snapshot (hw := microbit) s3 with
          | Ok Exits s4 =>
              flags <$> (heap s4 !! 256) = Some 0 /\
              flags <$> (heap s4 !! 1024) = Some 4 /\
              sleepQueue s4 = 1024 /\ runQueue s4 = 256 /\ currentFiber s4 = 256
          | _ => False
          end
      | _ => False
      end
  | _ => False
  end /\
  match fork_on_block_return (hw := microbit) (one_fiber 5 536887260 []) with
  | Ok Switched s' => currentFiber s' = 512 /\ fiberPool s' = 256 /\ runQueue s' = 0
  | _ => False
  end.
Proof.
  split; [|split].
  - destruct (proj1 (proj2 (proj2 (fork_on_block_flags (hw := microbit)
                (one_fiber 1 536887260 [1024; 12288]) one_fiber_queues
                (example_fiber 4096 1 (Some RunQueue) 0 0) 4200 0 10 5 7
                (one_fiber_ok 1 536887260 [1024; 12288])
                ltac:(vm_compute; discriminate) eq_refl))))
      as [(s3 & s4 & cr4 & H1 & _ & H3 & _ & H5 & H6 & H7) _].
    + vm_compute. discriminate.
    + reflexivity.
    + vm_compute. set_solver.
    + intros _. vm_compute. repeat split; discriminate.
    + vm_compute. eauto.
    + exists s3, s4, cr4. auto.
  - destruct (proj2 (proj2 (proj2 (fork_on_block_flags (hw := microbit)
                (one_fiber 5 536887260 []) one_fiber_queues
                (example_fiber 4096 5 (Some RunQueue) 0 0) 4200 0 10 5 7
                (one_fiber_ok 5 536887260 [])
                ltac:(vm_compute; discriminate) eq_refl))))
      as (s' & cr' & H1 & H2 & H3 & H4 & H5 & _ & H7 & _).
    + reflexivity.
    + reflexivity.
    + intros q Hq. injection Hq as <-. by apply (bool_decide_unpack _); vm_compute.
    + discriminate.
    + discriminate.
    + by eexists.
    + left. vm_compute. discriminate.
    + exists s', cr'. split; [by rewrite H1|]. split; [exact H3|]. split; [exact H4|].
      split; [exact H5|]. rewrite H7. reflexivity.
  - split; vm_compute; repeat split; reflexivity.
Defined.
